(** * KC705 MobileNetV3 PCIe driver: a shallow embedding of
      [kc705_mobilenet_driver.c] and the properties of its control protocol.

    The driver talks to the accelerator through two memory-mapped PCI
    windows (BAR0: control/status registers, BAR1: image and result
    memory).  The embedding keeps the program's shape:

    - a [kc705_device_t*] is an optional heap location; the heap maps the
      live locations to their structs, so that [free] really removes the
      struct and a later dereference is undefined;
    - an [mmap] result is a three-valued pointer (null, [MAP_FAILED], or a
      mapping of one PCI resource with the length it was mapped with),
      because the code tests both; an access outside the mapped length is
      undefined;
    - device memory is byte addressed; 32-bit accesses are little endian
      (the host of a PCIe board is x86);
    - the accelerator changes device memory while the driver sleeps: one
      application of [accel] per millisecond of [usleep];
    - every function runs in a small state monad whose result is either a
      value with the new world or [Undef] (C undefined behaviour reached).

    A caller's image buffer is the list of its bytes, and a read past its
    end is undefined; the [float] confidence is an IEEE 754 binary32 value
    ([spec_float] of the Standard Library at precision 24).

    Not modelled: the text printed by [DEBUG_PRINT], and the heap cell of
    the image buffer that [kc705_load_image] allocates and
    [kc705_infer_file] frees (only the failure of that allocation is). *)

From stdpp Require Import base gmap strings list.
From Stdlib Require Import ZArith Lia DecimalString Floats.SpecFloat.

Local Open Scope Z_scope.

(** ** Constants of [kc705_mobilenet_driver.h] *)

Definition KC705_VENDOR_ID : Z := 0x10EE.
Definition KC705_DEVICE_ID : Z := 0x7024.
Definition KC705_MAX_DEVICES : Z := 8.

Definition KC705_REG_BASE : Z := 0x0000.
Definition KC705_IMAGE_BASE : Z := 0x1000.
Definition KC705_RESULT_BASE : Z := 0x2000.
Definition KC705_WEIGHT_BASE : Z := 0x10000.

Definition REG_CONTROL : Z := 0x00.
Definition REG_STATUS : Z := 0x04.
Definition REG_INTERRUPT : Z := 0x08.
Definition REG_IMAGE_SIZE : Z := 0x0C.
Definition REG_IMAGE_ADDR : Z := 0x10.
Definition REG_RESULT_ADDR : Z := 0x14.
Definition REG_WEIGHT_ADDR : Z := 0x18.
Definition REG_DEBUG : Z := 0x1C.

Definition CTRL_START : Z := Z.shiftl 1 0.
Definition CTRL_RESET : Z := Z.shiftl 1 1.
Definition CTRL_IRQ_EN : Z := Z.shiftl 1 2.
Definition CTRL_DMA_EN : Z := Z.shiftl 1 3.

Definition STAT_DONE : Z := Z.shiftl 1 0.
Definition STAT_BUSY : Z := Z.shiftl 1 1.
Definition STAT_ERROR : Z := Z.shiftl 1 2.
Definition STAT_LINK_UP : Z := Z.shiftl 1 3.

Definition IMAGE_WIDTH : Z := 224.
Definition IMAGE_HEIGHT : Z := 224.
Definition IMAGE_CHANNELS : Z := 3.
Definition IMAGE_SIZE : Z := IMAGE_WIDTH * IMAGE_HEIGHT * IMAGE_CHANNELS.
Definition NUM_CLASSES : Z := 1000.

Definition KC705_SUCCESS : Z := 0.
Definition KC705_ERROR : Z := -1.
Definition KC705_TIMEOUT : Z := -2.
Definition KC705_NO_DEVICE : Z := -3.
Definition KC705_INVALID_PARAM : Z := -4.

(** Lengths passed to [mmap]/[munmap] and the limits written in the code. *)
Definition REG_WINDOW_LEN : Z := 4096.
Definition MEM_WINDOW_LEN : Z := 65536.
Definition UPLOAD_LIMIT : Z := 4096.
Definition timeout_ms : Z := 5000.

(** ** Data model *)

(** Address of a [kc705_device_t] on the C heap. *)
Definition loc := nat.

(** A PCI resource file: the sysfs path of the device and the BAR number. *)
Definition bar_id := (string * nat)%type.

(** The value of a [void*] that came from [mmap] (or from [memset 0]). *)
Inductive mapping :=
| NullPtr
| MapFailed
| Mapped (b : bar_id) (len : Z).

Definition is_null (p : mapping) : bool :=
  match p with NullPtr => true | _ => false end.

Definition is_map_failed (p : mapping) : bool :=
  match p with MapFailed => true | _ => false end.

Record kc705_device := mk_device {
  pci_fd : Z;
  reg_base : mapping;
  mem_base : mapping;
  bar_size : list Z;
  is_open : bool;
  device_id : Z;
  device_path : string
}.

Record classification_result := mk_result {
  class_id : Z;
  confidence : spec_float;
  processing_time_us : Z;
  valid : bool
}.

Record device_info := mk_device_info {
  vendor_id : Z;
  info_device_id : Z;   (* the field device_id of device_info_t *)
  revision : Z;
  driver_version : string;
  link_up : bool;
  link_speed : Z;
  link_width : Z
}.

(** What the operating system and the bus see of a run. *)
Inductive event :=
| EvRegRead (b : bar_id) (off : Z)
| EvRegWrite (b : bar_id) (off : Z) (v : Z)
| EvMemRead (b : bar_id) (off : Z)
| EvMemcpy (b : bar_id) (off : Z) (n : Z)
| EvSleep (us : Z)
| EvMunmap (b : bar_id) (len : Z)
| EvCloseFd (fd : Z)
| EvFree (l : loc).

(** One entry of the PCI bus as the discovery code and [map_pci_device]
    meet it: identity, sysfs path, and what [open]/[mmap] answer for its
    two resource files. *)
Record pci_dev := mk_pci_dev {
  pci_vendor : Z;
  pci_device : Z;
  sysfs_path : string;
  res0_open : Z;        (* return value of open(".../resource0") *)
  res0_mmap_ok : bool;  (* mmap of BAR0 succeeds *)
  res1_open : Z;        (* return value of open(".../resource1") *)
  res1_mmap_ok : bool   (* mmap of BAR1 succeeds *)
}.

Definition devmem := bar_id -> Z -> Z.

Record world := mk_world {
  heap : gmap loc kc705_device;      (* live kc705_device_t structs *)
  iomem : devmem;                    (* bytes of the PCI resources *)
  accel : nat -> devmem -> devmem;   (* the board, during millisecond t *)
  clock : nat;                       (* milliseconds slept so far *)
  trace : list event;                (* oldest first *)
  bus : list pci_dev;
  files : string -> option (list Z); (* the file system of fopen/fread *)
  malloc_fails : bool;
  indeterminate : Z                  (* value of an uninitialised uint32_t *)
}.

Definition set_heap (h : gmap loc kc705_device) (w : world) : world :=
  mk_world h (iomem w) (accel w) (clock w) (trace w) (bus w) (files w)
           (malloc_fails w) (indeterminate w).

Definition set_iomem (m : devmem) (w : world) : world :=
  mk_world (heap w) m (accel w) (clock w) (trace w) (bus w) (files w)
           (malloc_fails w) (indeterminate w).

Definition log (e : event) (w : world) : world :=
  mk_world (heap w) (iomem w) (accel w) (clock w) (trace w ++ [e]) (bus w)
           (files w) (malloc_fails w) (indeterminate w).

(** One millisecond passes: the board rewrites device memory. *)
Definition tick (w : world) : world :=
  mk_world (heap w) (accel w (clock w) (iomem w)) (accel w) (S (clock w))
           (trace w) (bus w) (files w) (malloc_fails w) (indeterminate w).

(** ** The monad of driver code *)

Inductive outcome (A : Type) :=
| Ok (a : A) (w : world)
| Undef
| OutOfFuel.

Arguments Ok {A} a w.
Arguments Undef {A}.
Arguments OutOfFuel {A}.

Definition M (A : Type) := world -> outcome A.

Definition ret {A} (a : A) : M A := fun w => Ok a w.

Definition bind {A B} (m : M A) (k : A -> M B) : M B :=
  fun w => match m w with
           | Ok a w' => k a w'
           | Undef => Undef
           | OutOfFuel => OutOfFuel
           end.

Notation "'let*' x := c 'in' k" := (bind c (fun x => k))
  (at level 10, x pattern, c at level 100, k at level 200).

Definition undef {A} : M A := fun _ => Undef.
Definition out_of_fuel {A} : M A := fun _ => OutOfFuel.
Definition emit (e : event) : M unit := fun w => Ok tt (log e w).
Definition uninit : M Z := fun w => Ok (indeterminate w) w.

(** ** Memory *)

Definition byte_at (m : Z -> Z) (a : Z) : Z := m a mod 256.

Definition load32 (m : Z -> Z) (a : Z) : Z :=
  byte_at m a + 256 * byte_at m (a + 1) + 65536 * byte_at m (a + 2)
  + 16777216 * byte_at m (a + 3).

Definition store32 (m : Z -> Z) (a v : Z) : Z -> Z :=
  fun x => if (a <=? x) && (x <? a + 4)
           then Z.shiftr v (8 * (x - a)) mod 256
           else m x.

Definition copy_bytes (m : Z -> Z) (dst : Z) (src : Z -> Z) (n : Z) : Z -> Z :=
  fun x => if (dst <=? x) && (x <? dst + n) then byte_at src (x - dst) else m x.

Definition bar_eqb (a b : bar_id) : bool := bool_decide (a = b).

Definition upd_bar (m : devmem) (b : bar_id) (f : Z -> Z) : devmem :=
  fun b' => if bar_eqb b' b then f else m b'.

(** Dereferencing a device pointer: undefined once the struct is freed. *)
Definition load_dev (l : loc) : M kc705_device :=
  fun w => match heap w !! l with
           | Some d => Ok d w
           | None => Undef
           end.

Definition store_dev (l : loc) (d : kc705_device) : M unit :=
  fun w => match heap w !! l with
           | Some _ => Ok tt (set_heap (<[l := d]> (heap w)) w)
           | None => Undef
           end.

(** The [n] bytes from byte offset [off] lie inside a mapping of [len]
    bytes. *)
Definition in_window (len off n : Z) : bool := (0 <=? off) && (off + n <=? len).

(** A volatile 32-bit access at byte offset [off] of a mapped window;
    outside the mapped length the access is undefined. *)
Definition mmio_read (p : mapping) (off : Z) : M Z :=
  fun w => match p with
           | Mapped b len =>
               if in_window len off 4
               then Ok (load32 (iomem w b) off) (log (EvRegRead b off) w)
               else Undef
           | _ => Undef
           end.

Definition mmio_write (p : mapping) (off v : Z) : M unit :=
  fun w => match p with
           | Mapped b len =>
               if in_window len off 4
               then Ok tt (log (EvRegWrite b off v)
                             (set_iomem (upd_bar (iomem w) b (store32 (iomem w b) off v)) w))
               else Undef
           | _ => Undef
           end.

(** A plain 32-bit load from the data window ([result_ptr[k]]). *)
Definition mem_read32 (p : mapping) (off : Z) : M Z :=
  fun w => match p with
           | Mapped b len =>
               if in_window len off 4
               then Ok (load32 (iomem w b) off) (log (EvMemRead b off) w)
               else Undef
           | _ => Undef
           end.

(** A caller's buffer: the bytes of the object that the pointer
    designates.  [bytes_of] reads it as memory. *)
Definition bytes_of (buf : list Z) : Z -> Z := fun i => nth (Z.to_nat i) buf 0.

(** The 32-bit load from byte offset [i] of a buffer: undefined when the
    four bytes do not all lie inside the buffer. *)
Definition read_word (buf : list Z) (i : Z) : M Z :=
  if (0 <=? i) && (i + 4 <=? Z.of_nat (length buf))
  then ret (load32 (bytes_of buf) i)
  else undef.

(** [memcpy] of [n] bytes of the buffer [src] to byte offset [off] of a
    mapped window: undefined when the buffer is shorter than [n] or the
    destination leaves the mapped length. *)
Definition memcpy_to (p : mapping) (off : Z) (src : list Z) (n : Z) : M unit :=
  fun w => match p with
           | Mapped b len =>
               if in_window len off n && (n <=? Z.of_nat (length src))
               then Ok tt (log (EvMemcpy b off n)
                             (set_iomem (upd_bar (iomem w) b
                                           (copy_bytes (iomem w b) off (bytes_of src) n)) w))
               else Undef
           | _ => Undef
           end.

(** [usleep(us)]: the call returns after [us / 1000] milliseconds. *)
Definition usleep (us : Z) : M unit :=
  fun w => Ok tt (log (EvSleep us) (Nat.iter (Z.to_nat (us / 1000)) tick w)).

(** Conversion to [uint32_t] (of a [size_t] argument, of an offset sum). *)
Definition u32 (z : Z) : Z := z mod 2 ^ 32.

(** ** Register access functions *)

(** [value] is the content of the variable that the caller's pointer
    designates; the function returns its status and that content as the
    call leaves it. *)
Definition kc705_read_reg (device : option loc) (offset value : Z) : M (Z * Z) :=
  match device with
  | None => ret (KC705_INVALID_PARAM, value)
  | Some l =>
      let* d := load_dev l in
      if negb (is_open d) || is_null (reg_base d)
      then ret (KC705_INVALID_PARAM, value)
      else let* v := mmio_read (reg_base d) offset in
           ret (KC705_SUCCESS, v)
  end.

Definition kc705_write_reg (device : option loc) (offset value : Z) : M Z :=
  match device with
  | None => ret KC705_INVALID_PARAM
  | Some l =>
      let* d := load_dev l in
      if negb (is_open d) || is_null (reg_base d)
      then ret KC705_INVALID_PARAM
      else let* _ := mmio_write (reg_base d) offset value in
           ret KC705_SUCCESS
  end.

Definition kc705_get_debug_status (device : option loc) : M Z :=
  let* rv := kc705_read_reg device REG_DEBUG 0 in
  ret (snd rv).

(** ** Status and control functions *)

Definition kc705_is_done (device : option loc) : M bool :=
  let* status0 := uninit in
  let* rv := kc705_read_reg device REG_STATUS status0 in
  if negb (fst rv =? KC705_SUCCESS)
  then ret false
  else ret (negb (Z.land (snd rv) STAT_DONE =? 0)).

Definition kc705_reset (device : option loc) : M Z :=
  let* r := kc705_write_reg device REG_CONTROL CTRL_RESET in
  if negb (r =? KC705_SUCCESS) then ret r
  else let* _ := usleep 1000 in
       kc705_write_reg device REG_CONTROL 0.

(** ** Image processing functions *)

(** The register fallback of the upload:
    [for (i = 0; i < size; i += 4) write_reg(IMAGE_BASE + i, word at i)]. *)
Fixpoint upload_words (fuel : nat) (device : option loc) (image_data : list Z)
    (i size : Z) : M unit :=
  if i <? size then
    match fuel with
    | O => out_of_fuel
    | S fuel' =>
        let* word := read_word image_data i in
        let* _ := kc705_write_reg device (u32 (KC705_IMAGE_BASE + i)) word in
        upload_words fuel' device image_data (i + 4) size
    end
  else ret tt.

Definition kc705_upload_image (device : option loc) (image_data : option (list Z))
    (size : Z) : M Z :=
  match device with
  | None => ret KC705_INVALID_PARAM
  | Some l =>
      let* d := load_dev l in
      if negb (is_open d) then ret KC705_INVALID_PARAM
      else match image_data with
           | None => ret KC705_INVALID_PARAM
           | Some img =>
               if size >? UPLOAD_LIMIT then ret KC705_INVALID_PARAM
               else
                 let* _ :=
                   (if negb (is_null (mem_base d))
                    then memcpy_to (mem_base d) KC705_IMAGE_BASE img size
                    else upload_words (Z.to_nat size) device img 0 size) in
                 let* _ := kc705_write_reg device REG_IMAGE_SIZE (u32 size) in
                 ret KC705_SUCCESS
           end
  end.

Definition kc705_start_inference (device : option loc) : M Z :=
  match device with
  | None => ret KC705_INVALID_PARAM
  | Some l =>
      let* d := load_dev l in
      if negb (is_open d) then ret KC705_INVALID_PARAM
      else
        let control := Z.lor CTRL_START CTRL_IRQ_EN in
        kc705_write_reg device REG_CONTROL control
  end.

(** The polling loop of [kc705_get_result]:
    [while (!kc705_is_done(device) && elapsed_ms < timeout_ms)
       { usleep(1000); elapsed_ms++; }].  It yields the final [elapsed_ms]. *)
Fixpoint wait_done (fuel : nat) (device : option loc) (elapsed_ms : Z) : M Z :=
  let* done := kc705_is_done device in
  if negb done && (elapsed_ms <? timeout_ms) then
    match fuel with
    | O => out_of_fuel
    | S fuel' =>
        let* _ := usleep 1000 in
        wait_done fuel' device (elapsed_ms + 1)
    end
  else ret elapsed_ms.

(** The three result words: from the data window when [mem_base] is not
    null, else by three register reads whose status is not looked at. *)
Definition read_result_words (device : option loc) (d : kc705_device) : M (Z * Z * Z) :=
  if negb (is_null (mem_base d)) then
    let* class_id := mem_read32 (mem_base d) (KC705_RESULT_BASE + 4 * 0) in
    let* confidence_raw := mem_read32 (mem_base d) (KC705_RESULT_BASE + 4 * 1) in
    let* timing := mem_read32 (mem_base d) (KC705_RESULT_BASE + 4 * 2) in
    ret (class_id, confidence_raw, timing)
  else
    let* c0 := uninit in
    let* r0 := uninit in
    let* t0 := uninit in
    let* c := kc705_read_reg device (KC705_RESULT_BASE + 0) c0 in
    let* r := kc705_read_reg device (KC705_RESULT_BASE + 4) r0 in
    let* t := kc705_read_reg device (KC705_RESULT_BASE + 8) t0 in
    ret (snd c, snd r, snd t).

(** IEEE 754 binary32: the conversion of a [uint32_t] to [float] and the
    [float] division, both rounding to nearest even. *)
Definition f32_of_u32 (n : Z) : spec_float := binary_normalize 24 128 n 0 false.
Definition f32_div (x y : spec_float) : spec_float := SFdiv 24 128 x y.

(** [result->...] assignments on the success path; the confidence is
    [(float)confidence_raw / 10000.0f]. *)
Definition fill_result (class_id confidence_raw timing : Z) : classification_result :=
  {| class_id := class_id mod NUM_CLASSES;
     confidence := f32_div (f32_of_u32 confidence_raw) (f32_of_u32 10000);
     processing_time_us := timing;
     valid := true |}.

(** The [result] parameter is the pointer (None is NULL) with the record
    it points to; the function returns its status and the record as the
    call leaves it. *)
Definition kc705_get_result (device : option loc)
    (result : option classification_result)
  : M (Z * option classification_result) :=
  match device with
  | None => ret (KC705_INVALID_PARAM, result)
  | Some l =>
      let* d := load_dev l in
      if negb (is_open d) then ret (KC705_INVALID_PARAM, result)
      else match result with
           | None => ret (KC705_INVALID_PARAM, result)
           | Some _ =>
               let* elapsed_ms := wait_done (Z.to_nat timeout_ms) device 0 in
               if elapsed_ms >=? timeout_ms then ret (KC705_TIMEOUT, result)
               else
                 let* d' := load_dev l in
                 let* words := read_result_words device d' in
                 let '(class_id, confidence_raw, timing) := words in
                 ret (KC705_SUCCESS,
                      Some (fill_result class_id confidence_raw timing))
           end
  end.

Definition kc705_get_result_nowait (device : option loc)
    (result : option classification_result)
  : M (Z * option classification_result) :=
  let* done := kc705_is_done device in
  if negb done then ret (KC705_TIMEOUT, result)
  else kc705_get_result device result.

(** ** Convenience functions *)

Definition kc705_infer (device : option loc) (image_data : option (list Z))
    (size : Z) (result : option classification_result)
  : M (Z * option classification_result) :=
  let* r := kc705_upload_image device image_data size in
  if negb (r =? KC705_SUCCESS) then ret (r, result)
  else
    let* r := kc705_start_inference device in
    if negb (r =? KC705_SUCCESS) then ret (r, result)
    else kc705_get_result device result.

(** [kc705_load_image]: [fopen] fails on a missing file; the result of
    [malloc(image_size)] is not tested, so when the allocation fails
    [fread] is handed the null pointer (undefined); [fread] fails on a file
    shorter than 224*224*3 bytes; otherwise the buffer holds the first
    150528 bytes and the dimensions are the fixed ones. *)
Definition kc705_load_image (filename : string) : M (option (list Z * Z * Z * Z)) :=
  fun w =>
    match files w filename with
    | None => Ok None w
    | Some content =>
        let image_size := 224 * 224 * 3 in
        if malloc_fails w then Undef
        else if Z.of_nat (length content) <? image_size then Ok None w
        else Ok (Some (take (Z.to_nat image_size) content, 224, 224, 3)) w
    end.

Definition kc705_infer_file (device : option loc) (filename : string)
    (result : option classification_result)
  : M (Z * option classification_result) :=
  let* loaded := kc705_load_image filename in
  match loaded with
  | None => ret (KC705_ERROR, result)
  | Some (image_data, width, height, channels) =>
      kc705_infer device (Some image_data) (width * height * channels) result
  end.

(** ** Batch processing *)

Section Batch.
Variable infer_file :
  option loc -> string -> option classification_result ->
  M (Z * option classification_result).

(** The loop of [kc705_infer_batch] over the primitive it calls for each
    file.  [results] is the caller's array; the slot handed to the
    primitive is the one at index [processed], whatever the index of the
    input; a slot outside the array is undefined. *)
Fixpoint batch_loop (device : option loc) (image_files : list string)
    (processed : nat) (results : list classification_result)
  : M (nat * list classification_result) :=
  match image_files with
  | [] => ret (processed, results)
  | file :: rest =>
      match results !! processed with
      | None => undef
      | Some slot =>
          let* rv := infer_file device file (Some slot) in
          let results' :=
            match snd rv with
            | Some slot' => <[processed := slot']> results
            | None => results
            end in
          if fst rv =? KC705_SUCCESS
          then batch_loop device rest (S processed) results'
          else batch_loop device rest processed results'
      end
  end.

Definition infer_batch_with (device : option loc) (image_files : list string)
    (results : list classification_result)
  : M (nat * list classification_result) :=
  batch_loop device image_files 0%nat results.
End Batch.

Definition kc705_infer_batch :
    option loc -> list string -> list classification_result ->
    M (nat * list classification_result) :=
  infer_batch_with kc705_infer_file.

(** ** Closing a device *)

Definition munmap (p : mapping) (len : Z) : M unit :=
  match p with
  | Mapped b _ => emit (EvMunmap b len)
  | _ => ret tt
  end.

Definition close_fd (fd : Z) : M unit := emit (EvCloseFd fd).

(** [free(p)]: the struct is gone; freeing what is not allocated is
    undefined. *)
Definition free (l : loc) : M unit :=
  fun w => match heap w !! l with
           | Some _ => Ok tt (log (EvFree l) (set_heap (delete l (heap w)) w))
           | None => Undef
           end.

Definition set_is_open (b : bool) (d : kc705_device) : kc705_device :=
  mk_device (pci_fd d) (reg_base d) (mem_base d) (bar_size d) b (device_id d)
            (device_path d).

Definition kc705_close (device : option loc) : M Z :=
  match device with
  | None => ret KC705_INVALID_PARAM
  | Some l =>
      let* d := load_dev l in
      if negb (is_open d) then ret KC705_INVALID_PARAM
      else
        let* _ := (if negb (is_null (reg_base d)) && negb (is_map_failed (reg_base d))
                   then munmap (reg_base d) REG_WINDOW_LEN else ret tt) in
        let* _ := (if negb (is_null (mem_base d)) && negb (is_map_failed (mem_base d))
                   then munmap (mem_base d) MEM_WINDOW_LEN else ret tt) in
        let* _ := (if pci_fd d >=? 0 then close_fd (pci_fd d) else ret tt) in
        let* _ := store_dev l (set_is_open false d) in
        let* _ := free l in
        ret KC705_SUCCESS
  end.

(** ** Opening a device *)

(** The scan of [kc705_enumerate_devices] (the libpci build): the devices
    of the bus in order, those with the board's identity up to
    [max_devices] of them.  [count] is the number of paths found so far. *)
Fixpoint pci_scan (devs : list pci_dev) (max_devices : Z) (paths : list string)
  : list string :=
  match devs with
  | [] => paths
  | dev :: rest =>
      if Z.of_nat (length paths) <? max_devices then
        if (pci_vendor dev =? KC705_VENDOR_ID) && (pci_device dev =? KC705_DEVICE_ID)
        then pci_scan rest max_devices (paths ++ [sysfs_path dev])
        else pci_scan rest max_devices paths
      else paths
  end.

Definition kc705_enumerate_devices (max_devices : Z) : M (list string) :=
  fun w => Ok (pci_scan (bus w) max_devices []) w.

Definition zero_device : kc705_device :=
  mk_device 0 NullPtr NullPtr [0; 0; 0; 0; 0; 0] false 0 "".

(** [malloc(sizeof(kc705_device_t))] followed by [memset(device, 0, ...)]. *)
Definition malloc_zeroed : M (option loc) :=
  fun w => if malloc_fails w then Ok None w
           else let l := fresh (dom (heap w)) in
                Ok (Some l) (set_heap (<[l := zero_device]> (heap w)) w).

Definition find_pci (path : string) (devs : list pci_dev) : option pci_dev :=
  List.find (fun dev => bool_decide (sysfs_path dev = path)) devs.

(** Answers of the operating system for the resource files of [path];
    a path that is no device of the bus cannot be opened. *)
Definition os_open (path : string) (res : nat) : M Z :=
  fun w => match find_pci path (bus w) with
           | Some dev => Ok (if (res =? 0)%nat then res0_open dev else res1_open dev) w
           | None => Ok (-1) w
           end.

Definition os_mmap (path : string) (res : nat) (len : Z) : M mapping :=
  fun w => match find_pci path (bus w) with
           | Some dev =>
               Ok (if (if (res =? 0)%nat then res0_mmap_ok dev else res1_mmap_ok dev)
                   then Mapped (path, res) len else MapFailed) w
           | None => Ok MapFailed w
           end.

Definition map_pci_device (l : loc) (path : string) : M Z :=
  let* fd := os_open path 0 in
  let* d := load_dev l in
  let d := mk_device fd (reg_base d) (mem_base d) (bar_size d) (is_open d)
                     (device_id d) (device_path d) in
  let* _ := store_dev l d in
  if fd <? 0 then ret KC705_ERROR
  else
    let* rb := os_mmap path 0 REG_WINDOW_LEN in
    let d := mk_device (pci_fd d) rb (mem_base d) (bar_size d) (is_open d)
                       (device_id d) (device_path d) in
    let* _ := store_dev l d in
    if is_map_failed rb then
      let* _ := close_fd fd in
      ret KC705_ERROR
    else
      let* mem_fd := os_open path 1 in
      let* _ :=
        (if mem_fd >=? 0 then
           let* mb := os_mmap path 1 MEM_WINDOW_LEN in
           let* _ := store_dev l (mk_device (pci_fd d) (reg_base d) mb (bar_size d)
                                            (is_open d) (device_id d) (device_path d)) in
           close_fd mem_fd
         else ret tt) in
      ret KC705_SUCCESS.

(** [device_paths[device_index]]: an index outside the entries that the
    scan filled reads memory that holds no path. *)
Definition path_at (device_paths : list string) (device_index : Z) : M string :=
  if device_index <? 0 then undef
  else match device_paths !! Z.to_nat device_index with
       | Some p => ret p
       | None => undef
       end.

Definition kc705_open_device (device_index : Z) : M (option loc) :=
  let* device_paths := kc705_enumerate_devices KC705_MAX_DEVICES in
  let num_devices := Z.of_nat (length device_paths) in
  if num_devices =? 0 then ret None
  else if device_index >=? num_devices then ret None
  else
    let* device := malloc_zeroed in
    match device with
    | None => ret None
    | Some l =>
        let* path := path_at device_paths device_index in
        let* d := load_dev l in
        let* _ := store_dev l (mk_device (pci_fd d) (reg_base d) (mem_base d)
                                 (bar_size d) (is_open d) (device_id d) path) in
        let* r := map_pci_device l path in
        if negb (r =? KC705_SUCCESS) then
          let* _ := free l in
          ret None
        else
          let* d := load_dev l in
          let* _ := store_dev l (mk_device (pci_fd d) (reg_base d) (mem_base d)
                                   (bar_size d) true (u32 device_index) path) in
          ret (Some l)
    end.

Definition kc705_open : M (option loc) := kc705_open_device 0.

(** ** Device information *)

Definition the_driver_version : string := "1.0.0".

(** The status read is not checked: when it is refused, [status] keeps
    its indeterminate value.  [is_open] is not tested here. *)
Definition kc705_get_device_info (device : option loc) (info : option device_info)
  : M (Z * option device_info) :=
  match device, info with
  | None, _ => ret (KC705_INVALID_PARAM, info)
  | _, None => ret (KC705_INVALID_PARAM, info)
  | Some _, Some _ =>
      let* status0 := uninit in
      let* rv := kc705_read_reg device REG_STATUS status0 in
      let status := snd rv in
      ret (KC705_SUCCESS,
           Some {| vendor_id := KC705_VENDOR_ID;
                   info_device_id := KC705_DEVICE_ID;
                   revision := 1;
                   driver_version := the_driver_version;
                   link_up := negb (Z.land status STAT_LINK_UP =? 0);
                   link_speed := 5;
                   link_width := 8 |})
  end.

(** ** Utility functions *)

Definition kc705_get_version : string := the_driver_version.

Definition kc705_get_error_string (error_code : Z) : string :=
  if error_code =? KC705_SUCCESS then "Success"
  else if error_code =? KC705_ERROR then "General error"
  else if error_code =? KC705_TIMEOUT then "Operation timeout"
  else if error_code =? KC705_NO_DEVICE then "No device found"
  else if error_code =? KC705_INVALID_PARAM then "Invalid parameter"
  else "Unknown error".

(** ** Class names *)

Definition imagenet_classes : list string :=
  ["tench"; "goldfish"; "great white shark"; "tiger shark"; "hammerhead";
   "electric ray"; "stingray"; "cock"; "hen"; "ostrich"].

(** The [const char*] that [kc705_get_class_name] returns: a string
    literal, or the address of the function's static [class_buffer]. *)
Inductive name_ptr :=
| LiteralName (s : string)
| ClassBuffer.

(** What a caller reads through the pointer while the static buffer holds
    [class_buffer]. *)
Definition name_at (p : name_ptr) (class_buffer : string) : string :=
  match p with
  | LiteralName s => s
  | ClassBuffer => class_buffer
  end.

(** [snprintf(class_buffer, size, "class_%d", class_id)]: at most
    [size - 1] characters are stored.  The conversion is the one of a
    signed [int]; where the driver calls it the value is below 1000. *)
Definition snprintf_class (size : nat) (class_id : Z) : string :=
  String.substring 0 (size - 1)
    (String.append "class_" (NilZero.string_of_int (Z.to_int class_id))).

(** [class_id] is a [uint32_t]; the static buffer is passed in and out. *)
Definition kc705_get_class_name (class_id : Z) (class_buffer : string)
  : name_ptr * string :=
  if class_id >=? 1000 then (LiteralName "unknown", class_buffer)
  else if class_id <? 10
       then (LiteralName (nth (Z.to_nat class_id) imagenet_classes ""), class_buffer)
       else (ClassBuffer, snprintf_class 32 class_id).

(** * Vocabulary of the properties *)

(** ** Worlds and handles *)

(** The world [w] with the events [evs] appended to its trace. *)
Definition logs (evs : list event) (w : world) : world :=
  mk_world (heap w) (iomem w) (accel w) (clock w) (trace w ++ evs) (bus w)
           (files w) (malloc_fails w) (indeterminate w).

(** An open handle: the pointer is live, the struct says open, and the
    register window is the 4096-byte mapping of [rb] (what
    [kc705_open_device] returns).  The data pointer of an open handle is a
    65536-byte mapping, null (no [resource1]) or [MAP_FAILED] (the second
    [mmap] failed); the theorems say which they cover. *)
Definition handle_open (w : world) (l : loc) (d : kc705_device) (rb : bar_id) : Prop :=
  heap w !! l = Some d /\ is_open d = true /\ reg_base d = Mapped rb REG_WINDOW_LEN.

(** ** Polling *)

Definition done_bit (status : Z) : bool := negb (Z.land status STAT_DONE =? 0).

(** What a check of the status register sees in world [w]. *)
Definition done_now (rb : bar_id) (w : world) : bool :=
  done_bit (load32 (iomem w rb) REG_STATUS).

(** The number of sleeps that fit in the timeout. *)
Definition budget : nat := Z.to_nat timeout_ms.

(** The number of sleeps the loop performs when it may sleep at most [n]
    times: the index of the first check that sees DONE, or [n] when no
    check before that does. *)
Fixpoint sleeps_until_done (rb : bar_id) (n : nat) (w : world) : nat :=
  if done_now rb w then 0%nat
  else match n with
       | O => 0%nat
       | S n' => S (sleeps_until_done rb n' (tick w))
       end.

(** The accesses of [k] rounds of the loop: a status read, then a sleep. *)
Fixpoint poll_events (rb : bar_id) (k : nat) : list event :=
  match k with
  | O => []
  | S k' => EvRegRead rb REG_STATUS :: EvSleep 1000 :: poll_events rb k'
  end.

(** What check number [j] of the status register sees (the check after
    [j] sleeps), and whether none of the next [n] checks sees DONE. *)
Definition done_at (rb : bar_id) (w : world) (j : nat) : bool :=
  done_now rb (Nat.iter j tick w).

Fixpoint idle_for (rb : bar_id) (n : nat) (w : world) : bool :=
  match n with
  | O => true
  | S n' => negb (done_now rb w) && idle_for rb n' (tick w)
  end.

(** ** The result record *)

(** Where the three result words come from, and the accesses made. *)
Definition result_source (d : kc705_device) (rb : bar_id) : bar_id :=
  match mem_base d with Mapped mb _ => mb | _ => rb end.

Definition result_events (d : kc705_device) (rb : bar_id) : list event :=
  match mem_base d with
  | Mapped mb _ => [EvMemRead mb (KC705_RESULT_BASE + 0);
                  EvMemRead mb (KC705_RESULT_BASE + 4);
                  EvMemRead mb (KC705_RESULT_BASE + 8)]
  | _ => [EvRegRead rb (KC705_RESULT_BASE + 0);
          EvRegRead rb (KC705_RESULT_BASE + 4);
          EvRegRead rb (KC705_RESULT_BASE + 8)]
  end.

(** The record that the hardware words of world [w] decode to. *)
Definition hw_result (d : kc705_device) (rb : bar_id) (w : world) : classification_result :=
  let m := iomem w (result_source d rb) in
  fill_result (load32 m (KC705_RESULT_BASE + 0)) (load32 m (KC705_RESULT_BASE + 4))
              (load32 m (KC705_RESULT_BASE + 8)).

(** ** Closing and opening *)

Definition unmap_events (p : mapping) (len : Z) : list event :=
  match p with Mapped b _ => [EvMunmap b len] | _ => [] end.

(** What a successful [kc705_close] of the struct [d] at [l] releases. *)
Definition close_events (l : loc) (d : kc705_device) : list event :=
  unmap_events (reg_base d) REG_WINDOW_LEN
  ++ unmap_events (mem_base d) MEM_WINDOW_LEN
  ++ (if pci_fd d >=? 0 then [EvCloseFd (pci_fd d)] else [])
  ++ [EvFree l].

(** What [mem_base] becomes in [map_pci_device]: untouched when
    [resource1] cannot be opened, else whatever [mmap] returned, which the
    code stores without looking at it. *)
Definition mapped_mem (path : string) (dev : pci_dev) (before : mapping) : mapping :=
  if res1_open dev >=? 0
  then (if res1_mmap_ok dev then Mapped (path, 1%nat) MEM_WINDOW_LEN else MapFailed)
  else before.

(** ** The batch *)

(** The outcome of one input: its file, the status of its call, and the
    record the call left in its slot. *)
Definition outcome_of_item : Type := (string * Z * classification_result)%type.

Definition succeeded (o : outcome_of_item) : bool := snd (fst o) =? KC705_SUCCESS.

Definition successes (outs : list outcome_of_item) : list outcome_of_item :=
  List.filter succeeded outs.

Section BatchItems.
Variable infer_file :
  option loc -> string -> option classification_result ->
  M (Z * option classification_result).

(** The batch as the specification tells it: the inputs are taken in
    order and the primitive is invoked once for each, on the first slot
    that no successful item has taken yet ([free] are the slots still to
    be filled).  The value is one outcome per input and the slots never
    taken. *)
Fixpoint batch_items (device : option loc) (image_files : list string)
    (free : list classification_result)
  : M (list outcome_of_item * list classification_result) :=
  match image_files with
  | [] => ret ([], free)
  | file :: rest =>
      match free with
      | [] => undef
      | slot :: free' =>
          let* rv := infer_file device file (Some slot) in
          let slot' := match snd rv with Some s => s | None => slot end in
          let* r := batch_items device rest
                      (if fst rv =? KC705_SUCCESS then free' else slot' :: free') in
          ret ((file, fst rv, slot') :: fst r, snd r)
      end
  end.
End BatchItems.

(** ** Indifference to the ERROR bit *)

(** Two device memories that differ at most in the ERROR bit (bit 2 of the
    status word, which sits in the byte at offset [REG_STATUS]). *)
Definition err_rel (m1 m2 : devmem) : Prop :=
  forall b x,
    if x =? REG_STATUS
    then Z.lor (byte_at (m1 b) x) STAT_ERROR = Z.lor (byte_at (m2 b) x) STAT_ERROR
    else byte_at (m1 b) x = byte_at (m2 b) x.

(** Two worlds that differ at most in the ERROR bit, now and whatever the
    boards do later. *)
Record world_rel (w1 w2 : world) : Prop := mk_world_rel {
  rel_heap : heap w1 = heap w2;
  rel_iomem : err_rel (iomem w1) (iomem w2);
  rel_accel : forall t m1 m2, err_rel m1 m2 -> err_rel (accel w1 t m1) (accel w2 t m2);
  rel_clock : clock w1 = clock w2;
  rel_trace : trace w1 = trace w2;
  rel_bus : bus w1 = bus w2;
  rel_files : files w1 = files w2;
  rel_malloc : malloc_fails w1 = malloc_fails w2;
  rel_indeterminate : indeterminate w1 = indeterminate w2
}.

(** Same kind of outcome, related values, related worlds. *)
Definition out_rel {A} (RA : A -> A -> Prop) (o1 o2 : outcome A) : Prop :=
  match o1, o2 with
  | Ok a1 w1, Ok a2 w2 => RA a1 a2 /\ world_rel w1 w2
  | Undef, Undef => True
  | OutOfFuel, OutOfFuel => True
  | _, _ => False
  end.

Definition m_rel {A} (RA : A -> A -> Prop) (m1 m2 : M A) : Prop :=
  forall w1 w2, world_rel w1 w2 -> out_rel RA (m1 w1) (m2 w2).

(** Two status words that agree outside the ERROR bit. *)
Definition same_but_error (s1 s2 : Z) : Prop :=
  Z.lor s1 STAT_ERROR = Z.lor s2 STAT_ERROR.

(** ** Simulated boards *)

(** One device, its two resources, and register files built by 32-bit
    stores; they are the concrete inputs of the examples. *)
Module Sim.
Definition path : string := "/sys/bus/pci/devices/0000:01:00.0".
Definition regs : bar_id := (path, 0%nat).
Definition mem : bar_id := (path, 1%nat).

(** A handle with both windows mapped, and one without data window. *)
Definition dev_shared : kc705_device :=
  mk_device 3 (Mapped regs REG_WINDOW_LEN) (Mapped mem MEM_WINDOW_LEN)
            [0; 0; 0; 0; 0; 0] true 0 path.
Definition dev_fallback : kc705_device :=
  mk_device 3 (Mapped regs REG_WINDOW_LEN) NullPtr [0; 0; 0; 0; 0; 0] true 0 path.

Definition zero_mem : devmem := fun _ _ => 0.
Definition put32 (b : bar_id) (off v : Z) (m : devmem) : devmem :=
  upd_bar m b (store32 (m b) off v).

(** A board that never changes its memory by itself. *)
Definition still : nat -> devmem -> devmem := fun _ m => m.
(** A board that raises the status word [s] during millisecond [t]. *)
Definition raises (t : nat) (s : Z) : nat -> devmem -> devmem :=
  fun now m => if (now =? t)%nat then put32 regs REG_STATUS s m else m.

(** The handle at location 0, no bus, no files. *)
Definition world_of (d : kc705_device) (m : devmem)
    (a : nat -> devmem -> devmem) : world :=
  mk_world {[ 0%nat := d ]} m a 0 [] [] (fun _ => None) false 0.

(** Result record at the result base of resource [b]. *)
Definition put_result (b : bar_id) (c q t : Z) (m : devmem) : devmem :=
  put32 b (KC705_RESULT_BASE + 8) t
    (put32 b (KC705_RESULT_BASE + 4) q (put32 b (KC705_RESULT_BASE + 0) c m)).

(** A gray image of [n] bytes. *)
Definition gray (n : nat) : list Z := repeat 128 n.

(** A record that an earlier inference left valid (confidence 0.5), and a
    cleared one. *)
Definition stale : classification_result :=
  mk_result 7 (S754_finite false 8388608 (-24)) 9 true.
Definition blank : classification_result := mk_result 0 (S754_zero false) 0 false.
End Sim.

(** The scenario of the specification: STATUS holds DONE and the result
    record holds class 42, raw confidence 8734, 1500 microseconds (in the
    data window, which this handle has mapped). *)
Definition scenario_world : world :=
  Sim.world_of Sim.dev_shared
    (Sim.put32 Sim.regs REG_STATUS STAT_DONE
       (Sim.put_result Sim.mem 42 8734 1500 Sim.zero_mem))
    Sim.still.

(** The same record, on a board that raises DONE only during the 5000th
    millisecond. *)
Definition late_world : world :=
  Sim.world_of Sim.dev_shared
    (Sim.put_result Sim.mem 42 8734 1500 Sim.zero_mem)
    (Sim.raises 4999 STAT_DONE).

(** A device that never raises DONE. *)
Definition silent_world : world :=
  Sim.world_of Sim.dev_shared Sim.zero_mem Sim.still.

(** A device whose result record holds garbage: class word 0xDEADBEEF,
    confidence word 20000. *)
Definition garbage_world : world :=
  Sim.world_of Sim.dev_shared
    (Sim.put32 Sim.regs REG_STATUS STAT_DONE
       (Sim.put_result Sim.mem 0xDEADBEEF 20000 1500 Sim.zero_mem))
    Sim.still.

(** A register file that holds only a status word: DONE, and DONE
    together with ERROR. *)
Definition status_only (s : Z) : devmem :=
  fun _ x => if x =? REG_STATUS then s else 0.

Definition done_world : world :=
  Sim.world_of Sim.dev_shared (status_only STAT_DONE) Sim.still.

Definition done_error_world : world :=
  Sim.world_of Sim.dev_shared (status_only (Z.lor STAT_DONE STAT_ERROR)) Sim.still.

(** A bus without any board, and a bus with one board whose resources
    open and map; no device is open yet. *)
Definition board : pci_dev :=
  mk_pci_dev KC705_VENDOR_ID KC705_DEVICE_ID Sim.path 3 true 4 true.

Definition empty_bus_world : world :=
  mk_world ∅ Sim.zero_mem Sim.still 0 [] [] (fun _ => None) false 0.

Definition one_board_world : world :=
  mk_world ∅ Sim.zero_mem Sim.still 0 [] [board] (fun _ => None) false 0.

(** A bus whose only board has a data resource that opens but does not
    map. *)
Definition unmappable_world : world :=
  mk_world ∅ Sim.zero_mem Sim.still 0 []
           [mk_pci_dev KC705_VENDOR_ID KC705_DEVICE_ID Sim.path 3 true 4 false]
           (fun _ => None) false 0.

(** A bus whose only board has no data resource: [resource1] cannot be
    opened. *)
Definition no_data_board : pci_dev :=
  mk_pci_dev KC705_VENDOR_ID KC705_DEVICE_ID Sim.path 3 true (-1) false.

Definition no_data_world : world :=
  mk_world ∅ Sim.zero_mem Sim.still 0 [] [no_data_board] (fun _ => None) false 0.

(** A per-file primitive for the batch examples: a file named
    [missing.jpg] fails, any other file succeeds with a record that tells
    the length of its name. *)
Definition stub_infer_file (device : option loc) (file : string)
    (result : option classification_result)
  : M (Z * option classification_result) :=
  if String.eqb file "missing.jpg" then ret (KC705_ERROR, result)
  else ret (KC705_SUCCESS,
            Some (fill_result (Z.of_nat (String.length file)) 9000 100)).

(** ** Class names *)

(** The name that a caller reads right after the call. *)
Definition class_name (class_id : Z) : string :=
  let r := kc705_get_class_name class_id "" in name_at (fst r) (snd r).

Fixpoint distinct_strings (l : list string) : bool :=
  match l with
  | [] => true
  | s :: rest => negb (existsb (String.eqb s) rest) && distinct_strings rest
  end.

(** ** Discovery *)

(** The test of the scan: the board's vendor and device identity. *)
Definition is_kc705 (dev : pci_dev) : bool :=
  (pci_vendor dev =? KC705_VENDOR_ID) && (pci_device dev =? KC705_DEVICE_ID).

(** ** Resources of an open *)

(** The descriptor of the data resource is closed as soon as the mapping
    attempt is over. *)
Definition data_fd_events (dev : pci_dev) : list event :=
  if res1_open dev >=? 0 then [EvCloseFd (res1_open dev)] else [].

(** What a failed [map_pci_device] has to give back: the descriptor of
    the register resource, when it had been opened. *)
Definition failed_map_events (dev : pci_dev) : list event :=
  if res0_open dev <? 0 then [] else [EvCloseFd (res0_open dev)].

(** A bus whose only board has a register resource that opens but does
    not map. *)
Definition unmappable_regs_board : pci_dev :=
  mk_pci_dev KC705_VENDOR_ID KC705_DEVICE_ID Sim.path 3 false 4 true.

Definition unmappable_regs_world : world :=
  mk_world ∅ Sim.zero_mem Sim.still 0 [] [unmappable_regs_board]
           (fun _ => None) false 0.

(** The unmappings of a close after a successful open of [dev]. *)
Definition data_unmap_events (path : string) (dev : pci_dev) : list event :=
  if (res1_open dev >=? 0) && res1_mmap_ok dev
  then [EvMunmap (path, 1%nat) MEM_WINDOW_LEN] else [].

(** A handle that no operation accepts: the null pointer, or a live
    struct whose open flag is clear. *)
Definition not_usable (w : world) (device : option loc) : Prop :=
  device = None \/ exists l d, device = Some l /\ heap w !! l = Some d /\ is_open d = false.

(** A handle that may be passed to the driver without undefined
    behaviour: the null pointer or a pointer to a live struct. *)
Definition handle_live (w : world) (device : option loc) : Prop :=
  device = None \/ exists l d, device = Some l /\ heap w !! l = Some d.

(** What [kc705_load_image] makes of a file name: true when the file
    exists and holds at least 224*224*3 bytes. *)
Definition loadable (w : world) (filename : string) : bool :=
  match files w filename with
  | None => false
  | Some content => negb (Z.of_nat (length content) <? 224 * 224 * 3)
  end.

(** A world with one full-size raw image on disk. *)
Definition image_on_disk : world :=
  mk_world (heap scenario_world) (iomem scenario_world) (accel scenario_world)
    (clock scenario_world) (trace scenario_world) (bus scenario_world)
    (fun name => if String.eqb name "frame.raw"
                 then Some (repeat 128 (Z.to_nat (224 * 224 * 3))) else None)
    (malloc_fails scenario_world) (indeterminate scenario_world).

(** A struct that is live but not open, in a world whose uninitialised
    stack words read as 8. *)
Definition closed_world : world :=
  mk_world {[ 0%nat := set_is_open false Sim.dev_shared ]}
    Sim.zero_mem Sim.still 0 [] [] (fun _ => None) false 8.

(** The record [kc705_get_device_info] fills in, given the link bit. *)
Definition info_with_link (up : bool) : device_info :=
  mk_device_info KC705_VENDOR_ID KC705_DEVICE_ID 1 kc705_get_version up 5 8.

(** ** The upload *)

(** A handle without data window on the scenario board, and the buffer of
    [n] bytes whose byte [j] is [j mod 251]. *)
Definition fallback_world : world :=
  Sim.world_of Sim.dev_fallback
    (Sim.put32 Sim.regs REG_STATUS STAT_DONE
       (Sim.put_result Sim.regs 42 8734 1500 Sim.zero_mem))
    Sim.still.

Definition ramp (n : nat) : list Z := map (fun j => Z.of_nat j mod 251) (seq 0 n).

(** * Properties *)

(** ** Memory lemmas *)

Lemma u32_small (z : Z) : 0 <= z < 2 ^ 32 -> u32 z = z.
Proof. intros H. unfold u32. apply Z.mod_small. exact H. Qed.

Lemma le32_bytes (v : Z) :
  v mod 256 + 256 * (Z.shiftr v 8 mod 256) + 65536 * (Z.shiftr v 16 mod 256)
  + 16777216 * (Z.shiftr v 24 mod 256) = v mod 2 ^ 32.
Proof.
  rewrite !Z.shiftr_div_pow2 by lia.
  change (2 ^ 8) with 256. change (2 ^ 16) with (256 * 256).
  change (2 ^ 24) with (256 * 256 * 256).
  change (2 ^ 32) with (256 * 256 * 256 * 256).
  rewrite <- !Z.div_div by lia.
  set (q1 := v / 256). set (q2 := q1 / 256). set (q3 := q2 / 256).
  pose proof (Z.mod_eq v 256 ltac:(lia)) as H0.
  pose proof (Z.mod_eq q1 256 ltac:(lia)) as H1.
  pose proof (Z.mod_eq q2 256 ltac:(lia)) as H2.
  pose proof (Z.mod_eq q3 256 ltac:(lia)) as H3.
  pose proof (Z.mod_eq v (256 * 256 * 256 * 256) ltac:(lia)) as H4.
  rewrite <- !Z.div_div in H4 by lia.
  fold q1 q2 q3 in H0, H1, H2, H3, H4. lia.
Qed.

Lemma byte_at_mod (m : Z -> Z) (a : Z) : byte_at m a mod 256 = byte_at m a.
Proof. unfold byte_at. apply Z.mod_mod. lia. Qed.

Lemma byte_at_store32_in (m : Z -> Z) (a v k : Z) :
  0 <= k < 4 -> byte_at (store32 m a v) (a + k) = Z.shiftr v (8 * k) mod 256.
Proof.
  intros Hk. unfold byte_at, store32.
  replace ((a <=? a + k) && (a + k <? a + 4)) with true
    by (symmetry; apply andb_true_iff; split; [apply Z.leb_le | apply Z.ltb_lt]; lia).
  replace (a + k - a) with k by lia. apply Z.mod_mod. lia.
Qed.

Lemma byte_at_store32_out (m : Z -> Z) (a v x : Z) :
  x < a \/ a + 4 <= x -> byte_at (store32 m a v) x = byte_at m x.
Proof.
  intros Hx. unfold byte_at, store32.
  replace ((a <=? x) && (x <? a + 4)) with false; [reflexivity|].
  symmetry. apply andb_false_iff.
  destruct Hx; [left; apply Z.leb_gt | right; apply Z.ltb_ge]; lia.
Qed.

Lemma load32_store32_same (m : Z -> Z) (a v : Z) :
  load32 (store32 m a v) a = u32 v.
Proof.
  unfold load32, u32.
  replace a with (a + 0) at 2 by lia.
  rewrite !byte_at_store32_in by lia.
  change (8 * 0) with 0. rewrite Z.shiftr_0_r.
  apply le32_bytes.
Qed.

Lemma load32_store32_other (m : Z -> Z) (a v x : Z) :
  x + 4 <= a \/ a + 4 <= x -> load32 (store32 m a v) x = load32 m x.
Proof.
  intros Hx. unfold load32.
  rewrite !byte_at_store32_out by lia. reflexivity.
Qed.

Lemma load32_range (m : Z -> Z) (a : Z) : 0 <= load32 m a < 2 ^ 32.
Proof.
  unfold load32, byte_at.
  pose proof (Z.mod_pos_bound (m a) 256 ltac:(lia)).
  pose proof (Z.mod_pos_bound (m (a + 1)) 256 ltac:(lia)).
  pose proof (Z.mod_pos_bound (m (a + 2)) 256 ltac:(lia)).
  pose proof (Z.mod_pos_bound (m (a + 3)) 256 ltac:(lia)).
  change (2 ^ 32) with 4294967296. lia.
Qed.

Lemma byte_at_copy_bytes_out (m src : Z -> Z) (dst n x : Z) :
  x < dst \/ dst + n <= x -> byte_at (copy_bytes m dst src n) x = byte_at m x.
Proof.
  intros Hx. unfold byte_at, copy_bytes.
  replace ((dst <=? x) && (x <? dst + n)) with false; [reflexivity|].
  symmetry. apply andb_false_iff.
  destruct Hx; [left; apply Z.leb_gt | right; apply Z.ltb_ge]; lia.
Qed.

Lemma load32_copy_bytes_other (m src : Z -> Z) (dst n x : Z) :
  x + 4 <= dst \/ dst + n <= x -> load32 (copy_bytes m dst src n) x = load32 m x.
Proof.
  intros Hx. unfold load32.
  rewrite !byte_at_copy_bytes_out by lia. reflexivity.
Qed.

Lemma bar_eqb_refl (b : bar_id) : bar_eqb b b = true.
Proof. unfold bar_eqb. apply bool_decide_eq_true. reflexivity. Qed.

Lemma bar_eqb_neq (a b : bar_id) : a <> b -> bar_eqb a b = false.
Proof. intros H. unfold bar_eqb. apply bool_decide_eq_false. exact H. Qed.

Lemma upd_bar_same (m : devmem) (b : bar_id) (f : Z -> Z) : upd_bar m b f b = f.
Proof. unfold upd_bar. rewrite bar_eqb_refl. reflexivity. Qed.

Lemma upd_bar_other (m : devmem) (b b' : bar_id) (f : Z -> Z) :
  b' <> b -> upd_bar m b f b' = m b'.
Proof. intros H. unfold upd_bar. rewrite bar_eqb_neq by exact H. reflexivity. Qed.

(** ** Worlds *)

Lemma log_logs (e : event) (w : world) : log e w = logs [e] w.
Proof. reflexivity. Qed.

Lemma logs_logs (a b : list event) (w : world) : logs a (logs b w) = logs (b ++ a) w.
Proof. unfold logs. cbn. rewrite app_assoc. reflexivity. Qed.

Lemma logs_nil (w : world) : logs [] w = w.
Proof. destruct w. unfold logs. cbn. rewrite app_nil_r. reflexivity. Qed.

Lemma tick_logs (evs : list event) (w : world) : tick (logs evs w) = logs evs (tick w).
Proof. reflexivity. Qed.

Lemma iter_tick_logs (k : nat) (evs : list event) (w : world) :
  Nat.iter k tick (logs evs w) = logs evs (Nat.iter k tick w).
Proof.
  induction k as [|k IH]; [reflexivity|].
  rewrite !Nat.iter_succ, IH. apply tick_logs.
Qed.

Lemma heap_iter_tick (k : nat) (w : world) : heap (Nat.iter k tick w) = heap w.
Proof. induction k as [|k IH]; [reflexivity|]. rewrite Nat.iter_succ. exact IH. Qed.

Lemma trace_iter_tick (k : nat) (w : world) : trace (Nat.iter k tick w) = trace w.
Proof. induction k as [|k IH]; [reflexivity|]. rewrite Nat.iter_succ. exact IH. Qed.

Lemma clock_iter_tick (k : nat) (w : world) :
  clock (Nat.iter k tick w) = (clock w + k)%nat.
Proof.
  induction k as [|k IH]; [cbn; lia|].
  rewrite Nat.iter_succ. cbn [tick clock]. rewrite IH. lia.
Qed.

Lemma usleep_1000 (w : world) :
  usleep 1000 w = Ok tt (logs [EvSleep 1000] (tick w)).
Proof. reflexivity. Qed.

Lemma handle_open_heap (w w' : world) l d rb :
  heap w' = heap w -> handle_open w l d rb -> handle_open w' l d rb.
Proof. unfold handle_open. intros ->. tauto. Qed.

Lemma handle_open_logs evs w l d rb :
  handle_open w l d rb -> handle_open (logs evs w) l d rb.
Proof. apply handle_open_heap. reflexivity. Qed.

Lemma handle_open_iter_tick k w l d rb :
  handle_open w l d rb -> handle_open (Nat.iter k tick w) l d rb.
Proof. apply handle_open_heap. apply heap_iter_tick. Qed.

(** ** Register access on an open handle *)

Lemma read_reg_open w l d rb off v :
  handle_open w l d rb -> in_window REG_WINDOW_LEN off 4 = true ->
  kc705_read_reg (Some l) off v w
  = Ok (KC705_SUCCESS, load32 (iomem w rb) off) (logs [EvRegRead rb off] w).
Proof.
  intros (Hh & Ho & Hr) Hin.
  unfold kc705_read_reg, bind, load_dev, ret, mmio_read.
  rewrite Hh, Ho, Hr. cbn [negb orb is_null]. rewrite Hin. reflexivity.
Qed.

Lemma write_reg_open w l d rb off v :
  handle_open w l d rb -> in_window REG_WINDOW_LEN off 4 = true ->
  kc705_write_reg (Some l) off v w
  = Ok KC705_SUCCESS
       (logs [EvRegWrite rb off v]
          (set_iomem (upd_bar (iomem w) rb (store32 (iomem w rb) off v)) w)).
Proof.
  intros (Hh & Ho & Hr) Hin.
  unfold kc705_write_reg, bind, load_dev, ret, mmio_write.
  rewrite Hh, Ho, Hr. cbn [negb orb is_null]. rewrite Hin. reflexivity.
Qed.

(** The code compares no offset with the length of the window: an access
    of an open handle outside the 4096 mapped bytes is made, and is
    undefined. *)
Lemma read_reg_outside w l d rb off v :
  handle_open w l d rb -> in_window REG_WINDOW_LEN off 4 = false ->
  kc705_read_reg (Some l) off v w = Undef.
Proof.
  intros (Hh & Ho & Hr) Hin.
  unfold kc705_read_reg, bind, load_dev, ret, mmio_read.
  rewrite Hh, Ho, Hr. cbn [negb orb is_null]. rewrite Hin. reflexivity.
Qed.

Lemma write_reg_outside w l d rb off v :
  handle_open w l d rb -> in_window REG_WINDOW_LEN off 4 = false ->
  kc705_write_reg (Some l) off v w = Undef.
Proof.
  intros (Hh & Ho & Hr) Hin.
  unfold kc705_write_reg, bind, load_dev, ret, mmio_write.
  rewrite Hh, Ho, Hr. cbn [negb orb is_null]. rewrite Hin. reflexivity.
Qed.

(** A null pointer and a live struct that is not open are refused before
    any access. *)
Lemma read_reg_null off v w :
  kc705_read_reg None off v w = Ok (KC705_INVALID_PARAM, v) w.
Proof. reflexivity. Qed.

Lemma read_reg_not_open w l d off v :
  heap w !! l = Some d -> is_open d = false ->
  kc705_read_reg (Some l) off v w = Ok (KC705_INVALID_PARAM, v) w.
Proof.
  intros Hh Ho. unfold kc705_read_reg, bind, load_dev, ret.
  rewrite Hh, Ho. reflexivity.
Qed.

(** ** Polling *)

Lemma is_done_open w l d rb :
  handle_open w l d rb ->
  kc705_is_done (Some l) w = Ok (done_now rb w) (logs [EvRegRead rb REG_STATUS] w).
Proof.
  intros H. unfold kc705_is_done, bind, uninit.
  rewrite (read_reg_open _ _ _ _ _ _ H) by reflexivity. reflexivity.
Qed.

Lemma is_done_null w : kc705_is_done None w = Ok false w.
Proof. reflexivity. Qed.

Lemma is_done_not_open w l d :
  heap w !! l = Some d -> is_open d = false ->
  kc705_is_done (Some l) w = Ok false w.
Proof.
  intros Hh Ho. unfold kc705_is_done, bind, uninit.
  rewrite (read_reg_not_open _ _ _ _ _ Hh Ho). reflexivity.
Qed.

Lemma done_now_logs rb evs w : done_now rb (logs evs w) = done_now rb w.
Proof. reflexivity. Qed.

Lemma sleeps_until_done_logs rb b evs w :
  sleeps_until_done rb b (logs evs w) = sleeps_until_done rb b w.
Proof.
  revert w. induction b as [|b IH]; intros w; cbn [sleeps_until_done];
    rewrite done_now_logs; [reflexivity|].
  rewrite tick_logs, IH. reflexivity.
Qed.

Lemma sleeps_until_done_le rb b w : (sleeps_until_done rb b w <= b)%nat.
Proof.
  revert w. induction b as [|b IH]; intros w; cbn [sleeps_until_done];
    destruct (done_now rb w); try lia.
  specialize (IH (tick w)). lia.
Qed.

Lemma wait_done_spec l d rb fuel :
  forall w elapsed,
    handle_open w l d rb ->
    0 <= elapsed <= timeout_ms ->
    (Z.to_nat (timeout_ms - elapsed) <= fuel)%nat ->
    wait_done fuel (Some l) elapsed w
    = let k := sleeps_until_done rb (Z.to_nat (timeout_ms - elapsed)) w in
      Ok (elapsed + Z.of_nat k)
         (logs (poll_events rb k ++ [EvRegRead rb REG_STATUS]) (Nat.iter k tick w)).
Proof.
  induction fuel as [|fuel IH]; intros w elapsed Hd He Hf.
  - assert (elapsed = timeout_ms) as -> by lia.
    replace (Z.to_nat (timeout_ms - timeout_ms)) with 0%nat by lia.
    cbn [wait_done sleeps_until_done]. unfold bind.
    rewrite (is_done_open _ _ _ _ Hd), Z.ltb_irrefl, andb_false_r.
    destruct (done_now rb w); cbn; rewrite Z.add_0_r; reflexivity.
  - cbn [wait_done]. unfold bind at 1.
    rewrite (is_done_open _ _ _ _ Hd).
    destruct (elapsed <? timeout_ms) eqn:Hlt.
    + apply Z.ltb_lt in Hlt.
      replace (Z.to_nat (timeout_ms - elapsed))
        with (S (Z.to_nat (timeout_ms - (elapsed + 1)))) in * by lia.
      cbn [sleeps_until_done].
      destruct (done_now rb w) eqn:Hdone.
      * cbn. rewrite Z.add_0_r. reflexivity.
      * cbn [negb andb]. unfold bind. rewrite usleep_1000.
        rewrite tick_logs, logs_logs.
        rewrite IH.
        -- cbn zeta. rewrite sleeps_until_done_logs.
           rewrite iter_tick_logs, logs_logs.
           set (k' := sleeps_until_done rb (Z.to_nat (timeout_ms - (elapsed + 1))) (tick w)).
           replace (elapsed + 1 + Z.of_nat k') with (elapsed + Z.of_nat (S k')) by lia.
           rewrite <- Nat.iter_succ_r. reflexivity.
        -- apply handle_open_logs, (handle_open_heap w); [reflexivity | exact Hd].
        -- lia.
        -- lia.
    + apply Z.ltb_ge in Hlt. assert (elapsed = timeout_ms) as -> by lia.
      replace (Z.to_nat (timeout_ms - timeout_ms)) with 0%nat by lia.
      rewrite andb_false_r. cbn [sleeps_until_done].
      destruct (done_now rb w); cbn; rewrite Z.add_0_r; reflexivity.
Qed.

(** ** Reading the result *)

Lemma read_result_words_spec w l d rb mb :
  handle_open w l d rb -> mem_base d = Mapped mb MEM_WINDOW_LEN ->
  read_result_words (Some l) d w
  = let m := iomem w (result_source d rb) in
    Ok (load32 m (KC705_RESULT_BASE + 0), load32 m (KC705_RESULT_BASE + 4),
        load32 m (KC705_RESULT_BASE + 8))
       (logs (result_events d rb) w).
Proof.
  intros Hd Hm. unfold read_result_words, result_source, result_events.
  rewrite Hm. cbn [is_null negb]. unfold bind, mem_read32, ret.
  assert (H0 : in_window MEM_WINDOW_LEN (KC705_RESULT_BASE + 4 * 0) 4 = true) by reflexivity.
  assert (H1 : in_window MEM_WINDOW_LEN (KC705_RESULT_BASE + 4 * 1) 4 = true) by reflexivity.
  assert (H2 : in_window MEM_WINDOW_LEN (KC705_RESULT_BASE + 4 * 2) 4 = true) by reflexivity.
  rewrite H0, H1, H2.
  rewrite !log_logs, !logs_logs. reflexivity.
Qed.

(** Without a data window the first result word is read through the
    register window at offset 0x2000, outside its 4096 bytes. *)
Lemma read_result_words_fallback w l d rb :
  handle_open w l d rb -> mem_base d = NullPtr ->
  read_result_words (Some l) d w = Undef.
Proof.
  intros Hd Hm. unfold read_result_words. rewrite Hm. cbn [is_null negb].
  unfold bind, uninit.
  rewrite (read_reg_outside _ _ _ _ _ _ Hd) by reflexivity. reflexivity.
Qed.

(** What [kc705_get_result] does on an open handle up to the end of its
    wait: it sleeps [k] times, where [k] is the index of the first check
    that sees DONE (or the budget); with [k] below the budget it goes on to
    read and decode the result words, else it reports a timeout and leaves
    the record alone. *)
Lemma get_result_wait w l d rb r0 :
  handle_open w l d rb ->
  kc705_get_result (Some l) (Some r0) w
  = let k := sleeps_until_done rb budget w in
    let w' := logs (poll_events rb k ++ [EvRegRead rb REG_STATUS]) (Nat.iter k tick w) in
    if (k <? budget)%nat
    then (let* words := read_result_words (Some l) d in
          let '(class_id, confidence_raw, timing) := words in
          ret (KC705_SUCCESS, Some (fill_result class_id confidence_raw timing))) w'
    else Ok (KC705_TIMEOUT, Some r0) w'.
Proof.
  intros Hd. pose proof Hd as (Hh & Ho & Hr).
  unfold kc705_get_result. unfold bind at 1. unfold load_dev at 1.
  rewrite Hh, Ho. cbn [negb]. unfold bind at 1.
  rewrite (wait_done_spec l d rb _ w 0 Hd) by (unfold timeout_ms; lia).
  cbn zeta. rewrite Z.sub_0_r. fold budget.
  pose proof (sleeps_until_done_le rb budget w) as Hle.
  set (k := sleeps_until_done rb budget w) in *.
  assert (Hd' : handle_open (logs (poll_events rb k ++ [EvRegRead rb REG_STATUS])
                               (Nat.iter k tick w)) l d rb)
    by (apply handle_open_logs, handle_open_iter_tick; exact Hd).
  destruct (k <? budget)%nat eqn:Hk.
  - apply Nat.ltb_lt in Hk.
    replace (0 + Z.of_nat k >=? timeout_ms) with false
      by (symmetry; rewrite Z.geb_leb; apply Z.leb_gt; unfold budget in Hk; lia).
    unfold bind at 1. unfold load_dev. destruct Hd' as (Hh' & _). rewrite Hh'.
    reflexivity.
  - apply Nat.ltb_ge in Hk.
    replace (0 + Z.of_nat k >=? timeout_ms) with true
      by (symmetry; rewrite Z.geb_leb; apply Z.leb_le; unfold budget in Hk, Hle;
          unfold timeout_ms in *; lia).
    reflexivity.
Qed.

(** The same in full for a handle with its data window: with [k] below
    the budget the hardware words are decoded. *)
Lemma get_result_spec w l d rb mb r0 :
  handle_open w l d rb -> mem_base d = Mapped mb MEM_WINDOW_LEN ->
  kc705_get_result (Some l) (Some r0) w
  = let k := sleeps_until_done rb budget w in
    let w' := Nat.iter k tick w in
    if (k <? budget)%nat
    then Ok (KC705_SUCCESS, Some (hw_result d rb w'))
            (logs (poll_events rb k ++ [EvRegRead rb REG_STATUS] ++ result_events d rb) w')
    else Ok (KC705_TIMEOUT, Some r0)
            (logs (poll_events rb k ++ [EvRegRead rb REG_STATUS]) w').
Proof.
  intros Hd Hm. rewrite (get_result_wait w l d rb r0 Hd). cbn zeta.
  destruct (_ <? budget)%nat; [|reflexivity].
  unfold bind.
  rewrite (read_result_words_spec _ l d rb mb) by
    (try exact Hm; apply handle_open_logs, handle_open_iter_tick; exact Hd).
  cbn zeta. unfold ret. rewrite logs_logs, <- app_assoc. reflexivity.
Qed.

(** ** The polling protocol of [kc705_get_result] *)

Lemma idle_for_done_at rb n :
  forall w, idle_for rb n w = true <-> (forall j, (j < n)%nat -> done_at rb w j = false).
Proof.
  induction n as [|n IH]; intros w; cbn [idle_for].
  - split; [intros _ j Hj; lia | reflexivity].
  - rewrite andb_true_iff, negb_true_iff, IH. unfold done_at. split.
    + intros [H0 Hs] [|j] Hj; [exact H0|].
      rewrite Nat.iter_succ_r. apply Hs. lia.
    + intros H. split; [apply (H 0%nat); lia|].
      intros j Hj. rewrite <- Nat.iter_succ_r. apply H. lia.
Qed.

Lemma sleeps_first_done rb k :
  forall b w, (k <= b)%nat -> idle_for rb k w = true -> done_at rb w k = true ->
              sleeps_until_done rb b w = k.
Proof.
  induction k as [|k IH]; intros b w Hb Hidle Hdone.
  - unfold done_at in Hdone. cbn in Hdone.
    destruct b; cbn [sleeps_until_done]; rewrite Hdone; reflexivity.
  - cbn [idle_for] in Hidle. apply andb_true_iff in Hidle as [H0 Hidle].
    apply negb_true_iff in H0.
    destruct b as [|b]; [lia|]. cbn [sleeps_until_done]. rewrite H0.
    f_equal. apply IH; [lia | exact Hidle |].
    unfold done_at in *. rewrite <- Nat.iter_succ_r. exact Hdone.
Qed.

Lemma sleeps_idle rb b : forall w, idle_for rb b w = true -> sleeps_until_done rb b w = b.
Proof.
  induction b as [|b IH]; intros w Hidle; cbn [sleeps_until_done].
  - destruct (done_now rb w); reflexivity.
  - cbn [idle_for] in Hidle. apply andb_true_iff in Hidle as [H0 Hidle].
    apply negb_true_iff in H0. rewrite H0. f_equal. apply IH. exact Hidle.
Qed.

(** DONE first seen by a check that follows fewer than 5000 sleeps, on a
    handle with its data window: the loop made [k] sleeps and [k + 1]
    status reads, then the result words are read from the data window and
    decoded, and the call succeeds. *)
Lemma kc705_get_result_done w l d rb mb r0 k :
  handle_open w l d rb -> mem_base d = Mapped mb MEM_WINDOW_LEN ->
  (k < budget)%nat -> idle_for rb k w = true -> done_at rb w k = true ->
  kc705_get_result (Some l) (Some r0) w
  = Ok (KC705_SUCCESS, Some (hw_result d rb (Nat.iter k tick w)))
       (logs (poll_events rb k ++ [EvRegRead rb REG_STATUS] ++ result_events d rb)
             (Nat.iter k tick w)).
Proof.
  intros Hd Hm Hk Hidle Hdone.
  rewrite (get_result_spec w l d rb mb r0 Hd Hm). cbn zeta.
  rewrite (sleeps_first_done rb k budget w) by (try assumption; lia).
  apply Nat.ltb_lt in Hk. rewrite Hk. reflexivity.
Qed.

(** No DONE in the first 5000 checks: 5000 sleeps, 5001 status reads, no
    other register is read, the record is not written, Timeout. *)
Lemma kc705_get_result_timeout w l d rb r0 :
  handle_open w l d rb ->
  idle_for rb budget w = true ->
  kc705_get_result (Some l) (Some r0) w
  = Ok (KC705_TIMEOUT, Some r0)
       (logs (poll_events rb budget ++ [EvRegRead rb REG_STATUS])
             (Nat.iter budget tick w)).
Proof.
  intros Hd Hidle.
  rewrite (get_result_wait w l d rb r0 Hd). cbn zeta.
  rewrite (sleeps_idle rb budget w Hidle), Nat.ltb_irrefl. reflexivity.
Qed.

Lemma done_at_eq rb w j : done_at rb w j = done_now rb (Nat.iter j tick w).
Proof. reflexivity. Qed.

(** C1, at the input where the code departs from it.  The loop tests
    DONE before it tests the elapsed time, so it makes a 5001st check
    after the 5000th sleep.  When that check is the first to see DONE
    ([kc705_is_done] answers true in the world the loop has reached) the
    loop ends with [elapsed_ms = 5000] and the function reports a timeout:
    the last access is that status read, the result words are not read and
    the record is not written. *)
Theorem kc705_get_result_done_at_deadline w l d rb r0 :
  handle_open w l d rb -> mem_base d <> MapFailed ->
  idle_for rb budget w = true -> done_at rb w budget = true ->
  let w' := Nat.iter budget tick w in
  kc705_get_result (Some l) (Some r0) w
  = Ok (KC705_TIMEOUT, Some r0)
       (logs (poll_events rb budget ++ [EvRegRead rb REG_STATUS]) w')
  /\ kc705_is_done (Some l) w' = Ok true (logs [EvRegRead rb REG_STATUS] w').
Proof.
  intros Hd Hm Hidle Hdone w'. split.
  - apply (kc705_get_result_timeout w l d rb r0); assumption.
  - rewrite done_at_eq in Hdone. fold w' in Hdone.
    rewrite (is_done_open w' l d rb), Hdone; [reflexivity|].
    apply handle_open_iter_tick. exact Hd.
Qed.

Lemma kc705_get_result_done_at_deadline_witness :
  let w' := Nat.iter budget tick late_world in
  kc705_get_result (Some 0%nat) (Some Sim.blank) late_world
  = Ok (KC705_TIMEOUT, Some Sim.blank)
       (logs (poll_events Sim.regs budget ++ [EvRegRead Sim.regs REG_STATUS]) w')
  /\ kc705_is_done (Some 0%nat) w' = Ok true (logs [EvRegRead Sim.regs REG_STATUS] w').
Proof.
  apply (kc705_get_result_done_at_deadline late_world 0%nat Sim.dev_shared Sim.regs).
  - repeat split; reflexivity.
  - discriminate.
  - vm_compute. reflexivity.
  - vm_compute. reflexivity.
Defined.

(** ** Uploading an image *)

Lemma upload_image_open w l d rb img size :
  handle_open w l d rb ->
  kc705_upload_image (Some l) (Some img) size w
  = if size >? UPLOAD_LIMIT then Ok KC705_INVALID_PARAM w
    else (let* _ :=
            (if negb (is_null (mem_base d))
             then memcpy_to (mem_base d) KC705_IMAGE_BASE img size
             else upload_words (Z.to_nat size) (Some l) img 0 size) in
          let* _ := kc705_write_reg (Some l) REG_IMAGE_SIZE (u32 size) in
          ret KC705_SUCCESS) w.
Proof.
  intros (Hh & Ho & Hr).
  unfold kc705_upload_image. unfold bind at 1. unfold load_dev at 1.
  rewrite Hh, Ho. cbn [negb]. destruct (size >? UPLOAD_LIMIT); reflexivity.
Qed.

(** A size above 4096 is refused on every open handle, and nothing is
    written. *)
Lemma upload_image_oversized w l d rb img size :
  handle_open w l d rb -> size > 4096 ->
  kc705_upload_image (Some l) (Some img) size w = Ok KC705_INVALID_PARAM w.
Proof.
  intros Hd Hs. rewrite (upload_image_open w l d rb img size Hd).
  replace (size >? UPLOAD_LIMIT) with true
    by (symmetry; rewrite Z.gtb_ltb; apply Z.ltb_lt; unfold UPLOAD_LIMIT; lia).
  reflexivity.
Qed.

(** Through the data window: one [memcpy] of [size] bytes of the buffer to
    offset 0x1000 of the data window, then the write of the size
    register. *)
Lemma upload_image_shared w l d rb mb img size :
  handle_open w l d rb -> mem_base d = Mapped mb MEM_WINDOW_LEN ->
  0 <= size <= 4096 -> size <= Z.of_nat (length img) ->
  let m1 := upd_bar (iomem w) mb
              (copy_bytes (iomem w mb) KC705_IMAGE_BASE (bytes_of img) size) in
  kc705_upload_image (Some l) (Some img) size w
  = Ok KC705_SUCCESS
       (logs [EvMemcpy mb KC705_IMAGE_BASE size; EvRegWrite rb REG_IMAGE_SIZE size]
          (set_iomem (upd_bar m1 rb (store32 (m1 rb) REG_IMAGE_SIZE size)) w)).
Proof.
  intros Hd Hm Hs Hlen m1. rewrite (upload_image_open w l d rb img size Hd).
  replace (size >? UPLOAD_LIMIT) with false
    by (symmetry; rewrite Z.gtb_ltb; apply Z.ltb_ge; unfold UPLOAD_LIMIT; lia).
  assert (Hu : u32 size = size)
    by (apply u32_small; change (2 ^ 32) with 4294967296; lia).
  rewrite Hm, Hu. cbn [is_null negb]. unfold bind at 1. unfold memcpy_to.
  replace (in_window MEM_WINDOW_LEN KC705_IMAGE_BASE size
           && (size <=? Z.of_nat (length img))) with true
    by (symmetry; unfold in_window, MEM_WINDOW_LEN, KC705_IMAGE_BASE;
        rewrite !andb_true_iff, !Z.leb_le; lia).
  fold m1.
  assert (Hd1 : handle_open (log (EvMemcpy mb KC705_IMAGE_BASE size) (set_iomem m1 w))
                  l d rb)
    by (apply handle_open_logs, (handle_open_heap w); [reflexivity | exact Hd]).
  unfold bind. rewrite (write_reg_open _ _ _ _ _ _ Hd1) by reflexivity.
  unfold ret, logs, log, set_iomem.
  cbn [heap iomem accel clock trace bus files malloc_fails indeterminate].
  rewrite <- app_assoc. reflexivity.
Qed.

(** After such an upload the image-size register reads the size. *)
Lemma upload_image_shared_size_register w l d rb mb img size :
  handle_open w l d rb -> mem_base d = Mapped mb MEM_WINDOW_LEN ->
  0 <= size <= 4096 -> size <= Z.of_nat (length img) ->
  exists w',
    kc705_upload_image (Some l) (Some img) size w = Ok KC705_SUCCESS w'
    /\ kc705_read_reg (Some l) REG_IMAGE_SIZE 0 w'
       = Ok (KC705_SUCCESS, size) (logs [EvRegRead rb REG_IMAGE_SIZE] w').
Proof.
  intros Hd Hm Hs Hlen. eexists. split.
  - apply (upload_image_shared w l d rb mb img size); assumption.
  - match goal with |- kc705_read_reg _ _ _ ?w1 = _ =>
      assert (Hd1 : handle_open w1 l d rb)
        by (apply handle_open_logs, (handle_open_heap w); [reflexivity | exact Hd])
    end.
    rewrite (read_reg_open _ l d rb _ _ Hd1) by reflexivity.
    cbn [iomem logs set_iomem]. rewrite upd_bar_same, load32_store32_same.
    rewrite u32_small by (change (2 ^ 32) with 4294967296; lia). reflexivity.
Qed.

(** Without a data window the first word of the image is written through
    the register window at offset 0x1000, which is where its 4096 mapped
    bytes end: the upload of any non-empty image is undefined.  (With a
    buffer of fewer than four bytes the load of that word is undefined
    already.) *)
Lemma upload_image_fallback w l d rb img size :
  handle_open w l d rb -> mem_base d = NullPtr -> 0 < size <= 4096 ->
  kc705_upload_image (Some l) (Some img) size w = Undef.
Proof.
  intros Hd Hm Hs. rewrite (upload_image_open w l d rb img size Hd).
  replace (size >? UPLOAD_LIMIT) with false
    by (symmetry; rewrite Z.gtb_ltb; apply Z.ltb_ge; unfold UPLOAD_LIMIT; lia).
  rewrite Hm. cbn [is_null negb]. unfold bind at 1.
  destruct (Z.to_nat size) as [|fuel] eqn:Hfuel; [lia|].
  cbn [upload_words].
  replace (0 <? size) with true by (symmetry; apply Z.ltb_lt; lia).
  unfold bind at 1. unfold read_word.
  destruct ((0 <=? 0) && (0 + 4 <=? Z.of_nat (length img))); [|reflexivity].
  unfold ret. unfold bind.
  rewrite (write_reg_outside _ _ _ _ _ _ Hd) by reflexivity. reflexivity.
Qed.

(** An upload through the data window and a refused upload, evaluated. *)
Example upload_shared_window_reads_back :
  match kc705_upload_image (Some 0%nat) (Some (Sim.gray 4096)) 4096
          (Sim.world_of Sim.dev_shared Sim.zero_mem Sim.still) with
  | Ok r w' => Some (r, load32 (iomem w' Sim.regs) REG_IMAGE_SIZE, trace w')
  | _ => None
  end
  = Some (KC705_SUCCESS, 4096,
          [EvMemcpy Sim.mem KC705_IMAGE_BASE 4096; EvRegWrite Sim.regs REG_IMAGE_SIZE 4096]).
Proof. vm_compute. reflexivity. Qed.

Example upload_oversized_writes_nothing :
  match kc705_upload_image (Some 0%nat) (Some (Sim.gray 4097)) 4097
          (Sim.world_of Sim.dev_shared Sim.zero_mem Sim.still) with
  | Ok r w' => Some (r, trace w')
  | _ => None
  end
  = Some (KC705_INVALID_PARAM, []).
Proof. vm_compute. reflexivity. Qed.

(** ** The full-size image *)

(** C2, at the input where the code departs from it.  [IMAGE_SIZE] is
    224*224*3 = 150528 bytes, the size that the header documents for
    [image_data] and that [kc705_infer_file] always passes; the upload
    refuses every size above 4096, so [kc705_infer] with a buffer of that
    size returns InvalidParam on every live handle, whatever the device
    holds: nothing is written, the inference is not started and the record
    is left as it was. *)
Theorem kc705_infer_full_image_refused w l d img r :
  heap w !! l = Some d ->
  kc705_infer (Some l) (Some img) IMAGE_SIZE r w = Ok (KC705_INVALID_PARAM, r) w.
Proof.
  intros Hh. unfold kc705_infer, kc705_upload_image, bind, load_dev.
  rewrite Hh. destruct (is_open d); reflexivity.
Qed.

Lemma kc705_infer_full_image_refused_witness :
  kc705_infer (Some 0%nat) (Some (Sim.gray (Z.to_nat IMAGE_SIZE))) 150528 (Some Sim.blank)
    scenario_world
  = Ok (KC705_INVALID_PARAM, Some Sim.blank) scenario_world.
Proof.
  apply (kc705_infer_full_image_refused scenario_world 0%nat Sim.dev_shared).
  reflexivity.
Defined.

(** On the same device a buffer that fits is classified as the scenario
    expects; the confidence is the [float] nearest to 0.8734. *)
Example scenario_with_fitting_buffer :
  match kc705_infer (Some 0%nat) (Some (Sim.gray 4096)) 4096 (Some Sim.blank)
          scenario_world with
  | Ok rv _ => Some rv
  | _ => None
  end
  = Some (KC705_SUCCESS,
          Some (mk_result 42 (S754_finite false 14653220 (-24)) 1500 true)).
Proof. vm_compute. reflexivity. Qed.

(** ** The result record on the failure paths *)

(** Every return of [kc705_get_result]: either success with the four
    fields assigned from three words, or InvalidParam/Timeout with the
    record exactly as the caller passed it.  No hypothesis on the handle. *)
Lemma get_result_cases device result w rc res' w' :
  kc705_get_result device result w = Ok (rc, res') w' ->
  (rc = KC705_SUCCESS /\ exists c q t, res' = Some (fill_result c q t))
  \/ ((rc = KC705_INVALID_PARAM \/ rc = KC705_TIMEOUT) /\ res' = result).
Proof.
  unfold kc705_get_result. destruct device as [l|].
  2: { intros H. inversion H. right. auto. }
  unfold bind at 1. destruct (load_dev l w) as [d w1| |]; try discriminate.
  destruct (is_open d); cbn [negb].
  2: { intros H. inversion H. right. auto. }
  destruct result as [r0|].
  2: { intros H. inversion H. right. auto. }
  unfold bind at 1. destruct (wait_done _ _ _ w1) as [e w2| |]; try discriminate.
  destruct (e >=? timeout_ms).
  { intros H. inversion H. right. auto. }
  unfold bind at 1. destruct (load_dev l w2) as [d' w3| |]; try discriminate.
  unfold bind at 1.
  destruct (read_result_words (Some l) d' w3) as [[[c q] t] w4| |]; try discriminate.
  intros H. inversion H. left. split; [reflexivity|]. exists c, q, t. reflexivity.
Qed.

Lemma infer_cases device image size result w rc res' w' :
  kc705_infer device image size result w = Ok (rc, res') w' ->
  (rc = KC705_SUCCESS /\ exists c q t, res' = Some (fill_result c q t))
  \/ (rc <> KC705_SUCCESS /\ res' = result).
Proof.
  unfold kc705_infer. unfold bind at 1.
  destruct (kc705_upload_image device image size w) as [r1 w1| |]; try discriminate.
  destruct (r1 =? KC705_SUCCESS) eqn:E1; cbn [negb].
  2: { intros H. inversion H. subst. right. split; [|reflexivity].
       apply Z.eqb_neq. exact E1. }
  unfold bind at 1.
  destruct (kc705_start_inference device w1) as [r2 w2| |]; try discriminate.
  destruct (r2 =? KC705_SUCCESS) eqn:E2; cbn [negb].
  2: { intros H. inversion H. subst. right. split; [|reflexivity].
       apply Z.eqb_neq. exact E2. }
  intros H. destruct (get_result_cases _ _ _ _ _ _ H) as [Hs | [[Hc | Hc] Hr]].
  - left. exact Hs.
  - right. subst. split; [discriminate | reflexivity].
  - right. subst. split; [discriminate | reflexivity].
Qed.

(** C5 does not hold as stated: the record is not invalidated on a
    timeout.  The record below enters with [valid = true] and the call
    that times out returns it with [valid = true]. *)
Lemma timeout_leaves_stale_record_valid :
  match kc705_get_result (Some 0%nat) (Some Sim.stale) silent_world with
  | Ok (rc, Some r) _ => rc = KC705_TIMEOUT /\ valid r = true
  | _ => False
  end.
Proof. vm_compute. split; reflexivity. Qed.

(** C5, amended.  [kc705_get_result] and [kc705_infer] never write part
    of a record: when they return a failure code the record is exactly as
    it was on entry (so a flag that was false is still false, and a stale
    flag stays as it was), and when they return SUCCESS all four fields
    were assigned together, with [valid = true]. *)
Theorem failure_leaves_record_untouched device image size result w rc res' w' :
  kc705_get_result device result w = Ok (rc, res') w'
  \/ kc705_infer device image size result w = Ok (rc, res') w' ->
  (rc <> KC705_SUCCESS -> res' = result)
  /\ (rc = KC705_SUCCESS ->
      exists r, res' = Some r /\ valid r = true
                /\ exists c q t, r = fill_result c q t).
Proof.
  intros H.
  assert (Hc : (rc = KC705_SUCCESS /\ exists c q t, res' = Some (fill_result c q t))
               \/ (rc <> KC705_SUCCESS /\ res' = result)).
  { destruct H as [H | H].
    - destruct (get_result_cases _ _ _ _ _ _ H) as [Hs | [[Hc | Hc] Hr]];
        [left; exact Hs | right; subst; split; [discriminate | reflexivity] ..].
    - exact (infer_cases _ _ _ _ _ _ _ _ H). }
  destruct Hc as [[Hs (c & q & t & Hr)] | [Hn Hr]].
  - split; [congruence|]. intros _. exists (fill_result c q t).
    split; [exact Hr|]. split; [reflexivity|]. exists c, q, t. reflexivity.
  - split; [intros _; exact Hr | congruence].
Qed.

Lemma failure_leaves_record_untouched_witness :
  (KC705_INVALID_PARAM <> KC705_SUCCESS -> Some Sim.stale = Some Sim.stale)
  /\ (KC705_INVALID_PARAM = KC705_SUCCESS ->
      exists r, Some Sim.stale = Some r /\ valid r = true
                /\ exists c q t, r = fill_result c q t).
Proof.
  apply (failure_leaves_record_untouched (Some 0%nat)
           (Some (Sim.gray (Z.to_nat IMAGE_SIZE))) 150528
           (Some Sim.stale) scenario_world KC705_INVALID_PARAM (Some Sim.stale)
           scenario_world).
  right. reflexivity.
Defined.

(** ** The non-blocking variant *)

(** Not done yet: one status read, no sleep, Timeout, record untouched. *)
Lemma kc705_get_result_nowait_not_done w l d rb result :
  handle_open w l d rb -> done_now rb w = false ->
  kc705_get_result_nowait (Some l) result w
  = Ok (KC705_TIMEOUT, result) (logs [EvRegRead rb REG_STATUS] w).
Proof.
  intros Hd Hn. unfold kc705_get_result_nowait, bind.
  rewrite (is_done_open _ _ _ _ Hd), Hn. reflexivity.
Qed.

(** Done: the call is [kc705_get_result] after the status read. *)
Lemma kc705_get_result_nowait_done w l d rb result :
  handle_open w l d rb -> done_now rb w = true ->
  kc705_get_result_nowait (Some l) result w
  = kc705_get_result (Some l) result (logs [EvRegRead rb REG_STATUS] w).
Proof.
  intros Hd Hn. unfold kc705_get_result_nowait, bind.
  rewrite (is_done_open _ _ _ _ Hd), Hn. reflexivity.
Qed.

(** A live struct that is not open gets the same answer as a device that
    is still busy. *)
Lemma kc705_get_result_nowait_not_open w l d result :
  heap w !! l = Some d -> is_open d = false ->
  kc705_get_result_nowait (Some l) result w = Ok (KC705_TIMEOUT, result) w.
Proof.
  intros Hh Ho. unfold kc705_get_result_nowait, bind.
  rewrite (is_done_not_open _ _ _ Hh Ho). reflexivity.
Qed.

(** C7, at the input where the code departs from it.
    [kc705_get_result_nowait] has no parameter check of its own: on a null
    handle [kc705_is_done] answers false (its register read was refused)
    and the function returns Timeout, not InvalidParam;
    [kc705_get_result], which would have reported InvalidParam, is not
    reached. *)
Theorem kc705_get_result_nowait_null result w :
  kc705_get_result_nowait None result w = Ok (KC705_TIMEOUT, result) w
  /\ kc705_get_result None result w = Ok (KC705_INVALID_PARAM, result) w.
Proof. split; reflexivity. Qed.

(** ** Closing *)

Lemma kc705_close_null w : kc705_close None w = Ok KC705_INVALID_PARAM w.
Proof. reflexivity. Qed.

(** A live struct whose flag is clear (never opened): refused, nothing
    released. *)
Lemma kc705_close_not_open w l d :
  heap w !! l = Some d -> is_open d = false ->
  kc705_close (Some l) w = Ok KC705_INVALID_PARAM w.
Proof.
  intros Hh Ho. unfold kc705_close, bind, load_dev. rewrite Hh, Ho. reflexivity.
Qed.

Lemma munmap_if_mapped p len w :
  (if negb (is_null p) && negb (is_map_failed p) then munmap p len else ret tt) w
  = Ok tt (logs (unmap_events p len) w).
Proof.
  destruct p; cbn [is_null is_map_failed negb andb unmap_events munmap];
    unfold ret, emit; rewrite ?logs_nil, ?log_logs; reflexivity.
Qed.

Lemma close_if_descriptor fd w :
  (if fd >=? 0 then close_fd fd else ret tt) w
  = Ok tt (logs (if fd >=? 0 then [EvCloseFd fd] else []) w).
Proof.
  destruct (fd >=? 0); unfold close_fd, ret, emit;
    rewrite ?logs_nil, ?log_logs; reflexivity.
Qed.

(** An open handle: each window is unmapped if it is a mapping (a null or
    failed pointer is skipped), the descriptor is closed if it is one, the
    flag is cleared, and the struct is freed. *)
Lemma kc705_close_open w l d :
  heap w !! l = Some d -> is_open d = true ->
  kc705_close (Some l) w
  = Ok KC705_SUCCESS (logs (close_events l d) (set_heap (delete l (heap w)) w)).
Proof.
  intros Hh Ho. unfold kc705_close. unfold bind at 1. unfold load_dev.
  rewrite Hh, Ho. cbn [negb].
  assert (Hstep : forall evs,
    (let* _ := store_dev l (set_is_open false d) in
     let* _ := free l in ret KC705_SUCCESS) (logs evs w)
    = Ok KC705_SUCCESS (logs (evs ++ [EvFree l]) (set_heap (delete l (heap w)) w))).
  { intros evs. unfold bind, store_dev, free, ret. cbn [heap logs].
    rewrite Hh. cbn [heap set_heap]. rewrite lookup_insert_eq.
    rewrite delete_insert_eq. unfold logs, log, set_heap. cbn.
    rewrite <- app_assoc. reflexivity. }
  unfold bind at 1. rewrite munmap_if_mapped. cbv beta iota.
  unfold bind at 1. rewrite munmap_if_mapped. cbv beta iota.
  unfold bind at 1. rewrite close_if_descriptor. cbv beta iota.
  rewrite !logs_logs, Hstep. unfold close_events.
  rewrite <- !app_assoc. reflexivity.
Qed.

(** C8, at the input where the code departs from it.  Closing an open
    handle succeeds and frees the struct that holds the open flag; the
    handle is then a dangling pointer, and a second [kc705_close] on it
    reads [is_open] from freed storage: the call is undefined, it is not
    answered with InvalidParam. *)
Theorem kc705_close_twice_undefined w l d :
  heap w !! l = Some d -> is_open d = true ->
  exists w', kc705_close (Some l) w = Ok KC705_SUCCESS w'
             /\ heap w' !! l = None
             /\ kc705_close (Some l) w' = Undef.
Proof.
  intros Hh Ho. eexists. split; [apply (kc705_close_open w l d Hh Ho)|].
  assert (Hgone : heap (logs (close_events l d) (set_heap (delete l (heap w)) w)) !! l = None)
    by (cbn [heap logs set_heap]; apply lookup_delete_eq).
  split; [exact Hgone|].
  unfold kc705_close, bind, load_dev. rewrite Hgone. reflexivity.
Qed.

Lemma kc705_close_twice_undefined_witness :
  exists w', kc705_close (Some 0%nat) scenario_world = Ok KC705_SUCCESS w'
             /\ heap w' !! 0%nat = None
             /\ kc705_close (Some 0%nat) w' = Undef.
Proof.
  apply (kc705_close_twice_undefined scenario_world 0%nat Sim.dev_shared);
    reflexivity.
Defined.

Example close_releases_everything_once :
  match kc705_close (Some 0%nat) scenario_world with
  | Ok rc w' => Some (rc, trace w')
  | _ => None
  end
  = Some (KC705_SUCCESS,
          [EvMunmap Sim.regs 4096; EvMunmap Sim.mem 65536; EvCloseFd 3; EvFree 0%nat]).
Proof. vm_compute. reflexivity. Qed.

(** ** Opening *)

Lemma bind_ok {A B} (m : M A) (k : A -> M B) w a w1 :
  m w = Ok a w1 -> bind m k w = k a w1.
Proof. intros H. unfold bind. rewrite H. reflexivity. Qed.

Lemma load_dev_some w l d : heap w !! l = Some d -> load_dev l w = Ok d w.
Proof. intros H. unfold load_dev. rewrite H. reflexivity. Qed.

Lemma store_dev_some w l d0 d :
  heap w !! l = Some d0 ->
  store_dev l d w = Ok tt (set_heap (<[l := d]> (heap w)) w).
Proof. intros H. unfold store_dev. rewrite H. reflexivity. Qed.

Lemma os_open_found w path res dev :
  find_pci path (bus w) = Some dev ->
  os_open path res w = Ok (if (res =? 0)%nat then res0_open dev else res1_open dev) w.
Proof. intros H. unfold os_open. rewrite H. reflexivity. Qed.

Lemma os_mmap_found w path res len dev :
  find_pci path (bus w) = Some dev ->
  os_mmap path res len w
  = Ok (if (if (res =? 0)%nat then res0_mmap_ok dev else res1_mmap_ok dev)
        then Mapped (path, res) len else MapFailed) w.
Proof. intros H. unfold os_mmap. rewrite H. reflexivity. Qed.

Ltac heap_now :=
  cbn [heap bus set_heap log logs]; rewrite ?lookup_insert_eq; eauto.

Lemma map_pci_device_ok w l d0 path dev :
  heap w !! l = Some d0 ->
  find_pci path (bus w) = Some dev ->
  0 <= res0_open dev -> res0_mmap_ok dev = true ->
  exists w',
    map_pci_device l path w = Ok KC705_SUCCESS w'
    /\ heap w' = <[l := mk_device (res0_open dev) (Mapped (path, 0%nat) REG_WINDOW_LEN)
                          (mapped_mem path dev (mem_base d0)) (bar_size d0)
                          (is_open d0) (device_id d0) (device_path d0)]> (heap w)
    /\ malloc_fails w' = malloc_fails w.
Proof.
  intros Hh Hf Hfd Hmap. unfold map_pci_device, mapped_mem.
  erewrite bind_ok by (apply os_open_found; exact Hf). cbn [Nat.eqb].
  erewrite bind_ok by (apply load_dev_some; exact Hh).
  erewrite bind_ok by (eapply store_dev_some; exact Hh).
  replace (res0_open dev <? 0) with false by (symmetry; apply Z.ltb_ge; lia).
  erewrite bind_ok by (apply os_mmap_found; heap_now). cbn [Nat.eqb].
  rewrite Hmap.
  erewrite bind_ok by (eapply store_dev_some; heap_now).
  cbn [is_map_failed].
  erewrite bind_ok by (apply os_open_found; heap_now). cbn [Nat.eqb].
  destruct (res1_open dev >=? 0).
  - erewrite bind_ok.
    2: { erewrite bind_ok by (apply os_mmap_found; heap_now).
         erewrite bind_ok by (eapply store_dev_some; heap_now).
         reflexivity. }
    unfold ret. eexists. split; [reflexivity|].
    cbn. rewrite !insert_insert_eq. split; reflexivity.
  - erewrite bind_ok by reflexivity.
    unfold ret. eexists. split; [reflexivity|].
    cbn. rewrite !insert_insert_eq. split; reflexivity.
Qed.

Lemma malloc_zeroed_ok w :
  malloc_fails w = false ->
  let l := fresh (dom (heap w)) in
  malloc_zeroed w = Ok (Some l) (set_heap (<[l := zero_device]> (heap w)) w)
  /\ heap w !! l = None.
Proof.
  intros Hm l. unfold malloc_zeroed. rewrite Hm. split; [reflexivity|].
  apply not_elem_of_dom. apply is_fresh.
Qed.

(** The two refusals of [kc705_open_device]: both are the null pointer,
    and the world is as before. *)
Lemma kc705_open_device_refused w device_index :
  let paths := pci_scan (bus w) KC705_MAX_DEVICES [] in
  paths = [] \/ device_index >= Z.of_nat (length paths) ->
  kc705_open_device device_index w = Ok None w.
Proof.
  intros paths H. unfold kc705_open_device, kc705_enumerate_devices.
  unfold bind at 1. fold paths.
  destruct H as [H | H].
  - rewrite H. reflexivity.
  - destruct (Z.of_nat (length paths) =? 0); [reflexivity|].
    replace (device_index >=? Z.of_nat (length paths)) with true
      by (symmetry; rewrite Z.geb_leb; apply Z.leb_le; lia).
    reflexivity.
Qed.

(** An index inside the discovered range, memory for the struct, and a
    first resource that opens and maps: the function returns a fresh
    handle, open, with the register window mapped on resource 0 of the
    path that discovery gave for this index. *)
Lemma kc705_open_device_ok w device_index path dev :
  let paths := pci_scan (bus w) KC705_MAX_DEVICES [] in
  0 <= device_index ->
  paths !! Z.to_nat device_index = Some path ->
  malloc_fails w = false ->
  find_pci path (bus w) = Some dev ->
  0 <= res0_open dev -> res0_mmap_ok dev = true ->
  exists l w' d,
    kc705_open_device device_index w = Ok (Some l) w'
    /\ heap w !! l = None
    /\ heap w' !! l = Some d
    /\ is_open d = true
    /\ reg_base d = Mapped (path, 0%nat) REG_WINDOW_LEN
    /\ mem_base d = mapped_mem path dev NullPtr
    /\ device_path d = path
    /\ device_id d = device_index.
Proof.
  intros paths H0 Hp Hm Hf Hfd Hmap.
  pose proof (lookup_lt_Some _ _ _ Hp) as Hlen.
  unfold kc705_open_device, kc705_enumerate_devices.
  unfold bind at 1. fold paths.
  replace (Z.of_nat (length paths) =? 0) with false
    by (symmetry; apply Z.eqb_neq; lia).
  replace (device_index >=? Z.of_nat (length paths)) with false
    by (symmetry; rewrite Z.geb_leb; apply Z.leb_gt; lia).
  destruct (malloc_zeroed_ok w Hm) as [Hmal Hfresh].
  set (l := fresh (dom (heap w))) in *.
  erewrite bind_ok by exact Hmal.
  unfold path_at.
  replace (device_index <? 0) with false by (symmetry; apply Z.ltb_ge; lia).
  rewrite Hp.
  erewrite bind_ok by reflexivity.
  erewrite bind_ok by (apply load_dev_some; heap_now).
  erewrite bind_ok by (eapply store_dev_some; heap_now).
  match goal with |- context [bind (map_pci_device l path) _ ?w1] =>
    destruct (map_pci_device_ok w1 l
                (mk_device 0 NullPtr NullPtr [0; 0; 0; 0; 0; 0] false 0 path)
                path dev) as (w2 & Hrun & Hheap & _);
      [heap_now | heap_now | exact Hfd | exact Hmap |]
  end.
  erewrite bind_ok by exact Hrun.
  cbn [Z.eqb KC705_SUCCESS negb].
  erewrite bind_ok by (apply load_dev_some; rewrite Hheap; heap_now).
  erewrite bind_ok by (eapply store_dev_some; rewrite Hheap; heap_now).
  unfold ret. do 3 eexists. split; [reflexivity|].
  split; [exact Hfresh|].
  split; [heap_now|].
  cbn. repeat split; try reflexivity.
  apply u32_small.
  assert (Z.of_nat (length paths) <= 8); [|change (2 ^ 32) with 4294967296; lia].
  clear -paths. subst paths. unfold KC705_MAX_DEVICES.
  generalize (bus w). intros devs.
  assert (G : forall acc, Z.of_nat (length acc) <= 8 ->
                          Z.of_nat (length (pci_scan devs 8 acc)) <= 8).
  { induction devs as [|dv devs IH]; intros acc Hacc; cbn [pci_scan]; [exact Hacc|].
    destruct (Z.of_nat (length acc) <? 8) eqn:Hlt; [|exact Hacc].
    apply Z.ltb_lt in Hlt.
    destruct ((pci_vendor dv =? KC705_VENDOR_ID) && (pci_device dv =? KC705_DEVICE_ID));
      apply IH; [rewrite length_app; cbn; lia | exact Hacc]. }
  apply G. cbn. lia.
Qed.

(** C9 does not hold as stated: the function returns a pointer and no
    error code, so "no device" and "index out of range" reach the caller
    as the same null pointer; and a negative index is not refused at all
    (the range test only compares with the upper end), the call goes on to
    read [device_paths[-1]]. *)
Lemma kc705_open_device_failures_look_alike :
  kc705_open_device 0 empty_bus_world = Ok None empty_bus_world
  /\ kc705_open_device 1 one_board_world = Ok None one_board_world
  /\ kc705_open_device (-1) one_board_world = Undef.
Proof. repeat split; vm_compute; reflexivity. Qed.

(** C9, amended.  [kc705_open_device] reports every failure as the null
    handle, without an error code: it returns null, and changes nothing,
    when discovery finds no device and when the index is at or above the
    number of devices found; for an index inside the discovered range,
    when the struct can be allocated and the register resource opens and
    maps, it returns a fresh handle that is open, whose register window is
    mapped and whose path is the discovered one. *)
Theorem kc705_open_device_outcomes w device_index :
  let paths := pci_scan (bus w) KC705_MAX_DEVICES [] in
  (paths = [] -> kc705_open_device device_index w = Ok None w)
  /\ (device_index >= Z.of_nat (length paths) ->
      kc705_open_device device_index w = Ok None w)
  /\ (forall path dev,
        0 <= device_index ->
        paths !! Z.to_nat device_index = Some path ->
        malloc_fails w = false ->
        find_pci path (bus w) = Some dev ->
        0 <= res0_open dev -> res0_mmap_ok dev = true ->
        exists l w' d,
          kc705_open_device device_index w = Ok (Some l) w'
          /\ heap w !! l = None
          /\ heap w' !! l = Some d
          /\ is_open d = true
          /\ reg_base d = Mapped (path, 0%nat) REG_WINDOW_LEN
          /\ mem_base d = mapped_mem path dev NullPtr
          /\ device_path d = path).
Proof.
  intros paths. split; [|split].
  - intros H. apply kc705_open_device_refused. left. exact H.
  - intros H. apply kc705_open_device_refused. right. exact H.
  - intros path dev H0 Hp Hm Hf Hfd Hmap.
    destruct (kc705_open_device_ok w device_index path dev H0 Hp Hm Hf Hfd Hmap)
      as (l & w' & d & H1 & H2 & H3 & H4 & H5 & H6 & H7 & _).
    exists l, w', d. repeat split; assumption.
Qed.

Lemma kc705_open_device_outcomes_witness :
  exists l w' d,
    kc705_open_device 0 one_board_world = Ok (Some l) w'
    /\ heap one_board_world !! l = None
    /\ heap w' !! l = Some d
    /\ is_open d = true
    /\ reg_base d = Mapped (Sim.path, 0%nat) REG_WINDOW_LEN
    /\ mem_base d = mapped_mem Sim.path board NullPtr
    /\ device_path d = Sim.path.
Proof.
  apply (proj2 (proj2 (kc705_open_device_outcomes one_board_world 0)) Sim.path board).
  - lia.
  - reflexivity.
  - reflexivity.
  - reflexivity.
  - vm_compute. discriminate.
  - reflexivity.
Defined.

(** C3, at the input where the code departs from it.  On a board whose
    register resource opens and maps and whose data resource cannot be
    opened, [kc705_open_device] returns an open handle without data window
    ([mem_base] null), so an upload takes the register fallback.  The
    fallback stores the first word of the image through the register
    window at offset 0x1000, and the window was mapped with 4096 bytes:
    for every non-null buffer and every size from 1 to 4096 the upload is
    undefined instead of a success that leaves the size in the image-size
    register. *)
Theorem kc705_upload_image_fallback_undefined w device_index path dev img size :
  0 <= device_index ->
  pci_scan (bus w) KC705_MAX_DEVICES [] !! Z.to_nat device_index = Some path ->
  malloc_fails w = false ->
  find_pci path (bus w) = Some dev ->
  0 <= res0_open dev -> res0_mmap_ok dev = true ->
  res1_open dev < 0 ->
  0 < size <= 4096 ->
  exists l w' d,
    kc705_open_device device_index w = Ok (Some l) w'
    /\ heap w' !! l = Some d
    /\ is_open d = true
    /\ reg_base d = Mapped (path, 0%nat) REG_WINDOW_LEN
    /\ mem_base d = NullPtr
    /\ kc705_upload_image (Some l) (Some img) size w' = Undef.
Proof.
  intros H0 Hp Hm Hf Hfd Hmap Hfd1 Hs.
  destruct (kc705_open_device_ok w device_index path dev H0 Hp Hm Hf Hfd Hmap)
    as (l & w' & d & Hrun & _ & Hh & Ho & Hr & Hmem & _).
  assert (Hnull : mem_base d = NullPtr).
  { rewrite Hmem. unfold mapped_mem.
    replace (res1_open dev >=? 0) with false
      by (symmetry; rewrite Z.geb_leb; apply Z.leb_gt; lia).
    reflexivity. }
  exists l, w', d. repeat split; try assumption.
  apply (upload_image_fallback w' l d (path, 0%nat)); try assumption.
  repeat split; assumption.
Qed.

Lemma kc705_upload_image_fallback_undefined_witness :
  exists l w' d,
    kc705_open_device 0 no_data_world = Ok (Some l) w'
    /\ heap w' !! l = Some d
    /\ is_open d = true
    /\ reg_base d = Mapped (Sim.path, 0%nat) REG_WINDOW_LEN
    /\ mem_base d = NullPtr
    /\ kc705_upload_image (Some l) (Some (Sim.gray 16)) 16 w' = Undef.
Proof.
  apply (kc705_upload_image_fallback_undefined no_data_world 0 Sim.path no_data_board
           (Sim.gray 16) 16).
  - lia.
  - reflexivity.
  - reflexivity.
  - reflexivity.
  - vm_compute. discriminate.
  - reflexivity.
  - reflexivity.
  - lia.
Defined.

(** The second [mmap] is not checked either: on a board whose data
    resource opens but cannot be mapped, the handle comes back open with
    [mem_base = MAP_FAILED], which is neither a mapped nor an absent data
    window; an upload through it copies to an invalid address. *)
Example open_with_unmappable_data_window :
  match kc705_open_device 0 unmappable_world with
  | Ok (Some l) w' =>
      Some (mem_base <$> heap w' !! l, is_open <$> heap w' !! l,
            match kc705_upload_image (Some l) (Some (Sim.gray 16)) 16 w' with
            | Undef => true
            | _ => false
            end)
  | _ => None
  end
  = Some (Some MapFailed, Some true, true).
Proof. vm_compute. reflexivity. Qed.

Example open_first_board :
  match kc705_open_device 0 one_board_world with
  | Ok (Some l) w' => Some (l, heap w' !! l, trace w')
  | _ => None
  end
  = Some (0%nat,
          Some (mk_device 3 (Mapped Sim.regs REG_WINDOW_LEN) (Mapped Sim.mem MEM_WINDOW_LEN)
                          [0; 0; 0; 0; 0; 0] true 0 Sim.path),
          [EvCloseFd 4]).
Proof. vm_compute. reflexivity. Qed.

(** ** The batch loop *)

Lemma batch_items_files infer_file device image_files :
  forall free w outs fr w',
    batch_items infer_file device image_files free w = Ok (outs, fr) w' ->
    map (fun o => fst (fst o)) outs = image_files.
Proof.
  induction image_files as [|file rest IH]; intros free w outs fr w' H;
    cbn [batch_items] in H.
  - inversion H. reflexivity.
  - destruct free as [|slot free']; [discriminate|].
    unfold bind at 1 in H.
    destruct (infer_file device file (Some slot) w) as [rv w1| |]; try discriminate.
    unfold bind in H.
    destruct (batch_items infer_file device rest _ w1) as [[outs1 fr1] w2| |] eqn:E;
      try discriminate.
    inversion H. subst. cbn. f_equal. exact (IH _ _ _ _ _ E).
Qed.

Lemma batch_loop_items infer_file device image_files :
  forall done free w,
    batch_loop infer_file device image_files (length done) (done ++ free) w
    = (let* r := batch_items infer_file device image_files free in
       ret ((length done + length (successes (fst r)))%nat,
            done ++ map snd (successes (fst r)) ++ snd r)) w.
Proof.
  induction image_files as [|file rest IH]; intros done free w;
    cbn [batch_loop batch_items].
  - unfold bind, ret. cbn. rewrite Nat.add_0_r. reflexivity.
  - destruct free as [|slot free'].
    + rewrite app_nil_r, (lookup_ge_None_2 done (length done)) by lia.
      reflexivity.
    + rewrite list_lookup_middle by reflexivity.
      unfold bind.
      destruct (infer_file device file (Some slot) w) as [[rc res] w1| |];
        [|reflexivity..].
      cbn [fst snd].
      set (slot' := match res with Some s => s | None => slot end).
      assert (Hupd : match res with
                     | Some s => <[length done := s]> (done ++ slot :: free')
                     | None => done ++ slot :: free'
                     end = done ++ slot' :: free').
      { subst slot'. destruct res as [s|]; [|reflexivity].
        rewrite insert_app_r_alt by lia. rewrite Nat.sub_diag. reflexivity. }
      rewrite Hupd.
      destruct (rc =? KC705_SUCCESS) eqn:Hrc.
      * replace (S (length done)) with (length (done ++ [slot']))
          by (rewrite length_app; cbn; lia).
        replace (done ++ slot' :: free') with ((done ++ [slot']) ++ free')
          by (rewrite <- app_assoc; reflexivity).
        rewrite IH. unfold bind, ret.
        destruct (batch_items infer_file device rest free' w1) as [[outs fr] w2| |];
          [|reflexivity..].
        cbn [fst snd successes List.filter].
        replace (succeeded (file, rc, slot')) with true by (symmetry; exact Hrc).
        cbn [length map snd].
        rewrite length_app, <- app_assoc. cbn [length app].
        f_equal. f_equal. lia.
      * rewrite IH. unfold bind, ret.
        destruct (batch_items infer_file device rest (slot' :: free') w1) as [[outs fr] w2| |];
          [|reflexivity..].
        cbn [fst snd successes List.filter].
        replace (succeeded (file, rc, slot')) with false by (symmetry; exact Hrc).
        reflexivity.
Qed.

(** C6.  The loop of [kc705_infer_batch], over whatever primitive it
    calls for a file ([kc705_infer_batch] itself is the loop over
    [kc705_infer_file]), visits every input once, in order, a failing item
    included (there is one outcome per input, for the files in their
    order); its return value is the number of items whose call returned
    SUCCESS; and the output array holds, from index 0 and without gaps,
    the records of exactly those items in the order they were met,
    followed by the slots that were never taken.  So the record at index
    [k] belongs to the [k]-th successful input, not to input [k]. *)
Theorem kc705_infer_batch_dense infer_file device image_files results w :
  infer_batch_with infer_file device image_files results w
  = (let* r := batch_items infer_file device image_files results in
     ret (length (successes (fst r)), map snd (successes (fst r)) ++ snd r)) w
  /\ (forall outs fr w',
        batch_items infer_file device image_files results w = Ok (outs, fr) w' ->
        map (fun o => fst (fst o)) outs = image_files).
Proof.
  split.
  - unfold infer_batch_with.
    exact (batch_loop_items infer_file device image_files [] results w).
  - intros outs fr w' H. exact (batch_items_files _ _ _ _ _ _ _ _ H).
Qed.

(** Five inputs, the third of which fails: the count is 4 and the four
    records sit at indices 0 to 3 in the order of the successful inputs;
    the record of the fourth input is at index 2. *)
Example batch_of_five_third_fails :
  match infer_batch_with stub_infer_file (Some 0%nat)
          ["a.jpg"; "bb.jpg"; "missing.jpg"; "dddd.jpg"; "eeeee.jpg"]
          (replicate 5 Sim.blank) scenario_world with
  | Ok r _ => Some r
  | _ => None
  end
  = Some (4%nat,
          [fill_result 5 9000 100; fill_result 6 9000 100;
           fill_result 8 9000 100; fill_result 9 9000 100; Sim.blank]).
Proof. vm_compute. reflexivity. Qed.

(** With the primitive of this driver no item can succeed: the loader
    yields 150528 bytes or nothing, and the upload refuses that size.  The
    batch therefore counts 0 on every run that returns. *)
Lemma kc705_infer_file_never_succeeds device file result w rc res' w' :
  kc705_infer_file device file result w = Ok (rc, res') w' ->
  rc <> KC705_SUCCESS /\ res' = result.
Proof.
  unfold kc705_infer_file, kc705_load_image. unfold bind at 1.
  destruct (files w file) as [content|].
  2: { intros H. inversion H. split; [discriminate | reflexivity]. }
  destruct (malloc_fails w); [discriminate|].
  destruct (Z.of_nat (length content) <? 224 * 224 * 3).
  { intros H. inversion H. split; [discriminate | reflexivity]. }
  unfold kc705_infer, kc705_upload_image. destruct device as [l|].
  2: { intros H. inversion H. split; [discriminate | reflexivity]. }
  unfold bind, load_dev. destruct (heap w !! l) as [d|]; [|discriminate].
  destruct (is_open d); intros H; inversion H; split; (discriminate || reflexivity).
Qed.

Lemma kc705_infer_batch_counts_nothing device image_files :
  forall processed results w n results' w',
    batch_loop kc705_infer_file device image_files processed results w
    = Ok (n, results') w' ->
    n = processed /\ results' = results.
Proof.
  induction image_files as [|file rest IH]; intros processed results w n results' w' H;
    cbn [batch_loop] in H.
  - inversion H. split; reflexivity.
  - destruct (results !! processed) as [slot|] eqn:Hs; [|discriminate].
    unfold bind at 1 in H.
    destruct (kc705_infer_file device file (Some slot) w) as [[rc res] w1| |] eqn:E;
      try discriminate.
    destruct (kc705_infer_file_never_succeeds _ _ _ _ _ _ _ E) as [Hrc ->].
    cbn [fst snd] in H. rewrite (list_insert_id _ _ _ Hs) in H.
    apply Z.eqb_neq in Hrc. rewrite Hrc in H. exact (IH _ _ _ _ _ _ H).
Qed.

(** ** Decoding the result words *)

Lemma fill_result_props (c q t : Z) :
  let r := fill_result c q t in
  valid r = true
  /\ class_id r = c mod NUM_CLASSES
  /\ 0 <= class_id r < NUM_CLASSES
  /\ confidence r = f32_div (f32_of_u32 q) (f32_of_u32 10000)
  /\ processing_time_us r = t.
Proof.
  intros r. subst r. unfold fill_result. cbn [valid class_id confidence processing_time_us].
  repeat split; try reflexivity; apply Z.mod_pos_bound; reflexivity.
Qed.

(** C4, at the input where the code departs from it.  The class word is
    reduced modulo 1000, the confidence word is not clamped: it is
    converted to [float] and divided by 10000 as it comes.  When the first
    DONE is seen in time on a handle with its data window and the
    confidence word on the board is 20000, the call succeeds with a valid
    record whose class id is below 1000 and whose confidence is the
    [float] 2.0, above the documented range from 0.0 to 1.0. *)
Theorem kc705_get_result_confidence_unclamped w l d rb mb r0 k :
  handle_open w l d rb -> mem_base d = Mapped mb MEM_WINDOW_LEN ->
  (k < budget)%nat -> idle_for rb k w = true -> done_at rb w k = true ->
  let m := iomem (Nat.iter k tick w) mb in
  load32 m (KC705_RESULT_BASE + 4) = 20000 ->
  exists r w',
    kc705_get_result (Some l) (Some r0) w = Ok (KC705_SUCCESS, Some r) w'
    /\ valid r = true
    /\ class_id r = load32 m (KC705_RESULT_BASE + 0) mod NUM_CLASSES
    /\ 0 <= class_id r < NUM_CLASSES
    /\ confidence r = S754_finite false 8388608 (-22)
    /\ SFltb (SFone 24 128) (confidence r) = true.
Proof.
  intros Hd Hm Hk Hidle Hdone m Hq.
  rewrite (kc705_get_result_done w l d rb mb r0 k Hd Hm Hk Hidle Hdone).
  do 2 eexists. split; [reflexivity|].
  unfold hw_result, result_source. rewrite Hm. fold m. rewrite Hq.
  destruct (fill_result_props (load32 m (KC705_RESULT_BASE + 0)) 20000
              (load32 m (KC705_RESULT_BASE + 8))) as (Hv & Hc & Hrange & Hconf & _).
  repeat split; try assumption; try apply Hrange.
Qed.

Lemma kc705_get_result_confidence_unclamped_witness :
  exists r w',
    kc705_get_result (Some 0%nat) (Some Sim.blank) garbage_world
    = Ok (KC705_SUCCESS, Some r) w'
    /\ valid r = true
    /\ class_id r
       = load32 (iomem (Nat.iter 0 tick garbage_world) Sim.mem) (KC705_RESULT_BASE + 0)
         mod NUM_CLASSES
    /\ 0 <= class_id r < NUM_CLASSES
    /\ confidence r = S754_finite false 8388608 (-22)
    /\ SFltb (SFone 24 128) (confidence r) = true.
Proof.
  apply (kc705_get_result_confidence_unclamped garbage_world 0%nat Sim.dev_shared
           Sim.regs Sim.mem Sim.blank 0%nat).
  - repeat split; reflexivity.
  - reflexivity.
  - unfold budget. vm_compute. lia.
  - reflexivity.
  - vm_compute. reflexivity.
  - vm_compute. reflexivity.
Defined.

(** The scenario's word 8734 gives the [float] nearest to 0.8734, which is
    14653220 / 2^24; the class word 0xDEADBEEF is reduced to 559. *)
Example confidence_of_the_scenario :
  confidence (fill_result 42 8734 1500) = S754_finite false 14653220 (-24)
  /\ class_id (fill_result 0xDEADBEEF 20000 1500) = 559.
Proof. split; vm_compute; reflexivity. Qed.

(** ** The ERROR bit of the status register *)

Lemma err_rel_other m1 m2 b x :
  err_rel m1 m2 -> x <> REG_STATUS -> byte_at (m1 b) x = byte_at (m2 b) x.
Proof.
  intros H Hx. specialize (H b x).
  replace (x =? REG_STATUS) with false in H by (symmetry; apply Z.eqb_neq; exact Hx).
  exact H.
Qed.

Lemma err_rel_load32 m1 m2 b off :
  err_rel m1 m2 -> off + 4 <= REG_STATUS \/ REG_STATUS < off ->
  load32 (m1 b) off = load32 (m2 b) off.
Proof.
  intros H Ho. unfold load32.
  rewrite !(err_rel_other m1 m2 b) by (try exact H; unfold REG_STATUS in *; lia).
  reflexivity.
Qed.

(** Bits of a word whose low byte is [b0]. *)
Lemma testbit_low_byte (b0 hi n : Z) :
  0 <= b0 < 256 -> 0 <= n ->
  Z.testbit (b0 + 256 * hi) n = if n <? 8 then Z.testbit b0 n else Z.testbit hi (n - 8).
Proof.
  intros Hb Hn. destruct (n <? 8) eqn:Hlt.
  - apply Z.ltb_lt in Hlt.
    rewrite <- (Z.mod_pow2_bits_low (b0 + 256 * hi) 8 n) by lia.
    change (2 ^ 8) with 256.
    replace ((b0 + 256 * hi) mod 256) with b0; [reflexivity|].
    rewrite (Z.mul_comm 256 hi), Z.mod_add by lia.
    symmetry. apply Z.mod_small. exact Hb.
  - apply Z.ltb_ge in Hlt.
    replace n with (n - 8 + 8) at 1 by lia.
    rewrite <- Z.shiftr_spec by lia. rewrite Z.shiftr_div_pow2 by lia.
    change (2 ^ 8) with 256.
    replace ((b0 + 256 * hi) / 256) with hi; [reflexivity|].
    rewrite (Z.mul_comm 256 hi), Z.div_add by lia.
    rewrite (Z.div_small b0 256) by exact Hb. reflexivity.
Qed.

(** The status words of two related memories agree outside the ERROR bit. *)
Lemma err_rel_status m1 m2 b :
  err_rel m1 m2 ->
  Z.lor (load32 (m1 b) REG_STATUS) STAT_ERROR
  = Z.lor (load32 (m2 b) REG_STATUS) STAT_ERROR.
Proof.
  intros H. unfold load32.
  rewrite (err_rel_other m1 m2 b (REG_STATUS + 1) H) by (unfold REG_STATUS; lia).
  rewrite (err_rel_other m1 m2 b (REG_STATUS + 2) H) by (unfold REG_STATUS; lia).
  rewrite (err_rel_other m1 m2 b (REG_STATUS + 3) H) by (unfold REG_STATUS; lia).
  pose proof (H b REG_STATUS) as H4. rewrite Z.eqb_refl in H4.
  set (hi := byte_at (m2 b) (REG_STATUS + 1) + 256 * byte_at (m2 b) (REG_STATUS + 2)
             + 65536 * byte_at (m2 b) (REG_STATUS + 3)).
  replace (byte_at (m1 b) REG_STATUS + 256 * byte_at (m2 b) (REG_STATUS + 1)
           + 65536 * byte_at (m2 b) (REG_STATUS + 2)
           + 16777216 * byte_at (m2 b) (REG_STATUS + 3))
    with (byte_at (m1 b) REG_STATUS + 256 * hi) by (subst hi; lia).
  replace (byte_at (m2 b) REG_STATUS + 256 * byte_at (m2 b) (REG_STATUS + 1)
           + 65536 * byte_at (m2 b) (REG_STATUS + 2)
           + 16777216 * byte_at (m2 b) (REG_STATUS + 3))
    with (byte_at (m2 b) REG_STATUS + 256 * hi) by (subst hi; lia).
  assert (Hr : forall m, 0 <= byte_at m REG_STATUS < 256)
    by (intros m; unfold byte_at; apply Z.mod_pos_bound; lia).
  apply Z.bits_inj'. intros n Hn.
  rewrite !Z.lor_spec, !testbit_low_byte by (try apply Hr; exact Hn).
  destruct (n <? 8); [|reflexivity].
  rewrite <- !Z.lor_spec, H4. reflexivity.
Qed.

(** A test of a status bit other than ERROR does not see the ERROR bit. *)
Lemma land_lor_error s mask :
  Z.land STAT_ERROR mask = 0 -> Z.land (Z.lor s STAT_ERROR) mask = Z.land s mask.
Proof. intros H. rewrite Z.land_lor_distr_l, H. apply Z.lor_0_r. Qed.

Lemma same_outside_error s1 s2 mask :
  Z.lor s1 STAT_ERROR = Z.lor s2 STAT_ERROR -> Z.land STAT_ERROR mask = 0 ->
  Z.land s1 mask = Z.land s2 mask.
Proof.
  intros H Hm. rewrite <- (land_lor_error s1 mask Hm), <- (land_lor_error s2 mask Hm), H.
  reflexivity.
Qed.

Lemma err_rel_upd m1 m2 b f1 f2 :
  err_rel m1 m2 ->
  (forall x, if x =? REG_STATUS
             then Z.lor (byte_at f1 x) STAT_ERROR = Z.lor (byte_at f2 x) STAT_ERROR
             else byte_at f1 x = byte_at f2 x) ->
  err_rel (upd_bar m1 b f1) (upd_bar m2 b f2).
Proof.
  intros H Hf b' x. unfold upd_bar. destruct (bar_eqb b' b); [apply Hf | apply H].
Qed.

Lemma err_rel_store32 m1 m2 b off v :
  err_rel m1 m2 ->
  err_rel (upd_bar m1 b (store32 (m1 b) off v)) (upd_bar m2 b (store32 (m2 b) off v)).
Proof.
  intros H. apply err_rel_upd; [exact H|]. intros x.
  pose proof (H b x) as Hx. unfold byte_at, store32 in *.
  destruct ((off <=? x) && (x <? off + 4)); [|exact Hx].
  destruct (x =? REG_STATUS); reflexivity.
Qed.

Lemma err_rel_copy_bytes m1 m2 b dst src n :
  err_rel m1 m2 ->
  err_rel (upd_bar m1 b (copy_bytes (m1 b) dst src n))
          (upd_bar m2 b (copy_bytes (m2 b) dst src n)).
Proof.
  intros H. apply err_rel_upd; [exact H|]. intros x.
  pose proof (H b x) as Hx. unfold byte_at, copy_bytes in *.
  destruct ((dst <=? x) && (x <? dst + n)); [|exact Hx].
  destruct (x =? REG_STATUS); reflexivity.
Qed.

Lemma world_rel_log e w1 w2 : world_rel w1 w2 -> world_rel (log e w1) (log e w2).
Proof.
  intros [H1 H2 H3 H4 H5 H6 H7 H8 H9]. constructor; cbn; try assumption.
  rewrite H5. reflexivity.
Qed.

Lemma world_rel_tick w1 w2 : world_rel w1 w2 -> world_rel (tick w1) (tick w2).
Proof.
  intros [H1 H2 H3 H4 H5 H6 H7 H8 H9]. constructor; cbn; try assumption.
  - rewrite H4. apply H3. exact H2.
  - rewrite H4. reflexivity.
Qed.

Lemma world_rel_set_heap h w1 w2 :
  world_rel w1 w2 -> world_rel (set_heap h w1) (set_heap h w2).
Proof. intros [H1 H2 H3 H4 H5 H6 H7 H8 H9]. constructor; cbn; try assumption. reflexivity. Qed.

Lemma world_rel_set_iomem m1 m2 w1 w2 :
  world_rel w1 w2 -> err_rel m1 m2 -> world_rel (set_iomem m1 w1) (set_iomem m2 w2).
Proof. intros [H1 H2 H3 H4 H5 H6 H7 H8 H9] Hm. constructor; cbn; assumption. Qed.

Lemma ret_rel {A} (RA : A -> A -> Prop) a1 a2 : RA a1 a2 -> m_rel RA (ret a1) (ret a2).
Proof. intros H w1 w2 Hw. split; assumption. Qed.

Lemma bind_rel {A B} (RA : A -> A -> Prop) (RB : B -> B -> Prop) m1 m2 k1 k2 :
  m_rel RA m1 m2 ->
  (forall a1 a2, RA a1 a2 -> m_rel RB (k1 a1) (k2 a2)) ->
  m_rel RB (bind m1 k1) (bind m2 k2).
Proof.
  intros Hm Hk w1 w2 Hw. unfold bind. specialize (Hm w1 w2 Hw).
  destruct (m1 w1) as [a1 w1'| |], (m2 w2) as [a2 w2'| |]; cbn in Hm; try contradiction;
    try exact I.
  destruct Hm as [Ha Hw']. exact (Hk a1 a2 Ha w1' w2' Hw').
Qed.

(** Binding the same continuation after equal values. *)
Lemma bind_rel_eq {A B} (RB : B -> B -> Prop) (m1 m2 : M A) (k : A -> M B) :
  m_rel eq m1 m2 -> (forall a, m_rel RB (k a) (k a)) ->
  m_rel RB (bind m1 k) (bind m2 k).
Proof. intros Hm Hk. apply (bind_rel eq); [exact Hm|]. intros a1 a2 <-. apply Hk. Qed.

Lemma undef_rel {A} (RA : A -> A -> Prop) : m_rel RA undef undef.
Proof. intros w1 w2 _. exact I. Qed.

Lemma out_of_fuel_rel {A} (RA : A -> A -> Prop) : m_rel RA out_of_fuel out_of_fuel.
Proof. intros w1 w2 _. exact I. Qed.

Lemma load_dev_rel l : m_rel eq (load_dev l) (load_dev l).
Proof.
  intros w1 w2 Hw. unfold load_dev. rewrite (rel_heap _ _ Hw).
  destruct (heap w2 !! l); cbn; [split; [reflexivity | exact Hw] | exact I].
Qed.

Lemma uninit_rel : m_rel eq uninit uninit.
Proof.
  intros w1 w2 Hw. unfold uninit. cbn. split; [apply (rel_indeterminate _ _ Hw) | exact Hw].
Qed.

Lemma usleep_rel us : m_rel eq (usleep us) (usleep us).
Proof.
  intros w1 w2 Hw. unfold usleep. cbn. split; [reflexivity|].
  apply world_rel_log. induction (Z.to_nat (us / 1000)) as [|n IH]; [exact Hw|].
  rewrite !Nat.iter_succ. apply world_rel_tick. exact IH.
Qed.

(** A register read away from the status word returns the same word. *)
Lemma mmio_read_rel p off :
  off + 4 <= REG_STATUS \/ REG_STATUS < off ->
  m_rel eq (mmio_read p off) (mmio_read p off).
Proof.
  intros Ho w1 w2 Hw. unfold mmio_read. destruct p as [| |b len]; try exact I.
  destruct (in_window len off 4); [|exact I].
  split; [|apply world_rel_log; exact Hw].
  apply err_rel_load32; [apply (rel_iomem _ _ Hw) | exact Ho].
Qed.

Lemma mmio_read_status_rel p :
  m_rel same_but_error (mmio_read p REG_STATUS) (mmio_read p REG_STATUS).
Proof.
  intros w1 w2 Hw. unfold mmio_read. destruct p as [| |b len]; try exact I.
  destruct (in_window len REG_STATUS 4); [|exact I].
  split; [|apply world_rel_log; exact Hw].
  apply err_rel_status. apply (rel_iomem _ _ Hw).
Qed.

Lemma mem_read32_rel p off :
  off + 4 <= REG_STATUS \/ REG_STATUS < off ->
  m_rel eq (mem_read32 p off) (mem_read32 p off).
Proof.
  intros Ho w1 w2 Hw. unfold mem_read32. destruct p as [| |b len]; try exact I.
  destruct (in_window len off 4); [|exact I].
  split; [|apply world_rel_log; exact Hw].
  apply err_rel_load32; [apply (rel_iomem _ _ Hw) | exact Ho].
Qed.

Lemma mmio_write_rel p off v : m_rel eq (mmio_write p off v) (mmio_write p off v).
Proof.
  intros w1 w2 Hw. unfold mmio_write. destruct p as [| |b len]; try exact I.
  destruct (in_window len off 4); [|exact I].
  split; [reflexivity|]. apply world_rel_log, world_rel_set_iomem; [exact Hw|].
  apply err_rel_store32. apply (rel_iomem _ _ Hw).
Qed.

Lemma memcpy_to_rel p off src n : m_rel eq (memcpy_to p off src n) (memcpy_to p off src n).
Proof.
  intros w1 w2 Hw. unfold memcpy_to. destruct p as [| |b len]; try exact I.
  destruct (in_window len off n && (n <=? Z.of_nat (length src))); [|exact I].
  split; [reflexivity|]. apply world_rel_log, world_rel_set_iomem; [exact Hw|].
  apply err_rel_copy_bytes. apply (rel_iomem _ _ Hw).
Qed.

Lemma kc705_read_reg_rel device off v :
  off + 4 <= REG_STATUS \/ REG_STATUS < off ->
  m_rel eq (kc705_read_reg device off v) (kc705_read_reg device off v).
Proof.
  intros Ho. unfold kc705_read_reg. destruct device as [l|]; [|apply ret_rel; reflexivity].
  apply bind_rel_eq; [apply load_dev_rel|]. intros d.
  destruct (negb (is_open d) || is_null (reg_base d)); [apply ret_rel; reflexivity|].
  apply bind_rel_eq; [apply mmio_read_rel; exact Ho|]. intros s.
  apply ret_rel. reflexivity.
Qed.

Lemma kc705_read_reg_status_rel device v :
  m_rel (fun rv1 rv2 => fst rv1 = fst rv2 /\ same_but_error (snd rv1) (snd rv2))
        (kc705_read_reg device REG_STATUS v) (kc705_read_reg device REG_STATUS v).
Proof.
  unfold kc705_read_reg. destruct device as [l|]; [|apply ret_rel; split; reflexivity].
  apply bind_rel_eq; [apply load_dev_rel|]. intros d.
  destruct (negb (is_open d) || is_null (reg_base d)); [apply ret_rel; split; reflexivity|].
  eapply bind_rel; [apply mmio_read_status_rel|]. intros s1 s2 Hs.
  apply ret_rel. split; [reflexivity | exact Hs].
Qed.

Lemma kc705_write_reg_rel device off v :
  m_rel eq (kc705_write_reg device off v) (kc705_write_reg device off v).
Proof.
  unfold kc705_write_reg. destruct device as [l|]; [|apply ret_rel; reflexivity].
  apply bind_rel_eq; [apply load_dev_rel|]. intros d.
  destruct (negb (is_open d) || is_null (reg_base d)); [apply ret_rel; reflexivity|].
  apply bind_rel_eq; [apply mmio_write_rel|]. intros _. apply ret_rel. reflexivity.
Qed.

Lemma kc705_is_done_rel device : m_rel eq (kc705_is_done device) (kc705_is_done device).
Proof.
  unfold kc705_is_done. apply bind_rel_eq; [apply uninit_rel|]. intros s0.
  eapply bind_rel; [apply kc705_read_reg_status_rel|].
  intros [rc1 s1] [rc2 s2] [Hrc Hs]. cbn [fst snd] in *. subst rc2.
  destruct (negb (rc1 =? KC705_SUCCESS)); apply ret_rel; [reflexivity|].
  rewrite (same_outside_error s1 s2 STAT_DONE Hs) by reflexivity. reflexivity.
Qed.

Lemma kc705_get_device_info_rel device info :
  m_rel eq (kc705_get_device_info device info) (kc705_get_device_info device info).
Proof.
  unfold kc705_get_device_info.
  destruct device as [l|]; [|apply ret_rel; reflexivity].
  destruct info as [i0|]; [|apply ret_rel; reflexivity].
  apply bind_rel_eq; [apply uninit_rel|]. intros s0.
  eapply bind_rel; [apply kc705_read_reg_status_rel|].
  intros [rc1 s1] [rc2 s2] [Hrc Hs]. cbn [fst snd] in *.
  apply ret_rel.
  rewrite (same_outside_error s1 s2 STAT_LINK_UP Hs) by reflexivity. reflexivity.
Qed.

Lemma kc705_get_debug_status_rel device :
  m_rel eq (kc705_get_debug_status device) (kc705_get_debug_status device).
Proof.
  unfold kc705_get_debug_status.
  apply bind_rel_eq; [apply kc705_read_reg_rel; unfold REG_DEBUG, REG_STATUS; lia|].
  intros rv. apply ret_rel. reflexivity.
Qed.

Lemma wait_done_rel device fuel :
  forall elapsed, m_rel eq (wait_done fuel device elapsed) (wait_done fuel device elapsed).
Proof.
  induction fuel as [|fuel IH]; intros elapsed; cbn [wait_done];
    (apply bind_rel_eq; [apply kc705_is_done_rel|]); intros done;
    destruct (negb done && (elapsed <? timeout_ms)); try (apply ret_rel; reflexivity).
  - apply out_of_fuel_rel.
  - apply bind_rel_eq; [apply usleep_rel|]. intros _. apply IH.
Qed.

Lemma read_result_words_rel device d :
  m_rel eq (read_result_words device d) (read_result_words device d).
Proof.
  unfold read_result_words. destruct (negb (is_null (mem_base d))).
  - repeat (apply bind_rel_eq;
            [apply mem_read32_rel; unfold KC705_RESULT_BASE, REG_STATUS; lia | intros ?]).
    apply ret_rel. reflexivity.
  - do 3 (apply bind_rel_eq; [apply uninit_rel | intros ?]).
    repeat (apply bind_rel_eq;
            [apply kc705_read_reg_rel; unfold KC705_RESULT_BASE, REG_STATUS; lia | intros ?]).
    apply ret_rel. reflexivity.
Qed.

Lemma kc705_get_result_rel device result :
  m_rel eq (kc705_get_result device result) (kc705_get_result device result).
Proof.
  unfold kc705_get_result. destruct device as [l|]; [|apply ret_rel; reflexivity].
  apply bind_rel_eq; [apply load_dev_rel|]. intros d.
  destruct (negb (is_open d)); [apply ret_rel; reflexivity|].
  destruct result as [r0|]; [|apply ret_rel; reflexivity].
  apply bind_rel_eq; [apply wait_done_rel|]. intros e.
  destruct (e >=? timeout_ms); [apply ret_rel; reflexivity|].
  apply bind_rel_eq; [apply load_dev_rel|]. intros d'.
  apply bind_rel_eq; [apply read_result_words_rel|]. intros [[c q] t].
  apply ret_rel. reflexivity.
Qed.

Lemma kc705_get_result_nowait_rel device result :
  m_rel eq (kc705_get_result_nowait device result)
           (kc705_get_result_nowait device result).
Proof.
  unfold kc705_get_result_nowait.
  apply bind_rel_eq; [apply kc705_is_done_rel|]. intros done.
  destruct (negb done); [apply ret_rel; reflexivity | apply kc705_get_result_rel].
Qed.

Lemma read_word_rel buf i : m_rel eq (read_word buf i) (read_word buf i).
Proof.
  unfold read_word. destruct ((0 <=? i) && (i + 4 <=? Z.of_nat (length buf)));
    [apply ret_rel; reflexivity | apply undef_rel].
Qed.

Lemma upload_words_rel device img size fuel :
  forall i, m_rel eq (upload_words fuel device img i size)
                     (upload_words fuel device img i size).
Proof.
  induction fuel as [|fuel IH]; intros i; cbn [upload_words];
    destruct (i <? size); try (apply ret_rel; reflexivity).
  - apply out_of_fuel_rel.
  - apply bind_rel_eq; [apply read_word_rel|]. intros word.
    apply bind_rel_eq; [apply kc705_write_reg_rel|]. intros _. apply IH.
Qed.

Lemma kc705_upload_image_rel device image size :
  m_rel eq (kc705_upload_image device image size) (kc705_upload_image device image size).
Proof.
  unfold kc705_upload_image. destruct device as [l|]; [|apply ret_rel; reflexivity].
  apply bind_rel_eq; [apply load_dev_rel|]. intros d.
  destruct (negb (is_open d)); [apply ret_rel; reflexivity|].
  destruct image as [img|]; [|apply ret_rel; reflexivity].
  destruct (size >? UPLOAD_LIMIT); [apply ret_rel; reflexivity|].
  apply bind_rel_eq.
  - destruct (negb (is_null (mem_base d)));
      [apply memcpy_to_rel | apply upload_words_rel].
  - intros _. apply bind_rel_eq; [apply kc705_write_reg_rel|]. intros _.
    apply ret_rel. reflexivity.
Qed.

Lemma kc705_start_inference_rel device :
  m_rel eq (kc705_start_inference device) (kc705_start_inference device).
Proof.
  unfold kc705_start_inference. destruct device as [l|]; [|apply ret_rel; reflexivity].
  apply bind_rel_eq; [apply load_dev_rel|]. intros d.
  destruct (negb (is_open d)); [apply ret_rel; reflexivity | apply kc705_write_reg_rel].
Qed.

Lemma kc705_infer_rel device image size result :
  m_rel eq (kc705_infer device image size result) (kc705_infer device image size result).
Proof.
  unfold kc705_infer. apply bind_rel_eq; [apply kc705_upload_image_rel|]. intros r.
  destruct (negb (r =? KC705_SUCCESS)); [apply ret_rel; reflexivity|].
  apply bind_rel_eq; [apply kc705_start_inference_rel|]. intros r'.
  destruct (negb (r' =? KC705_SUCCESS)); [apply ret_rel; reflexivity|].
  apply kc705_get_result_rel.
Qed.

Lemma kc705_reset_rel device : m_rel eq (kc705_reset device) (kc705_reset device).
Proof.
  unfold kc705_reset. apply bind_rel_eq; [apply kc705_write_reg_rel|]. intros r.
  destruct (negb (r =? KC705_SUCCESS)); [apply ret_rel; reflexivity|].
  apply bind_rel_eq; [apply usleep_rel|]. intros _. apply kc705_write_reg_rel.
Qed.

Lemma emit_rel e : m_rel eq (emit e) (emit e).
Proof. intros w1 w2 Hw. split; [reflexivity | apply world_rel_log; exact Hw]. Qed.

Lemma store_dev_rel l d : m_rel eq (store_dev l d) (store_dev l d).
Proof.
  intros w1 w2 Hw. unfold store_dev. rewrite (rel_heap _ _ Hw).
  destruct (heap w2 !! l); [|exact I].
  split; [reflexivity | apply world_rel_set_heap; exact Hw].
Qed.

Lemma free_rel l : m_rel eq (free l) (free l).
Proof.
  intros w1 w2 Hw. unfold free. rewrite (rel_heap _ _ Hw).
  destruct (heap w2 !! l); [|exact I].
  split; [reflexivity | apply world_rel_log, world_rel_set_heap; exact Hw].
Qed.

Lemma munmap_rel p len : m_rel eq (munmap p len) (munmap p len).
Proof. destruct p; cbn [munmap]; [apply ret_rel; reflexivity .. | apply emit_rel]. Qed.

Lemma kc705_close_rel device : m_rel eq (kc705_close device) (kc705_close device).
Proof.
  unfold kc705_close. destruct device as [l|]; [|apply ret_rel; reflexivity].
  apply bind_rel_eq; [apply load_dev_rel|]. intros d.
  destruct (negb (is_open d)); [apply ret_rel; reflexivity|].
  apply bind_rel_eq.
  { destruct (_ && _); [apply munmap_rel | apply ret_rel; reflexivity]. }
  intros _. apply bind_rel_eq.
  { destruct (_ && _); [apply munmap_rel | apply ret_rel; reflexivity]. }
  intros _. apply bind_rel_eq.
  { destruct (_ >=? _); [apply emit_rel | apply ret_rel; reflexivity]. }
  intros _. apply bind_rel_eq; [apply store_dev_rel|]. intros _.
  apply bind_rel_eq; [apply free_rel|]. intros _. apply ret_rel. reflexivity.
Qed.

Lemma kc705_enumerate_devices_rel max_devices :
  m_rel eq (kc705_enumerate_devices max_devices) (kc705_enumerate_devices max_devices).
Proof.
  intros w1 w2 Hw. unfold kc705_enumerate_devices. rewrite (rel_bus _ _ Hw).
  split; [reflexivity | exact Hw].
Qed.

Lemma malloc_zeroed_rel : m_rel eq malloc_zeroed malloc_zeroed.
Proof.
  intros w1 w2 Hw. unfold malloc_zeroed.
  rewrite (rel_malloc _ _ Hw), (rel_heap _ _ Hw).
  destruct (malloc_fails w2); (split; [reflexivity|]);
    [exact Hw | apply world_rel_set_heap; exact Hw].
Qed.

Lemma os_open_rel path res : m_rel eq (os_open path res) (os_open path res).
Proof.
  intros w1 w2 Hw. unfold os_open. rewrite (rel_bus _ _ Hw).
  destruct (find_pci path (bus w2)); (split; [reflexivity | exact Hw]).
Qed.

Lemma os_mmap_rel path res len : m_rel eq (os_mmap path res len) (os_mmap path res len).
Proof.
  intros w1 w2 Hw. unfold os_mmap. rewrite (rel_bus _ _ Hw).
  destruct (find_pci path (bus w2)); (split; [reflexivity | exact Hw]).
Qed.

Lemma map_pci_device_rel l path :
  m_rel eq (map_pci_device l path) (map_pci_device l path).
Proof.
  unfold map_pci_device.
  apply bind_rel_eq; [apply os_open_rel|]. intros fd.
  apply bind_rel_eq; [apply load_dev_rel|]. intros d.
  apply bind_rel_eq; [apply store_dev_rel|]. intros _.
  destruct (fd <? 0); [apply ret_rel; reflexivity|].
  apply bind_rel_eq; [apply os_mmap_rel|]. intros rb.
  apply bind_rel_eq; [apply store_dev_rel|]. intros _.
  destruct (is_map_failed rb).
  { apply bind_rel_eq; [apply emit_rel|]. intros _. apply ret_rel. reflexivity. }
  apply bind_rel_eq; [apply os_open_rel|]. intros mem_fd.
  apply bind_rel_eq; [|intros _; apply ret_rel; reflexivity].
  destruct (mem_fd >=? 0); [|apply ret_rel; reflexivity].
  apply bind_rel_eq; [apply os_mmap_rel|]. intros mb.
  apply bind_rel_eq; [apply store_dev_rel|]. intros _. apply emit_rel.
Qed.

Lemma kc705_open_device_rel device_index :
  m_rel eq (kc705_open_device device_index) (kc705_open_device device_index).
Proof.
  unfold kc705_open_device.
  apply bind_rel_eq; [apply kc705_enumerate_devices_rel|]. intros paths.
  destruct (_ =? 0); [apply ret_rel; reflexivity|].
  destruct (_ >=? _); [apply ret_rel; reflexivity|].
  apply bind_rel_eq; [apply malloc_zeroed_rel|]. intros [l|]; [|apply ret_rel; reflexivity].
  apply bind_rel_eq.
  { unfold path_at. destruct (_ <? 0); [apply undef_rel|].
    destruct (paths !! _); [apply ret_rel; reflexivity | apply undef_rel]. }
  intros path.
  apply bind_rel_eq; [apply load_dev_rel|]. intros d.
  apply bind_rel_eq; [apply store_dev_rel|]. intros _.
  apply bind_rel_eq; [apply map_pci_device_rel|]. intros r.
  destruct (negb (r =? KC705_SUCCESS)).
  { apply bind_rel_eq; [apply free_rel|]. intros _. apply ret_rel. reflexivity. }
  apply bind_rel_eq; [apply load_dev_rel|]. intros d'.
  apply bind_rel_eq; [apply store_dev_rel|]. intros _. apply ret_rel. reflexivity.
Qed.

Lemma kc705_load_image_rel filename :
  m_rel eq (kc705_load_image filename) (kc705_load_image filename).
Proof.
  intros w1 w2 Hw. unfold kc705_load_image.
  rewrite (rel_files _ _ Hw), (rel_malloc _ _ Hw).
  destruct (files w2 filename) as [content|]; [|split; [reflexivity | exact Hw]].
  cbv zeta. destruct (malloc_fails w2); [exact I|].
  destruct (_ <? _); (split; [reflexivity | exact Hw]).
Qed.

Lemma kc705_infer_file_rel device filename result :
  m_rel eq (kc705_infer_file device filename result)
           (kc705_infer_file device filename result).
Proof.
  unfold kc705_infer_file. apply bind_rel_eq; [apply kc705_load_image_rel|].
  intros [[[[img width] height] channels]|]; [apply kc705_infer_rel | apply ret_rel; reflexivity].
Qed.

Lemma kc705_infer_batch_rel device image_files results :
  m_rel eq (kc705_infer_batch device image_files results)
           (kc705_infer_batch device image_files results).
Proof.
  unfold kc705_infer_batch, infer_batch_with. generalize 0%nat as processed.
  revert results.
  induction image_files as [|file rest IH]; intros results processed; cbn [batch_loop].
  - apply ret_rel. reflexivity.
  - destruct (results !! processed) as [slot|]; [|apply undef_rel].
    apply bind_rel_eq; [apply kc705_infer_file_rel|]. intros rv.
    destruct (fst rv =? KC705_SUCCESS); apply IH.
Qed.

Lemma done_worlds_related : world_rel done_error_world done_world.
Proof.
  constructor; try reflexivity.
  - intros b x. cbn. unfold byte_at, status_only.
    destruct (x =? REG_STATUS); reflexivity.
  - intros t m1 m2 H. exact H.
Qed.

(** C10 does not hold as stated: one operation does hand the ERROR bit
    to its caller.  The two worlds below differ in that bit only, and
    [kc705_read_reg] of the status register returns 5 in the one and 1 in
    the other. *)
Lemma kc705_read_reg_shows_the_error_bit :
  world_rel done_error_world done_world
  /\ match kc705_read_reg (Some 0%nat) REG_STATUS 0 done_error_world,
           kc705_read_reg (Some 0%nat) REG_STATUS 0 done_world with
     | Ok (rc1, s1) _, Ok (rc2, s2) _ =>
         rc1 = KC705_SUCCESS /\ rc2 = KC705_SUCCESS /\ s1 = 5 /\ s2 = 1
     | _, _ => False
     end.
Proof. split; [exact done_worlds_related | vm_compute; repeat split; reflexivity]. Qed.

(** C10, amended.  Only the raw register read sees the ERROR bit.  Take
    two worlds that differ at most in the ERROR bit of the status word, at
    the start and at every later moment.  Every other operation of the
    driver that is given the device, the bus or a file gives the same kind
    of outcome, the same return value and the same record in both, and
    leaves worlds that again differ at most in that bit (this covers the
    two functions that test the status word,
    [kc705_is_done] and [kc705_get_device_info], and everything built on
    them); [kc705_read_reg] does so for every word that does not overlap
    the status byte, and for the status register it returns the same code
    and two words that agree outside that bit.  In particular, on an open
    handle with its data window whose status word shows DONE together with
    ERROR, [kc705_get_result] returns SUCCESS with a valid record. *)
Theorem error_bit_reaches_read_reg_only
    device image size result info filename image_files results device_index
    max_devices off v w1 w2 :
  world_rel w1 w2 ->
  out_rel eq (kc705_is_done device w1) (kc705_is_done device w2)
  /\ out_rel eq (kc705_get_result device result w1) (kc705_get_result device result w2)
  /\ out_rel eq (kc705_get_result_nowait device result w1)
                (kc705_get_result_nowait device result w2)
  /\ out_rel eq (kc705_infer device image size result w1)
                (kc705_infer device image size result w2)
  /\ out_rel eq (kc705_infer_file device filename result w1)
                (kc705_infer_file device filename result w2)
  /\ out_rel eq (kc705_infer_batch device image_files results w1)
                (kc705_infer_batch device image_files results w2)
  /\ out_rel eq (kc705_load_image filename w1) (kc705_load_image filename w2)
  /\ out_rel eq (kc705_upload_image device image size w1)
                (kc705_upload_image device image size w2)
  /\ out_rel eq (kc705_start_inference device w1) (kc705_start_inference device w2)
  /\ out_rel eq (kc705_reset device w1) (kc705_reset device w2)
  /\ out_rel eq (kc705_get_device_info device info w1)
                (kc705_get_device_info device info w2)
  /\ out_rel eq (kc705_get_debug_status device w1) (kc705_get_debug_status device w2)
  /\ out_rel eq (kc705_write_reg device off v w1) (kc705_write_reg device off v w2)
  /\ out_rel eq (kc705_close device w1) (kc705_close device w2)
  /\ out_rel eq (kc705_open_device device_index w1) (kc705_open_device device_index w2)
  /\ out_rel eq (kc705_enumerate_devices max_devices w1)
                (kc705_enumerate_devices max_devices w2)
  /\ (off + 4 <= REG_STATUS \/ REG_STATUS < off ->
      out_rel eq (kc705_read_reg device off v w1) (kc705_read_reg device off v w2))
  /\ out_rel (fun rv1 rv2 => fst rv1 = fst rv2 /\ same_but_error (snd rv1) (snd rv2))
             (kc705_read_reg device REG_STATUS v w1)
             (kc705_read_reg device REG_STATUS v w2)
  /\ (forall l d rb mb r0,
        device = Some l -> handle_open w1 l d rb ->
        mem_base d = Mapped mb MEM_WINDOW_LEN ->
        Z.land (load32 (iomem w1 rb) REG_STATUS) STAT_DONE = STAT_DONE ->
        Z.land (load32 (iomem w1 rb) REG_STATUS) STAT_ERROR = STAT_ERROR ->
        exists r w', kc705_get_result device (Some r0) w1 = Ok (KC705_SUCCESS, Some r) w'
                     /\ valid r = true).
Proof.
  intros Hw.
  split; [apply (kc705_is_done_rel device w1 w2 Hw)|].
  split; [apply (kc705_get_result_rel device result w1 w2 Hw)|].
  split; [apply (kc705_get_result_nowait_rel device result w1 w2 Hw)|].
  split; [apply (kc705_infer_rel device image size result w1 w2 Hw)|].
  split; [apply (kc705_infer_file_rel device filename result w1 w2 Hw)|].
  split; [apply (kc705_infer_batch_rel device image_files results w1 w2 Hw)|].
  split; [apply (kc705_load_image_rel filename w1 w2 Hw)|].
  split; [apply (kc705_upload_image_rel device image size w1 w2 Hw)|].
  split; [apply (kc705_start_inference_rel device w1 w2 Hw)|].
  split; [apply (kc705_reset_rel device w1 w2 Hw)|].
  split; [apply (kc705_get_device_info_rel device info w1 w2 Hw)|].
  split; [apply (kc705_get_debug_status_rel device w1 w2 Hw)|].
  split; [apply (kc705_write_reg_rel device off v w1 w2 Hw)|].
  split; [apply (kc705_close_rel device w1 w2 Hw)|].
  split; [apply (kc705_open_device_rel device_index w1 w2 Hw)|].
  split; [apply (kc705_enumerate_devices_rel max_devices w1 w2 Hw)|].
  split; [intros Ho; apply (kc705_read_reg_rel device off v Ho w1 w2 Hw)|].
  split; [apply (kc705_read_reg_status_rel device v w1 w2 Hw)|].
  - intros l d rb mb r0 -> Hd Hm Hdone _.
    rewrite (kc705_get_result_done w1 l d rb mb r0 0%nat Hd Hm).
    + do 2 eexists. split; reflexivity.
    + unfold budget. change (Z.to_nat timeout_ms) with (Z.to_nat 5000). lia.
    + reflexivity.
    + unfold done_at, done_now, done_bit. cbn [Nat.iter nat_rect].
      rewrite Hdone. reflexivity.
Qed.

Lemma error_bit_reaches_read_reg_only_witness :
  world_rel done_error_world done_world
  /\ out_rel eq (kc705_get_result (Some 0%nat) (Some Sim.blank) done_error_world)
                (kc705_get_result (Some 0%nat) (Some Sim.blank) done_world)
  /\ exists r w',
       kc705_get_result (Some 0%nat) (Some Sim.blank) done_error_world
       = Ok (KC705_SUCCESS, Some r) w'
       /\ valid r = true.
Proof.
  pose proof (error_bit_reaches_read_reg_only (Some 0%nat) (Some (Sim.gray 16)) 16
                (Some Sim.blank) None "frame.raw" [] [] 0 KC705_MAX_DEVICES REG_DEBUG 0
                done_error_world done_world done_worlds_related)
    as (_ & Hget & _ & _ & _ & _ & _ & _ & _ & _ & _ & _ & _ & _ & _ & _ & _ & _ & Hvalid).
  split; [exact done_worlds_related|]. split; [exact Hget|].
  apply (Hvalid 0%nat Sim.dev_shared Sim.regs Sim.mem Sim.blank).
  - reflexivity.
  - repeat split; reflexivity.
  - reflexivity.
  - reflexivity.
  - reflexivity.
Defined.

Example done_with_error_is_reported_as_success :
  match kc705_get_result (Some 0%nat) (Some Sim.blank) done_error_world with
  | Ok rv w' => Some (rv, trace w')
  | _ => None
  end
  = Some ((KC705_SUCCESS, Some (fill_result 0 0 0)),
          [EvRegRead Sim.regs REG_STATUS;
           EvMemRead Sim.mem 8192; EvMemRead Sim.mem 8196; EvMemRead Sim.mem 8200]).
Proof. vm_compute. reflexivity. Qed.

(** * Further properties of the driver *)

(** ** Error strings and class names *)

(** X1.  The five status codes of the driver have five different
    messages, none of which is the message of an unknown code; every
    other integer gets that message. *)
Theorem kc705_get_error_string_codes (a b : Z) :
  let known c := c = KC705_SUCCESS \/ c = KC705_ERROR \/ c = KC705_TIMEOUT
                 \/ c = KC705_NO_DEVICE \/ c = KC705_INVALID_PARAM in
  (known a -> known b ->
   kc705_get_error_string a = kc705_get_error_string b -> a = b)
  /\ (kc705_get_error_string a = "Unknown error" <-> ~ known a).
Proof.
  intros known. split.
  - intros Ha Hb. unfold known in *.
    destruct Ha as [->|[->|[->|[->| ->]]]], Hb as [->|[->|[->|[->| ->]]]];
      cbn; intros H; try reflexivity; discriminate H.
  - unfold known, kc705_get_error_string. split.
    + intros H [->|[->|[->|[->| ->]]]]; discriminate H.
    + intros H.
      destruct (a =? KC705_SUCCESS) eqn:E0; [apply Z.eqb_eq in E0; tauto|].
      destruct (a =? KC705_ERROR) eqn:E1; [apply Z.eqb_eq in E1; tauto|].
      destruct (a =? KC705_TIMEOUT) eqn:E2; [apply Z.eqb_eq in E2; tauto|].
      destruct (a =? KC705_NO_DEVICE) eqn:E3; [apply Z.eqb_eq in E3; tauto|].
      destruct (a =? KC705_INVALID_PARAM) eqn:E4; [apply Z.eqb_eq in E4; tauto|].
      reflexivity.
Qed.

Lemma kc705_get_error_string_codes_witness :
  let known c := c = KC705_SUCCESS \/ c = KC705_ERROR \/ c = KC705_TIMEOUT
                 \/ c = KC705_NO_DEVICE \/ c = KC705_INVALID_PARAM in
  (known KC705_TIMEOUT -> known KC705_TIMEOUT ->
   kc705_get_error_string KC705_TIMEOUT = kc705_get_error_string KC705_TIMEOUT ->
   KC705_TIMEOUT = KC705_TIMEOUT)
  /\ (kc705_get_error_string KC705_TIMEOUT = "Unknown error" <-> ~ known KC705_TIMEOUT).
Proof. exact (kc705_get_error_string_codes KC705_TIMEOUT KC705_TIMEOUT). Defined.

Lemma class_name_low (class_id : Z) :
  0 <= class_id < 10 ->
  class_name class_id = nth (Z.to_nat class_id) imagenet_classes "".
Proof.
  intros H. unfold class_name, kc705_get_class_name.
  replace (class_id >=? 1000) with false by (symmetry; rewrite Z.geb_leb; apply Z.leb_gt; lia).
  replace (class_id <? 10) with true by (symmetry; apply Z.ltb_lt; lia).
  reflexivity.
Qed.

Lemma class_name_placeholder (class_id : Z) :
  10 <= class_id < 1000 -> class_name class_id = snprintf_class 32 class_id.
Proof.
  intros H. unfold class_name, kc705_get_class_name.
  replace (class_id >=? 1000) with false by (symmetry; rewrite Z.geb_leb; apply Z.leb_gt; lia).
  replace (class_id <? 10) with false by (symmetry; apply Z.ltb_ge; lia).
  reflexivity.
Qed.

Lemma class_name_unknown (class_id : Z) :
  1000 <= class_id -> class_name class_id = "unknown".
Proof.
  intros H. unfold class_name, kc705_get_class_name.
  replace (class_id >=? 1000) with true by (symmetry; rewrite Z.geb_leb; apply Z.leb_le; lia).
  reflexivity.
Qed.

(** X2.  The sentinel is kept for ids outside the label space: an id of
    1000 or more is named "unknown", an id below 1000 never is.  Hence the
    class id of every result that [kc705_get_result] fills in, whatever the
    hardware word was, resolves to a class name. *)
Theorem class_name_unknown_iff (id : Z) :
  0 <= id ->
  (class_name id = "unknown" <-> 1000 <= id)
  /\ (forall c q t, class_name (class_id (fill_result c q t)) <> "unknown").
Proof.
  assert (Hlow : forall i, 0 <= i < 1000 -> class_name i <> "unknown").
  { intros i Hi. destruct (Z.ltb_spec i 10) as [Hlt | Hge].
    - rewrite class_name_low by lia.
      assert (Hc : (Z.to_nat i < 10)%nat) by lia.
      destruct (Z.to_nat i) as [|[|[|[|[|[|[|[|[|[|n]]]]]]]]]]; cbn; try discriminate.
      lia.
    - rewrite class_name_placeholder by lia. unfold snprintf_class. cbn.
      discriminate. }
  intros H0. split.
  - split.
    + intros H. destruct (Z.le_gt_cases 1000 id) as [Hle | Hgt]; [exact Hle|].
      exfalso. apply (Hlow id); [lia | exact H].
    + apply class_name_unknown.
  - intros c q t. apply Hlow. cbn [class_id fill_result].
    apply Z.mod_pos_bound. reflexivity.
Qed.

Lemma class_name_unknown_iff_witness :
  (class_name 4096 = "unknown" <-> 1000 <= 4096)
  /\ (forall c q t, class_name (class_id (fill_result c q t)) <> "unknown").
Proof. apply (class_name_unknown_iff 4096). lia. Defined.

Lemma distinct_strings_NoDup (l : list string) :
  distinct_strings l = true -> List.NoDup l.
Proof.
  induction l as [|s rest IH]; cbn [distinct_strings]; intros H; [constructor|].
  apply andb_true_iff in H as [Hs Hrest]. apply negb_true_iff in Hs.
  constructor; [|apply IH; exact Hrest].
  intros Hin.
  assert (He : existsb (String.eqb s) rest = true)
    by (apply existsb_exists; exists s; split; [exact Hin | apply String.eqb_refl]).
  congruence.
Qed.

Lemma class_name_inj (a b : Z) :
  0 <= a < 1000 -> 0 <= b < 1000 -> class_name a = class_name b -> a = b.
Proof.
  intros Ha Hb H.
  set (names := map (fun i => class_name (Z.of_nat i)) (seq 0 1000)).
  assert (Hnd : List.NoDup names)
    by (apply distinct_strings_NoDup; vm_compute; reflexivity).
  assert (Hlen : length names = 1000%nat)
    by (unfold names; rewrite length_map, length_seq; reflexivity).
  assert (Hnth : forall i, (i < 1000)%nat -> nth i names "" = class_name (Z.of_nat i)).
  { intros i Hi. unfold names.
    rewrite (nth_indep _ "" (class_name (Z.of_nat 0))) by (rewrite length_map, length_seq; exact Hi).
    rewrite (map_nth (fun i => class_name (Z.of_nat i)) (seq 0 1000) 0%nat i).
    rewrite seq_nth by exact Hi. reflexivity. }
  assert (He : Z.to_nat a = Z.to_nat b).
  { apply (proj1 (NoDup_nth names "") Hnd); rewrite ?Hlen; try lia.
    rewrite !Hnth by lia. rewrite !Z2Nat.id by lia. exact H. }
  lia.
Qed.

(** X3.  Inside the label space the names tell the classes apart: two
    different ids below 1000 never get the same name, whether they are
    among the ten table entries or get a placeholder. *)
Theorem class_name_injective (a b : Z) :
  0 <= a < 1000 -> 0 <= b < 1000 -> a <> b -> class_name a <> class_name b.
Proof.
  intros Ha Hb Hne Heq. apply Hne. apply class_name_inj; assumption.
Qed.

Lemma class_name_injective_witness : class_name 9 <> class_name 10.
Proof. apply (class_name_injective 9 10); lia. Defined.

(** X4.  The placeholder names live in one static buffer.  A pointer
    returned for an id between 10 and 999 shows the right name after the
    call, and shows the name of the later id after the next call for such
    an id: the earlier name is overwritten.  *)
Theorem class_buffer_is_shared (a b : Z) (buf0 : string) :
  10 <= a < 1000 -> 10 <= b < 1000 ->
  let r1 := kc705_get_class_name a buf0 in
  let r2 := kc705_get_class_name b (snd r1) in
  name_at (fst r1) (snd r1) = class_name a
  /\ name_at (fst r1) (snd r2) = class_name b
  /\ (a <> b -> name_at (fst r1) (snd r2) <> class_name a).
Proof.
  intros Ha Hb r1 r2.
  assert (E1 : r1 = (ClassBuffer, snprintf_class 32 a)).
  { subst r1. unfold kc705_get_class_name.
    replace (a >=? 1000) with false by (symmetry; rewrite Z.geb_leb; apply Z.leb_gt; lia).
    replace (a <? 10) with false by (symmetry; apply Z.ltb_ge; lia). reflexivity. }
  assert (E2 : r2 = (ClassBuffer, snprintf_class 32 b)).
  { subst r2. unfold kc705_get_class_name.
    replace (b >=? 1000) with false by (symmetry; rewrite Z.geb_leb; apply Z.leb_gt; lia).
    replace (b <? 10) with false by (symmetry; apply Z.ltb_ge; lia). reflexivity. }
  rewrite E1, E2. cbn [fst snd name_at].
  rewrite <- !class_name_placeholder by lia.
  split; [reflexivity|]. split; [reflexivity|].
  intros Hne Heq. apply Hne. symmetry. apply class_name_inj; [lia | lia | exact Heq].
Qed.

Lemma class_buffer_is_shared_witness :
  let r1 := kc705_get_class_name 42 "" in
  let r2 := kc705_get_class_name 900 (snd r1) in
  name_at (fst r1) (snd r1) = class_name 42
  /\ name_at (fst r1) (snd r2) = class_name 900
  /\ (42 <> 900 -> name_at (fst r1) (snd r2) <> class_name 42).
Proof. apply (class_buffer_is_shared 42 900 ""); lia. Defined.

(** ** Discovery *)

Lemma pci_scan_take devs max_devices :
  forall paths,
    pci_scan devs max_devices paths
    = paths ++ take (Z.to_nat max_devices - length paths)
                    (map sysfs_path (List.filter is_kc705 devs)).
Proof.
  induction devs as [|dev rest IH]; intros paths; cbn [pci_scan List.filter map].
  - rewrite take_nil, app_nil_r. reflexivity.
  - destruct (Z.of_nat (length paths) <? max_devices) eqn:Hlt.
    + apply Z.ltb_lt in Hlt. fold (is_kc705 dev).
      destruct (is_kc705 dev); [|apply IH].
      rewrite IH, length_app. cbn [length map].
      replace (Z.to_nat max_devices - length paths)%nat
        with (S (Z.to_nat max_devices - (length paths + 1)))%nat by lia.
      cbn [take]. rewrite <- app_assoc. reflexivity.
    + apply Z.ltb_ge in Hlt.
      replace (Z.to_nat max_devices - length paths)%nat with 0%nat by lia.
      rewrite take_0, app_nil_r. reflexivity.
Qed.

(** X5.  Discovery lists the sysfs paths of the devices that carry the
    board's vendor and device identity, in bus order, and stops after
    [max_devices] of them; it never reports more than that, reports
    nothing for a limit of zero or less, and changes nothing. *)
Theorem kc705_enumerate_devices_spec (max_devices : Z) (w : world) :
  let found := map sysfs_path (List.filter is_kc705 (bus w)) in
  kc705_enumerate_devices max_devices w = Ok (take (Z.to_nat max_devices) found) w
  /\ Z.of_nat (length (take (Z.to_nat max_devices) found)) <= Z.max 0 max_devices
  /\ (Z.of_nat (length found) <= max_devices -> take (Z.to_nat max_devices) found = found).
Proof.
  intros found. split; [|split].
  - unfold kc705_enumerate_devices. rewrite pci_scan_take. cbn [length app].
    rewrite Nat.sub_0_r. reflexivity.
  - rewrite length_take. lia.
  - intros H. apply take_ge. lia.
Qed.

(** ** Resources of open and close *)

Lemma map_pci_device_ok_trace w l d0 path dev :
  heap w !! l = Some d0 ->
  find_pci path (bus w) = Some dev ->
  0 <= res0_open dev -> res0_mmap_ok dev = true ->
  exists w',
    map_pci_device l path w = Ok KC705_SUCCESS w'
    /\ heap w' = <[l := mk_device (res0_open dev) (Mapped (path, 0%nat) REG_WINDOW_LEN)
                          (mapped_mem path dev (mem_base d0)) (bar_size d0)
                          (is_open d0) (device_id d0) (device_path d0)]> (heap w)
    /\ trace w' = trace w ++ data_fd_events dev.
Proof.
  intros Hh Hf Hfd Hmap. unfold map_pci_device, mapped_mem, data_fd_events.
  erewrite bind_ok by (apply os_open_found; exact Hf). cbn [Nat.eqb].
  erewrite bind_ok by (apply load_dev_some; exact Hh).
  erewrite bind_ok by (eapply store_dev_some; exact Hh).
  replace (res0_open dev <? 0) with false by (symmetry; apply Z.ltb_ge; lia).
  erewrite bind_ok by (apply os_mmap_found; heap_now). cbn [Nat.eqb].
  rewrite Hmap.
  erewrite bind_ok by (eapply store_dev_some; heap_now).
  cbn [is_map_failed].
  erewrite bind_ok by (apply os_open_found; heap_now). cbn [Nat.eqb].
  destruct (res1_open dev >=? 0).
  - erewrite bind_ok.
    2: { erewrite bind_ok by (apply os_mmap_found; heap_now).
         erewrite bind_ok by (eapply store_dev_some; heap_now).
         reflexivity. }
    unfold ret. eexists. split; [reflexivity|].
    cbn. rewrite !insert_insert_eq. split; reflexivity.
  - erewrite bind_ok by reflexivity.
    unfold ret. eexists. split; [reflexivity|].
    cbn. rewrite !insert_insert_eq, app_nil_r. split; reflexivity.
Qed.

Lemma map_pci_device_fails w l d0 path dev :
  heap w !! l = Some d0 ->
  find_pci path (bus w) = Some dev ->
  res0_open dev < 0 \/ res0_mmap_ok dev = false ->
  exists w' d',
    map_pci_device l path w = Ok KC705_ERROR w'
    /\ heap w' = <[l := d']> (heap w)
    /\ trace w' = trace w ++ failed_map_events dev.
Proof.
  intros Hh Hf Hbad. unfold map_pci_device, failed_map_events.
  erewrite bind_ok by (apply os_open_found; exact Hf). cbn [Nat.eqb].
  erewrite bind_ok by (apply load_dev_some; exact Hh).
  erewrite bind_ok by (eapply store_dev_some; exact Hh).
  destruct (res0_open dev <? 0) eqn:Hlt.
  - unfold ret. do 2 eexists. split; [reflexivity|].
    cbn. rewrite app_nil_r. split; reflexivity.
  - apply Z.ltb_ge in Hlt. destruct Hbad as [Hneg | Hmm]; [lia|].
    erewrite bind_ok by (apply os_mmap_found; heap_now). cbn [Nat.eqb].
    rewrite Hmm.
    erewrite bind_ok by (eapply store_dev_some; heap_now).
    cbn [is_map_failed]. unfold bind, close_fd, emit, ret.
    do 2 eexists. split; [reflexivity|].
    cbn. rewrite !insert_insert_eq. split; reflexivity.
Qed.

(** The steps of [kc705_open_device] up to the call of
    [map_pci_device], for an index inside the discovered range. *)
Lemma kc705_open_device_until_map w device_index path :
  let paths := pci_scan (bus w) KC705_MAX_DEVICES [] in
  let l := fresh (dom (heap w)) in
  let d1 := mk_device 0 NullPtr NullPtr [0; 0; 0; 0; 0; 0] false 0 path in
  0 <= device_index ->
  paths !! Z.to_nat device_index = Some path ->
  malloc_fails w = false ->
  heap w !! l = None
  /\ kc705_open_device device_index w
     = (let* r := map_pci_device l path in
        if negb (r =? KC705_SUCCESS)
        then let* _ := free l in ret None
        else let* d := load_dev l in
             let* _ := store_dev l (mk_device (pci_fd d) (reg_base d) (mem_base d)
                                      (bar_size d) true (u32 device_index) path) in
             ret (Some l))
         (set_heap (<[l := d1]> (heap w)) w).
Proof.
  intros paths l d1 H0 Hp Hm.
  pose proof (lookup_lt_Some _ _ _ Hp) as Hlen.
  destruct (malloc_zeroed_ok w Hm) as [Hmal Hfresh]. fold l in Hmal, Hfresh.
  split; [exact Hfresh|].
  unfold kc705_open_device, kc705_enumerate_devices.
  unfold bind at 1. fold paths.
  replace (Z.of_nat (length paths) =? 0) with false
    by (symmetry; apply Z.eqb_neq; lia).
  replace (device_index >=? Z.of_nat (length paths)) with false
    by (symmetry; rewrite Z.geb_leb; apply Z.leb_gt; lia).
  erewrite bind_ok by exact Hmal.
  unfold path_at.
  replace (device_index <? 0) with false by (symmetry; apply Z.ltb_ge; lia).
  rewrite Hp.
  erewrite bind_ok by reflexivity.
  erewrite bind_ok by (apply load_dev_some; heap_now).
  erewrite bind_ok by (eapply store_dev_some; heap_now).
  cbn [heap set_heap]. rewrite insert_insert_eq. reflexivity.
Qed.

(** X6.  A failed open keeps nothing: when the register resource of the
    chosen device cannot be opened, or opens but cannot be mapped, the
    function returns the null handle, the struct it had allocated is
    freed (the heap is as before the call) and the descriptor of the
    register resource is closed if it had been opened. *)
Theorem kc705_open_device_failure_releases w device_index path dev :
  let paths := pci_scan (bus w) KC705_MAX_DEVICES [] in
  0 <= device_index ->
  paths !! Z.to_nat device_index = Some path ->
  malloc_fails w = false ->
  find_pci path (bus w) = Some dev ->
  res0_open dev < 0 \/ res0_mmap_ok dev = false ->
  exists w',
    kc705_open_device device_index w = Ok None w'
    /\ heap w' = heap w
    /\ trace w' = trace w ++ failed_map_events dev ++ [EvFree (fresh (dom (heap w)))].
Proof.
  intros paths H0 Hp Hm Hf Hbad.
  destruct (kc705_open_device_until_map w device_index path H0 Hp Hm) as [Hfresh ->].
  set (l := fresh (dom (heap w))) in *.
  match goal with |- context [bind (map_pci_device l path) _ ?w1] =>
    destruct (map_pci_device_fails w1 l
                (mk_device 0 NullPtr NullPtr [0; 0; 0; 0; 0; 0] false 0 path)
                path dev) as (w2 & d' & Hrun & Hheap & Htrace);
      [heap_now | heap_now | exact Hbad |]
  end.
  erewrite bind_ok by exact Hrun.
  cbn [Z.eqb KC705_SUCCESS KC705_ERROR negb].
  assert (Hl : heap w2 !! l = Some d') by (rewrite Hheap; apply lookup_insert_eq).
  exists (log (EvFree l) (set_heap (delete l (heap w2)) w2)). split.
  - unfold bind, free, ret. rewrite Hl. reflexivity.
  - cbn [heap trace log set_heap]. rewrite Hheap, Htrace.
    cbn [heap trace set_heap].
    rewrite !delete_insert_eq, delete_id by exact Hfresh.
    rewrite <- app_assoc. split; reflexivity.
Qed.

Lemma kc705_open_device_failure_releases_witness :
  exists w',
    kc705_open_device 0 unmappable_regs_world = Ok None w'
    /\ heap w' = heap unmappable_regs_world
    /\ trace w' = trace unmappable_regs_world
                  ++ failed_map_events unmappable_regs_board
                  ++ [EvFree (fresh (dom (heap unmappable_regs_world)))].
Proof.
  apply (kc705_open_device_failure_releases unmappable_regs_world 0 Sim.path
           unmappable_regs_board).
  - lia.
  - reflexivity.
  - reflexivity.
  - reflexivity.
  - right. reflexivity.
Defined.

(** X7.  Open followed by close gives everything back: on a board whose
    register resource opens and maps, [kc705_open_device] returns a handle
    and [kc705_close] of that handle succeeds, unmaps the register window,
    unmaps the data window exactly when it had been mapped, closes the
    descriptor of the register resource and frees the struct, so that the
    heap is as before the open.  The descriptor of the data resource was
    already closed inside the open. *)
Theorem kc705_open_then_close w device_index path dev :
  let paths := pci_scan (bus w) KC705_MAX_DEVICES [] in
  0 <= device_index ->
  paths !! Z.to_nat device_index = Some path ->
  malloc_fails w = false ->
  find_pci path (bus w) = Some dev ->
  0 <= res0_open dev -> res0_mmap_ok dev = true ->
  exists l w1 w2,
    kc705_open_device device_index w = Ok (Some l) w1
    /\ kc705_close (Some l) w1 = Ok KC705_SUCCESS w2
    /\ heap w2 = heap w
    /\ trace w2 = trace w ++ data_fd_events dev
                  ++ [EvMunmap (path, 0%nat) REG_WINDOW_LEN]
                  ++ data_unmap_events path dev
                  ++ [EvCloseFd (res0_open dev); EvFree l].
Proof.
  intros paths H0 Hp Hm Hf Hfd Hmap.
  destruct (kc705_open_device_until_map w device_index path H0 Hp Hm) as [Hfresh ->].
  set (l := fresh (dom (heap w))) in *.
  match goal with |- context [bind (map_pci_device l path) _ ?w1] =>
    destruct (map_pci_device_ok_trace w1 l
                (mk_device 0 NullPtr NullPtr [0; 0; 0; 0; 0; 0] false 0 path)
                path dev) as (w2 & Hrun & Hheap & Htrace);
      [heap_now | heap_now | exact Hfd | exact Hmap |]
  end.
  cbn [heap trace set_heap mem_base bar_size is_open device_id device_path] in Hheap, Htrace.
  rewrite insert_insert_eq in Hheap.
  erewrite bind_ok by exact Hrun.
  cbn [Z.eqb KC705_SUCCESS negb].
  erewrite bind_ok by (apply load_dev_some; rewrite Hheap; heap_now).
  erewrite bind_ok by (eapply store_dev_some; rewrite Hheap; heap_now).
  unfold ret. cbn [pci_fd reg_base mem_base bar_size].
  set (d := mk_device (res0_open dev) (Mapped (path, 0%nat) REG_WINDOW_LEN)
                      (mapped_mem path dev NullPtr) [0; 0; 0; 0; 0; 0] true
                      (u32 device_index) path).
  set (w3 := set_heap (<[l := d]> (heap w2)) w2).
  assert (Hl : heap w3 !! l = Some d) by (subst w3; heap_now).
  exists l, w3. eexists. split; [reflexivity|].
  split; [apply (kc705_close_open w3 l d Hl); reflexivity|].
  cbn [heap trace logs set_heap]. subst w3. cbn [heap trace set_heap].
  rewrite Hheap, Htrace, !delete_insert_eq, delete_id by exact Hfresh.
  split; [reflexivity|].
  rewrite <- app_assoc. f_equal. f_equal.
  unfold close_events, unmap_events, data_unmap_events, d.
  cbn [reg_base mem_base pci_fd]. unfold mapped_mem.
  replace (res0_open dev >=? 0) with true
    by (symmetry; rewrite Z.geb_leb; apply Z.leb_le; lia).
  destruct (res1_open dev >=? 0); [destruct (res1_mmap_ok dev)|]; reflexivity.
Qed.

Lemma kc705_open_then_close_witness :
  exists l w1 w2,
    kc705_open_device 0 one_board_world = Ok (Some l) w1
    /\ kc705_close (Some l) w1 = Ok KC705_SUCCESS w2
    /\ heap w2 = heap one_board_world
    /\ trace w2 = trace one_board_world ++ data_fd_events board
                  ++ [EvMunmap (Sim.path, 0%nat) REG_WINDOW_LEN]
                  ++ data_unmap_events Sim.path board
                  ++ [EvCloseFd (res0_open board); EvFree l].
Proof.
  apply (kc705_open_then_close one_board_world 0 Sim.path board).
  - lia.
  - reflexivity.
  - reflexivity.
  - reflexivity.
  - vm_compute. discriminate.
  - reflexivity.
Defined.

(** ** Registers *)

(** X9.  A reset of an open handle writes RESET to the control register,
    sleeps one millisecond, writes 0, and returns SUCCESS: two register
    writes, one sleep, no read, and the control register holds 0
    afterwards whatever the board did during the sleep.  *)
Theorem kc705_reset_open w l d rb :
  handle_open w l d rb ->
  exists w',
    kc705_reset (Some l) w = Ok KC705_SUCCESS w'
    /\ trace w' = trace w ++ [EvRegWrite rb REG_CONTROL CTRL_RESET; EvSleep 1000;
                              EvRegWrite rb REG_CONTROL 0]
    /\ clock w' = S (clock w)
    /\ heap w' = heap w
    /\ load32 (iomem w' rb) REG_CONTROL = 0.
Proof.
  intros Hd. unfold kc705_reset.
  erewrite bind_ok by (apply (write_reg_open w l d rb); [exact Hd | reflexivity]).
  cbn [Z.eqb KC705_SUCCESS negb].
  erewrite bind_ok by apply usleep_1000.
  match goal with |- context [kc705_write_reg _ _ _ ?w1] =>
    assert (Hd1 : handle_open w1 l d rb)
      by (apply handle_open_logs, (handle_open_heap w); [reflexivity | exact Hd])
  end.
  rewrite (write_reg_open _ l d rb REG_CONTROL 0 Hd1) by reflexivity.
  eexists. split; [reflexivity|].
  cbn [trace clock heap iomem logs tick set_iomem log].
  rewrite upd_bar_same, load32_store32_same, <- !app_assoc.
  repeat split; reflexivity.
Qed.

Lemma kc705_reset_open_witness :
  exists w',
    kc705_reset (Some 0%nat) scenario_world = Ok KC705_SUCCESS w'
    /\ trace w' = trace scenario_world
                  ++ [EvRegWrite Sim.regs REG_CONTROL CTRL_RESET; EvSleep 1000;
                      EvRegWrite Sim.regs REG_CONTROL 0]
    /\ clock w' = S (clock scenario_world)
    /\ heap w' = heap scenario_world
    /\ load32 (iomem w' Sim.regs) REG_CONTROL = 0.
Proof.
  apply (kc705_reset_open scenario_world 0%nat Sim.dev_shared Sim.regs).
  repeat split; reflexivity.
Defined.

(** ** Misuse *)

(** X10.  Misuse never reaches the device: with a null handle or a struct
    that is not open, the register accessors, the reset, the upload, the
    start, the result read and the whole inference return InvalidParam and
    leave the world exactly as it was (no register access, no sleep, the
    record and the read variable untouched), and the debug status reads
    as 0. *)
Theorem misuse_leaves_the_world_alone w device image size result off v :
  not_usable w device ->
  kc705_read_reg device off v w = Ok (KC705_INVALID_PARAM, v) w
  /\ kc705_write_reg device off v w = Ok KC705_INVALID_PARAM w
  /\ kc705_reset device w = Ok KC705_INVALID_PARAM w
  /\ kc705_upload_image device image size w = Ok KC705_INVALID_PARAM w
  /\ kc705_start_inference device w = Ok KC705_INVALID_PARAM w
  /\ kc705_get_result device result w = Ok (KC705_INVALID_PARAM, result) w
  /\ kc705_infer device image size result w = Ok (KC705_INVALID_PARAM, result) w
  /\ kc705_get_debug_status device w = Ok 0 w.
Proof.
  intros [-> | (l & d & -> & Hh & Ho)].
  - repeat split; reflexivity.
  - unfold kc705_get_debug_status, kc705_read_reg, kc705_write_reg, kc705_reset,
      kc705_upload_image, kc705_start_inference, kc705_get_result, kc705_infer,
      kc705_upload_image, kc705_write_reg, bind, load_dev.
    rewrite Hh, Ho. repeat split; reflexivity.
Qed.

Lemma misuse_leaves_the_world_alone_witness :
  kc705_read_reg None REG_STATUS 7 scenario_world = Ok (KC705_INVALID_PARAM, 7) scenario_world
  /\ kc705_write_reg None REG_STATUS 7 scenario_world = Ok KC705_INVALID_PARAM scenario_world
  /\ kc705_reset None scenario_world = Ok KC705_INVALID_PARAM scenario_world
  /\ kc705_upload_image None (Some (Sim.gray 16)) 16 scenario_world
     = Ok KC705_INVALID_PARAM scenario_world
  /\ kc705_start_inference None scenario_world = Ok KC705_INVALID_PARAM scenario_world
  /\ kc705_get_result None (Some Sim.blank) scenario_world
     = Ok (KC705_INVALID_PARAM, Some Sim.blank) scenario_world
  /\ kc705_infer None (Some (Sim.gray 16)) 16 (Some Sim.blank) scenario_world
     = Ok (KC705_INVALID_PARAM, Some Sim.blank) scenario_world
  /\ kc705_get_debug_status None scenario_world = Ok 0 scenario_world.
Proof.
  apply (misuse_leaves_the_world_alone scenario_world None (Some (Sim.gray 16)) 16
           (Some Sim.blank) REG_STATUS 7).
  left. reflexivity.
Defined.

(** ** Files and batches *)

(** X11.  [kc705_infer_file] never classifies anything.  On a null or
    live handle, when the file is missing or the image buffer can be
    allocated, it returns Error for a file that is missing or shorter than
    224*224*3 bytes and InvalidParam otherwise (null handle, handle not
    open, or the 150528-byte image refused by the 4096-byte upload limit),
    with the record and the device left as they were.  When the file
    exists and the allocation fails, the unchecked null pointer is handed
    to [fread]: undefined. *)
Theorem kc705_infer_file_outcome w device filename result :
  handle_live w device ->
  (malloc_fails w = false \/ files w filename = None ->
   kc705_infer_file device filename result w
   = Ok (if loadable w filename then KC705_INVALID_PARAM else KC705_ERROR, result) w)
  /\ (malloc_fails w = true -> files w filename <> None ->
      kc705_infer_file device filename result w = Undef).
Proof.
  intros Hlive. unfold kc705_infer_file, kc705_load_image, loadable. unfold bind at 1.
  unfold bind at 1.
  destruct (files w filename) as [content|].
  2: { split; [reflexivity | intros _ H; contradiction]. }
  split.
  - intros [Hm | Hf]; [|discriminate]. rewrite Hm.
    destruct (Z.of_nat (length content) <? 224 * 224 * 3); [reflexivity|].
    cbn [negb]. unfold kc705_infer, kc705_upload_image.
    destruct Hlive as [-> | (l & d & -> & Hh)]; [reflexivity|].
    unfold bind, load_dev. rewrite Hh. destruct (is_open d); reflexivity.
  - intros Hm _. rewrite Hm. reflexivity.
Qed.

Lemma kc705_infer_file_outcome_witness :
  (malloc_fails image_on_disk = false \/ files image_on_disk "frame.raw" = None ->
   kc705_infer_file (Some 0%nat) "frame.raw" (Some Sim.blank) image_on_disk
   = Ok (if loadable image_on_disk "frame.raw" then KC705_INVALID_PARAM else KC705_ERROR,
         Some Sim.blank) image_on_disk)
  /\ (malloc_fails image_on_disk = true -> files image_on_disk "frame.raw" <> None ->
      kc705_infer_file (Some 0%nat) "frame.raw" (Some Sim.blank) image_on_disk = Undef).
Proof.
  apply (kc705_infer_file_outcome image_on_disk (Some 0%nat) "frame.raw" (Some Sim.blank)).
  right. exists 0%nat, Sim.dev_shared. split; reflexivity.
Defined.

Lemma infer_file_refuses w device filename result :
  handle_live w device -> malloc_fails w = false ->
  kc705_infer_file device filename result w
  = Ok (if loadable w filename then KC705_INVALID_PARAM else KC705_ERROR, result) w.
Proof.
  intros Hlive Hm. unfold kc705_infer_file, kc705_load_image, loadable. unfold bind at 1.
  destruct (files w filename) as [content|]; [|reflexivity]. rewrite Hm.
  destruct (Z.of_nat (length content) <? 224 * 224 * 3); [reflexivity|].
  cbn [negb]. unfold kc705_infer, kc705_upload_image.
  destruct Hlive as [-> | (l & d & -> & Hh)]; [reflexivity|].
  unfold bind, load_dev. rewrite Hh. destruct (is_open d); reflexivity.
Qed.

(** X12.  A batch of this driver processes nothing: on a null or live
    handle, when the image buffers can be allocated and the results array
    has at least one slot, [kc705_infer_batch] returns 0 for every list of
    files, with the array and the device as they were; with no files it
    returns 0 for any array. *)
Theorem kc705_infer_batch_returns_zero w device image_files results :
  handle_live w device -> malloc_fails w = false ->
  results <> [] \/ image_files = [] ->
  kc705_infer_batch device image_files results w = Ok (0%nat, results) w.
Proof.
  intros Hlive Hm Hres. unfold kc705_infer_batch, infer_batch_with.
  destruct Hres as [Hres | ->]; [|reflexivity].
  destruct results as [|slot results]; [contradiction|].
  induction image_files as [|file rest IH]; [reflexivity|].
  cbn [batch_loop]. cbn [lookup list_lookup]. unfold bind at 1.
  rewrite (infer_file_refuses w device file (Some slot) Hlive Hm).
  cbn [fst snd]. cbn [insert list_insert].
  destruct (loadable w file); exact IH.
Qed.

Lemma kc705_infer_batch_returns_zero_witness :
  kc705_infer_batch (Some 0%nat) ["frame.raw"; "missing.raw"] [Sim.blank] image_on_disk
  = Ok (0%nat, [Sim.blank]) image_on_disk.
Proof.
  apply (kc705_infer_batch_returns_zero image_on_disk (Some 0%nat)).
  - right. exists 0%nat, Sim.dev_shared. split; reflexivity.
  - reflexivity.
  - left. discriminate.
Defined.

(** ** Device information *)

Lemma testbit_one (m : Z) : Z.testbit 1 m = (m =? 0).
Proof. destruct m; reflexivity. Qed.

Lemma mask_test (s k : Z) :
  0 <= k -> negb (Z.land s (Z.shiftl 1 k) =? 0) = Z.testbit s k.
Proof.
  intros Hk. destruct (Z.testbit s k) eqn:E.
  - apply negb_true_iff, Z.eqb_neq. intros H0.
    assert (Hb : Z.testbit (Z.land s (Z.shiftl 1 k)) k = true).
    { rewrite Z.land_spec, E, Z.shiftl_spec, Z.sub_diag by lia. reflexivity. }
    rewrite H0, Z.bits_0 in Hb. discriminate.
  - apply negb_false_iff, Z.eqb_eq, Z.bits_inj'. intros n Hn.
    rewrite Z.land_spec, Z.shiftl_spec, Z.bits_0, testbit_one by lia.
    destruct (Z.eqb_spec (n - k) 0) as [H0|H0].
    + replace n with k by lia. rewrite E. reflexivity.
    + apply andb_false_r.
Qed.

(** X13.  On an open handle the device information costs exactly one read
    of the status register: the link flag is bit 3 of that word, and every
    other field is a constant of the driver (vendor 0x10EE, device 0x7024,
    revision 1, the driver version, speed 5, width 8), whatever record the
    caller passed in. *)
Theorem kc705_get_device_info_open w l d rb info0 :
  handle_open w l d rb ->
  kc705_get_device_info (Some l) (Some info0) w
  = Ok (KC705_SUCCESS, Some (info_with_link (Z.testbit (load32 (iomem w rb) REG_STATUS) 3)))
       (logs [EvRegRead rb REG_STATUS] w).
Proof.
  intros Hd. unfold kc705_get_device_info, uninit. unfold bind at 1.
  erewrite bind_ok by (apply (read_reg_open w l d rb); [exact Hd | reflexivity]).
  cbn [snd]. unfold STAT_LINK_UP. rewrite mask_test by lia. reflexivity.
Qed.

Lemma kc705_get_device_info_open_witness :
  kc705_get_device_info (Some 0%nat) (Some (info_with_link true)) scenario_world
  = Ok (KC705_SUCCESS,
        Some (info_with_link (Z.testbit (load32 (iomem scenario_world Sim.regs) REG_STATUS) 3)))
       (logs [EvRegRead Sim.regs REG_STATUS] scenario_world).
Proof.
  apply (kc705_get_device_info_open scenario_world 0%nat Sim.dev_shared Sim.regs).
  repeat split; reflexivity.
Defined.

(** X14.  The device information does not test the open flag: on a live
    struct that is not open it still returns Success, without touching the
    device, and its link flag is bit 3 of the uninitialised status
    variable. *)
Theorem kc705_get_device_info_not_open w l d info0 :
  heap w !! l = Some d -> is_open d = false ->
  kc705_get_device_info (Some l) (Some info0) w
  = Ok (KC705_SUCCESS, Some (info_with_link (Z.testbit (indeterminate w) 3))) w.
Proof.
  intros Hh Ho. unfold kc705_get_device_info, uninit. unfold bind at 1.
  erewrite bind_ok by (apply (read_reg_not_open w l d); assumption).
  cbn [snd]. unfold STAT_LINK_UP. rewrite mask_test by lia. reflexivity.
Qed.

Lemma kc705_get_device_info_not_open_witness :
  kc705_get_device_info (Some 0%nat) (Some (info_with_link false)) closed_world
  = Ok (KC705_SUCCESS, Some (info_with_link (Z.testbit (indeterminate closed_world) 3)))
       closed_world.
Proof.
  apply (kc705_get_device_info_not_open closed_world 0%nat
           (set_is_open false Sim.dev_shared)).
  - reflexivity.
  - reflexivity.
Defined.

(** ** The upload *)

Lemma load32_ext (m m' : Z -> Z) (a : Z) :
  (forall k, 0 <= k < 4 -> m' (a + k) = m (a + k)) -> load32 m' a = load32 m a.
Proof.
  intros H. unfold load32, byte_at.
  rewrite <- (Z.add_0_r a) at 1 5.
  rewrite !H by lia. rewrite Z.add_0_r. reflexivity.
Qed.

(** The upload through the data window, with what it leaves on the
    board. *)
Lemma upload_image_run w l d rb mb img size :
  handle_open w l d rb -> mem_base d = Mapped mb MEM_WINDOW_LEN ->
  0 <= size <= 4096 -> size <= Z.of_nat (length img) ->
  exists w',
    kc705_upload_image (Some l) (Some img) size w = Ok KC705_SUCCESS w'
    /\ heap w' = heap w /\ clock w' = clock w
    /\ trace w' = trace w ++ [EvMemcpy mb KC705_IMAGE_BASE size;
                              EvRegWrite rb REG_IMAGE_SIZE size]
    /\ (forall j, 0 <= j < size ->
          byte_at (iomem w' mb) (KC705_IMAGE_BASE + j) = byte_at (bytes_of img) j)
    /\ (forall b x,
          ~ (b = mb /\ KC705_IMAGE_BASE <= x < KC705_IMAGE_BASE + size) ->
          ~ (b = rb /\ REG_IMAGE_SIZE <= x < REG_IMAGE_SIZE + 4) ->
          iomem w' b x = iomem w b x)
    /\ load32 (iomem w' rb) REG_IMAGE_SIZE = size.
Proof.
  intros Hd Hm Hs Hlen.
  rewrite (upload_image_shared w l d rb mb img size Hd Hm Hs Hlen). cbv zeta.
  eexists. split; [reflexivity|]. cbn [heap clock trace iomem logs set_iomem].
  split; [reflexivity|]. split; [reflexivity|]. split; [reflexivity|].
  split; [|split].
  - intros j Hj.
    assert (Hin : byte_at (copy_bytes (iomem w mb) KC705_IMAGE_BASE (bytes_of img) size)
                          (KC705_IMAGE_BASE + j) = byte_at (bytes_of img) j).
    { unfold byte_at at 1. unfold copy_bytes.
      replace ((KC705_IMAGE_BASE <=? KC705_IMAGE_BASE + j)
               && (KC705_IMAGE_BASE + j <? KC705_IMAGE_BASE + size)) with true
        by (symmetry; apply andb_true_iff; split; [apply Z.leb_le | apply Z.ltb_lt]; lia).
      replace (KC705_IMAGE_BASE + j - KC705_IMAGE_BASE) with j by lia.
      apply byte_at_mod. }
    destruct (bar_eqb mb rb) eqn:Eb.
    + apply bool_decide_eq_true in Eb. subst mb. rewrite !upd_bar_same.
      rewrite byte_at_store32_out
        by (right; unfold REG_IMAGE_SIZE, KC705_IMAGE_BASE; lia).
      exact Hin.
    + rewrite upd_bar_other, upd_bar_same
        by (intros ->; rewrite bar_eqb_refl in Eb; discriminate).
      exact Hin.
  - intros b x Himg Hreg.
    assert (Hcopy : upd_bar (iomem w) mb
                      (copy_bytes (iomem w mb) KC705_IMAGE_BASE (bytes_of img) size) b x
                    = iomem w b x).
    { unfold upd_bar. destruct (bar_eqb b mb) eqn:Eb; [|reflexivity].
      apply bool_decide_eq_true in Eb. subst b. unfold copy_bytes.
      assert (Himg' : ~ KC705_IMAGE_BASE <= x < KC705_IMAGE_BASE + size)
        by (intros ?; apply Himg; split; [reflexivity | assumption]).
      replace ((KC705_IMAGE_BASE <=? x) && (x <? KC705_IMAGE_BASE + size)) with false;
        [reflexivity|].
      symmetry. apply andb_false_iff.
      destruct (Z.leb_spec KC705_IMAGE_BASE x); [|left; reflexivity].
      right. apply Z.ltb_ge. lia. }
    unfold upd_bar at 1. destruct (bar_eqb b rb) eqn:Eb; [|exact Hcopy].
    apply bool_decide_eq_true in Eb. subst b. unfold store32.
    assert (Hreg' : ~ REG_IMAGE_SIZE <= x < REG_IMAGE_SIZE + 4)
      by (intros ?; apply Hreg; split; [reflexivity | assumption]).
    replace ((REG_IMAGE_SIZE <=? x) && (x <? REG_IMAGE_SIZE + 4)) with false
      by (symmetry; apply andb_false_iff;
          destruct (Z.leb_spec REG_IMAGE_SIZE x); [|left; reflexivity];
          right; apply Z.ltb_ge; lia).
    exact Hcopy.
  - rewrite upd_bar_same, load32_store32_same.
    apply u32_small. change (2 ^ 32) with 4294967296. lia.
Qed.

(** X15.  A successful upload puts the buffer on the board.  On an open
    handle with its data window, for a size of at most 4096 and a buffer
    that holds at least that many bytes, the upload is one [memcpy]
    followed by the write of the size register; afterwards byte [j] of the
    buffer is at offset [0x1000 + j] of the data window for every [j] below
    the size, and apart from those bytes and the four bytes of the
    image-size register no byte of any window has changed.  The call does
    not sleep and leaves the struct alone. *)
Theorem kc705_upload_image_places_bytes w l d rb mb img size :
  handle_open w l d rb -> mem_base d = Mapped mb MEM_WINDOW_LEN ->
  0 <= size <= 4096 -> size <= Z.of_nat (length img) ->
  exists w',
    kc705_upload_image (Some l) (Some img) size w = Ok KC705_SUCCESS w'
    /\ heap w' = heap w /\ clock w' = clock w
    /\ trace w' = trace w ++ [EvMemcpy mb KC705_IMAGE_BASE size;
                              EvRegWrite rb REG_IMAGE_SIZE size]
    /\ (forall j, 0 <= j < size ->
          byte_at (iomem w' mb) (KC705_IMAGE_BASE + j) = byte_at (bytes_of img) j)
    /\ (forall b x,
          ~ (b = mb /\ KC705_IMAGE_BASE <= x < KC705_IMAGE_BASE + size) ->
          ~ (b = rb /\ REG_IMAGE_SIZE <= x < REG_IMAGE_SIZE + 4) ->
          iomem w' b x = iomem w b x).
Proof.
  intros Hd Hm Hs Hlen.
  destruct (upload_image_run w l d rb mb img size Hd Hm Hs Hlen)
    as (w' & Hrun & Hheap & Hclock & Htrace & Hbytes & Hframe & _).
  exists w'. repeat split; assumption.
Qed.

Lemma kc705_upload_image_places_bytes_witness :
  exists w',
    kc705_upload_image (Some 0%nat) (Some (ramp 10)) 10 scenario_world
    = Ok KC705_SUCCESS w'
    /\ heap w' = heap scenario_world /\ clock w' = clock scenario_world
    /\ trace w' = trace scenario_world
                  ++ [EvMemcpy Sim.mem KC705_IMAGE_BASE 10;
                      EvRegWrite Sim.regs REG_IMAGE_SIZE 10]
    /\ (forall j, 0 <= j < 10 ->
          byte_at (iomem w' Sim.mem) (KC705_IMAGE_BASE + j) = byte_at (bytes_of (ramp 10)) j)
    /\ (forall b x,
          ~ (b = Sim.mem /\ KC705_IMAGE_BASE <= x < KC705_IMAGE_BASE + 10) ->
          ~ (b = Sim.regs /\ REG_IMAGE_SIZE <= x < REG_IMAGE_SIZE + 4) ->
          iomem w' b x = iomem scenario_world b x).
Proof.
  apply (kc705_upload_image_places_bytes scenario_world 0%nat Sim.dev_shared Sim.regs
           Sim.mem (ramp 10) 10).
  - repeat split; reflexivity.
  - reflexivity.
  - lia.
  - vm_compute. discriminate.
Defined.

(** ** The result read without data window *)

(** X16.  The register fallback of the result read cannot work.  On an
    open handle without data window, when the first DONE is seen in time,
    [kc705_get_result] reads the first result word through the register
    window at offset 0x2000, outside the 4096 bytes that [map_pci_device]
    mapped: the call is undefined (the code compares no offset with the
    length of the window). *)
Theorem kc705_get_result_fallback_undefined w l d rb r0 k :
  handle_open w l d rb -> mem_base d = NullPtr ->
  (k < budget)%nat -> idle_for rb k w = true -> done_at rb w k = true ->
  kc705_get_result (Some l) (Some r0) w = Undef.
Proof.
  intros Hd Hm Hk Hidle Hdone.
  rewrite (get_result_wait w l d rb r0 Hd). cbn zeta.
  rewrite (sleeps_first_done rb k budget w) by (try assumption; lia).
  apply Nat.ltb_lt in Hk. rewrite Hk. unfold bind.
  rewrite (read_result_words_fallback _ l d rb) by
    (try exact Hm; apply handle_open_logs, handle_open_iter_tick; exact Hd).
  reflexivity.
Qed.

Lemma kc705_get_result_fallback_undefined_witness :
  kc705_get_result (Some 0%nat) (Some Sim.blank) fallback_world = Undef.
Proof.
  apply (kc705_get_result_fallback_undefined fallback_world 0%nat Sim.dev_fallback
           Sim.regs Sim.blank 0%nat).
  - repeat split; reflexivity.
  - reflexivity.
  - unfold budget. vm_compute. lia.
  - reflexivity.
  - vm_compute. reflexivity.
Defined.

(** ** A whole inference *)

(** X17.  [kc705_infer] neither clears DONE nor waits for BUSY.  When the
    status register already shows DONE at the call (a finished earlier
    inference) and the board does not act before the first poll, an
    inference on an open handle with its data window returns Success at
    once, without a sleep, and its record is decoded from the result words
    that were on the board before the call; the control register is left
    at START|IRQ_EN and the size register at the size. *)
Theorem kc705_infer_takes_standing_result w l d rb mb img size r0 :
  handle_open w l d rb -> mem_base d = Mapped mb MEM_WINDOW_LEN ->
  0 <= size <= 4096 -> size <= Z.of_nat (length img) ->
  done_now rb w = true ->
  exists w',
    kc705_infer (Some l) (Some img) size (Some r0) w
    = Ok (KC705_SUCCESS, Some (hw_result d rb w)) w'
    /\ clock w' = clock w
    /\ load32 (iomem w' rb) REG_CONTROL = Z.lor CTRL_START CTRL_IRQ_EN
    /\ load32 (iomem w' rb) REG_IMAGE_SIZE = size.
Proof.
  intros Hd Hm Hs Hlen Hdone.
  destruct (upload_image_run w l d rb mb img size Hd Hm Hs Hlen)
    as (w1 & Hrun & Hheap & Hclock & _ & _ & Hframe & Hsize).
  assert (Hd1 : handle_open w1 l d rb) by (apply (handle_open_heap w); assumption).
  unfold kc705_infer. unfold bind at 1. rewrite Hrun.
  cbn [Z.eqb KC705_SUCCESS negb].
  unfold kc705_start_inference. unfold bind at 1. unfold bind at 1. unfold load_dev at 1.
  destruct Hd1 as (Hh1 & Ho & Hr). rewrite Hh1, Ho. cbn [negb].
  assert (Hd1 : handle_open w1 l d rb) by (repeat split; assumption).
  rewrite (write_reg_open w1 l d rb _ _ Hd1) by reflexivity.
  set (w2 := logs _ _).
  assert (Hd2 : handle_open w2 l d rb)
    by (apply handle_open_logs, (handle_open_heap w1); [reflexivity | exact Hd1]).
  assert (Hkeep : forall b x,
             ~ (b = rb /\ 0 <= x < 4) ->
             ~ (b = rb /\ 12 <= x < 16) ->
             ~ (b = mb /\ 4096 <= x < 8192) ->
             iomem w2 b x = iomem w b x).
  { intros b x Hc Hz Hi. unfold w2. cbn [iomem logs set_iomem].
    assert (H1 : iomem w1 b x = iomem w b x).
    { apply Hframe; [|exact Hz]. intros [Hb Hx]. apply Hi. split; [exact Hb|].
      unfold KC705_IMAGE_BASE in Hx. lia. }
    unfold upd_bar. destruct (bar_eqb b rb) eqn:Eb; [|exact H1].
    apply bool_decide_eq_true in Eb. subst b. unfold store32, REG_CONTROL.
    assert (Hc' : ~ 0 <= x < 4) by (intros ?; apply Hc; split; [reflexivity | assumption]).
    replace ((0 <=? x) && (x <? 0 + 4)) with false; [exact H1|].
    symmetry. apply andb_false_iff.
    destruct (Z.leb_spec 0 x); [|left; reflexivity]. right. apply Z.ltb_ge. lia. }
  assert (Hdone2 : done_now rb w2 = true).
  { unfold done_now in *. rewrite <- Hdone. f_equal. apply load32_ext. intros k Hk.
    apply Hkeep; unfold REG_STATUS; intros [_ Hx]; lia. }
  assert (Hres : hw_result d rb w2 = hw_result d rb w).
  { unfold hw_result, result_source. rewrite Hm. cbv zeta.
    f_equal; apply load32_ext; intros k Hk; apply Hkeep;
      unfold KC705_RESULT_BASE; intros [_ Hx]; lia. }
  assert (Hb : (0 < budget)%nat) by (unfold budget, timeout_ms; lia).
  cbn [Z.eqb KC705_SUCCESS negb].
  rewrite (kc705_get_result_done w2 l d rb mb r0 0%nat Hd2 Hm Hb eq_refl Hdone2).
  cbn [Nat.iter nat_rect]. rewrite Hres. eexists. split; [reflexivity|].
  cbn [clock iomem logs]. unfold w2. cbn [clock iomem logs set_iomem].
  rewrite upd_bar_same. split; [exact Hclock|]. split.
  - rewrite load32_store32_same. reflexivity.
  - rewrite load32_store32_other by (unfold REG_IMAGE_SIZE, REG_CONTROL; lia).
    exact Hsize.
Qed.

Lemma kc705_infer_takes_standing_result_witness :
  exists w',
    kc705_infer (Some 0%nat) (Some (ramp 10)) 10 (Some Sim.blank) scenario_world
    = Ok (KC705_SUCCESS, Some (hw_result Sim.dev_shared Sim.regs scenario_world)) w'
    /\ clock w' = clock scenario_world
    /\ load32 (iomem w' Sim.regs) REG_CONTROL = Z.lor CTRL_START CTRL_IRQ_EN
    /\ load32 (iomem w' Sim.regs) REG_IMAGE_SIZE = 10.
Proof.
  apply (kc705_infer_takes_standing_result scenario_world 0%nat Sim.dev_shared Sim.regs
           Sim.mem (ramp 10) 10 Sim.blank).
  - repeat split; reflexivity.
  - reflexivity.
  - lia.
  - vm_compute. discriminate.
  - vm_compute. reflexivity.
Defined.

(** ** The non-blocking result read *)

(** X18.  [kc705_get_result_nowait] never sleeps on an open handle with its
    data window.  When the status register does not show DONE it reads
    that register once and returns Timeout with the record untouched; when
    it shows DONE it reads the status twice (its own test, then the test of
    [kc705_get_result]), reads the three result words from the data window
    and returns Success with the decoded record.  The clock does not
    advance and the device memory does not change in either case. *)
Theorem kc705_get_result_nowait_never_sleeps w l d rb mb r0 :
  handle_open w l d rb -> mem_base d = Mapped mb MEM_WINDOW_LEN ->
  exists w',
    kc705_get_result_nowait (Some l) (Some r0) w
    = Ok (if done_now rb w then (KC705_SUCCESS, Some (hw_result d rb w))
          else (KC705_TIMEOUT, Some r0)) w'
    /\ clock w' = clock w
    /\ iomem w' = iomem w
    /\ trace w' = trace w ++
                  (if done_now rb w
                   then [EvRegRead rb REG_STATUS; EvRegRead rb REG_STATUS]
                        ++ result_events d rb
                   else [EvRegRead rb REG_STATUS]).
Proof.
  intros Hd Hm. destruct (done_now rb w) eqn:Hn.
  - rewrite (kc705_get_result_nowait_done w l d rb (Some r0) Hd Hn).
    assert (Hd1 : handle_open (logs [EvRegRead rb REG_STATUS] w) l d rb)
      by (apply handle_open_logs; exact Hd).
    assert (Hb : (0 < budget)%nat) by (unfold budget, timeout_ms; lia).
    rewrite (kc705_get_result_done _ l d rb mb r0 0%nat Hd1 Hm Hb eq_refl Hn).
    cbn [Nat.iter nat_rect]. eexists. split; [reflexivity|].
    cbn [clock iomem trace logs poll_events app].
    rewrite <- app_assoc. repeat split; reflexivity.
  - rewrite (kc705_get_result_nowait_not_done w l d rb (Some r0) Hd Hn).
    eexists. split; [reflexivity|]. repeat split; reflexivity.
Qed.

Lemma kc705_get_result_nowait_never_sleeps_witness :
  exists w',
    kc705_get_result_nowait (Some 0%nat) (Some Sim.blank) scenario_world
    = Ok (if done_now Sim.regs scenario_world
          then (KC705_SUCCESS, Some (hw_result Sim.dev_shared Sim.regs scenario_world))
          else (KC705_TIMEOUT, Some Sim.blank)) w'
    /\ clock w' = clock scenario_world
    /\ iomem w' = iomem scenario_world
    /\ trace w' = trace scenario_world ++
                  (if done_now Sim.regs scenario_world
                   then [EvRegRead Sim.regs REG_STATUS; EvRegRead Sim.regs REG_STATUS]
                        ++ result_events Sim.dev_shared Sim.regs
                   else [EvRegRead Sim.regs REG_STATUS]).
Proof.
  apply (kc705_get_result_nowait_never_sleeps scenario_world 0%nat Sim.dev_shared
           Sim.regs Sim.mem Sim.blank).
  - repeat split; reflexivity.
  - reflexivity.
Defined.

(** The branch that the scenario takes: DONE is set, the call succeeds
    with the scenario's record after two status reads and three reads of
    the data window. *)
Example nowait_on_the_scenario :
  match kc705_get_result_nowait (Some 0%nat) (Some Sim.blank) scenario_world with
  | Ok (rc, Some r) w' => Some (rc, class_id r, processing_time_us r, trace w')
  | _ => None
  end
  = Some (KC705_SUCCESS, 42, 1500,
          [EvRegRead Sim.regs REG_STATUS; EvRegRead Sim.regs REG_STATUS;
           EvMemRead Sim.mem 8192; EvMemRead Sim.mem 8196; EvMemRead Sim.mem 8200]).
Proof. vm_compute. reflexivity. Qed.

(** ** The unchecked second mapping *)

(** X19.  The result of the second [mmap] is stored without a test.  On a
    board whose register resource opens and maps and whose data resource
    opens but does not map, [kc705_open_device] returns an open handle
    whose data pointer is [MAP_FAILED]; the first upload through that
    handle, of any size up to 4096, copies to the invalid address
    (undefined behaviour) instead of using the register fallback. *)
Theorem unchecked_data_window_mapping w device_index path dev img size :
  0 <= device_index ->
  pci_scan (bus w) KC705_MAX_DEVICES [] !! Z.to_nat device_index = Some path ->
  malloc_fails w = false ->
  find_pci path (bus w) = Some dev ->
  0 <= res0_open dev -> res0_mmap_ok dev = true ->
  0 <= res1_open dev -> res1_mmap_ok dev = false ->
  size <= 4096 ->
  exists l w' d,
    kc705_open_device device_index w = Ok (Some l) w'
    /\ heap w' !! l = Some d
    /\ is_open d = true
    /\ mem_base d = MapFailed
    /\ kc705_upload_image (Some l) (Some img) size w' = Undef.
Proof.
  intros H0 Hp Hm Hf Hfd Hmap Hfd1 Hmap1 Hs.
  destruct (kc705_open_device_ok w device_index path dev H0 Hp Hm Hf Hfd Hmap)
    as (l & w' & d & Hrun & _ & Hh & Ho & Hr & Hmem & _).
  assert (Hmf : mem_base d = MapFailed).
  { rewrite Hmem. unfold mapped_mem.
    replace (res1_open dev >=? 0) with true
      by (symmetry; rewrite Z.geb_leb; apply Z.leb_le; lia).
    rewrite Hmap1. reflexivity. }
  exists l, w', d. repeat split; try assumption.
  rewrite (upload_image_open w' l d (path, 0%nat) img size) by (repeat split; assumption).
  replace (size >? UPLOAD_LIMIT) with false
    by (symmetry; rewrite Z.gtb_ltb; apply Z.ltb_ge; unfold UPLOAD_LIMIT; lia).
  rewrite Hmf. reflexivity.
Qed.

Lemma unchecked_data_window_mapping_witness :
  exists l w' d,
    kc705_open_device 0 unmappable_world = Ok (Some l) w'
    /\ heap w' !! l = Some d
    /\ is_open d = true
    /\ mem_base d = MapFailed
    /\ kc705_upload_image (Some l) (Some (ramp 16)) 16 w' = Undef.
Proof.
  apply (unchecked_data_window_mapping unmappable_world 0 Sim.path
           (mk_pci_dev KC705_VENDOR_ID KC705_DEVICE_ID Sim.path 3 true 4 false) (ramp 16) 16).
  - lia.
  - reflexivity.
  - reflexivity.
  - reflexivity.
  - vm_compute. discriminate.
  - reflexivity.
  - vm_compute. discriminate.
  - reflexivity.
  - lia.
Defined.
